(** * AI Feature Scaffolder: a shallow embedding of the generation core

    The development follows [src/services/input-processor.ts] and
    [src/services/sparc-generator.ts].  JavaScript strings are sequences of
    UTF-16 code units, modelled as [list N]; arrays are lists; [async]
    methods that may throw and read the clock run in the small monad
    [Async].  Built-ins whose full definition lives in the JavaScript
    engine (Unicode lower-casing, the wall clock, properties inherited from
    [Object.prototype]) are the fields of the class [Runtime]. *)

From Stdlib Require Import NArith ZArith String Ascii DecimalString Lia.
From stdpp Require Import base decidable option numbers list.

(** ** The JavaScript fragment the services use *)
Module JS.

Abbreviation jsstring := (list N).

(** An ASCII literal of the source, as code units. *)
Definition js (s : string) : jsstring := map N_of_ascii (list_ascii_of_string s).

(** The escape ['\n'] and the double quote. *)
Definition nl : jsstring := [10%N].
Definition dq : jsstring := [34%N].

(** [s.length], of a string or of an array *)
Definition jsLength {A} (s : list A) : N := N.of_nat (length s).

(** [s === t] on strings *)
Definition strEq (s t : jsstring) : bool := bool_decide (s = t).

(** [!s] on a string: only the empty string is falsy. *)
Definition isFalsy (s : jsstring) : bool :=
  match s with [] => true | _ => false end.

(** [v || d] where [v] is a string or [undefined]. *)
Definition orString (v : option jsstring) (d : jsstring) : jsstring :=
  match v with
  | Some s => if isFalsy s then d else s
  | None => d
  end.

(** [v || d] where [v] is a boolean or [undefined]. *)
Definition orBool (v : option bool) (d : bool) : bool :=
  match v with
  | Some true => true
  | Some false => d
  | None => d
  end.

Fixpoint hasPrefix (p s : jsstring) : bool :=
  match p, s with
  | [], _ => true
  | a :: p', b :: s' => (a =? b)%N && hasPrefix p' s'
  | _ :: _, [] => false
  end.

(** [s.includes(search)] *)
Fixpoint includes (s search : jsstring) : bool :=
  hasPrefix search s
  || match s with
     | [] => false
     | _ :: s' => includes s' search
     end.

(** [arr.includes(x)] on an array of strings *)
Definition arrayIncludes (arr : list jsstring) (x : jsstring) : bool :=
  existsb (strEq x) arr.

(** [arr.indexOf(x)]; [None] stands for -1. *)
Fixpoint indexOf (arr : list jsstring) (x : jsstring) : option nat :=
  match arr with
  | [] => None
  | y :: arr' => if strEq y x then Some 0 else S <$> indexOf arr' x
  end.

(** [arr.join(sep)] *)
Fixpoint join (sep : jsstring) (arr : list jsstring) : jsstring :=
  match arr with
  | [] => []
  | p :: rest =>
      match rest with
      | [] => p
      | _ :: _ => p ++ sep ++ join sep rest
      end
  end.

(** [arr.forEach(f)] where [f] updates the state [S] it closes over. *)
Definition forEach {A S : Type} (arr : list A) (f : S -> A -> S) (s : S) : S :=
  fold_left f arr s.

(** [new Set(arr)] followed by a spread: a Set keeps insertion order and
    ignores a value it already holds. *)
Definition setAdd (seen : list jsstring) (x : jsstring) : list jsstring :=
  if arrayIncludes seen x then seen else seen ++ [x].

Definition spreadSet (arr : list jsstring) : list jsstring :=
  forEach arr setAdd [].

(** Template interpolation of a non-negative integer. *)
Definition numberToString (n : nat) : jsstring :=
  js (NilEmpty.string_of_uint (Nat.to_uint n)).

(** WhiteSpace and LineTerminator code units: what [trim] strips and what
    [\s] matches. *)
Definition isLineTerminator (c : N) : bool :=
  existsb (N.eqb c) [10; 13; 0x2028; 0x2029]%N.

Definition isWhiteSpace (c : N) : bool :=
  existsb (N.eqb c) [9; 11; 12; 32; 160; 0x1680; 0x202F; 0x205F; 0x3000; 0xFEFF]%N
  || ((0x2000 <=? c) && (c <=? 0x200A))%N
  || isLineTerminator c.

Fixpoint trimStart (s : jsstring) : jsstring :=
  match s with
  | [] => []
  | c :: s' => if isWhiteSpace c then trimStart s' else s
  end.

Definition trimEnd (s : jsstring) : jsstring := rev (trimStart (rev s)).

(** [s.trim()] *)
Definition trim (s : jsstring) : jsstring := trimEnd (trimStart s).

(** *** Regular expressions

    The patterns of the source are sequences of single-character atoms,
    starred character classes and anchors.  [exec] is the backtracking
    matcher at one start position: a greedy star first tries to take one
    more character, a lazy star first tries the rest of the pattern.  It
    returns the length of the match. *)
Inductive atom :=
| One (c : N -> bool)
| Many (c : N -> bool)
| Few (c : N -> bool)
| Bol
| Eol.

Abbreviation regex := (list atom).

Fixpoint exec (r : regex) : bool -> jsstring -> option nat :=
  match r with
  | [] => fun _ _ => Some 0
  | One c :: r' => fun _ s =>
      match s with
      | x :: s' => if c x then S <$> exec r' false s' else None
      | [] => None
      end
  | Many c :: r' =>
      fix many (atStart : bool) (s : jsstring) : option nat :=
        match s with
        | x :: s' =>
            if c x then
              match many false s' with
              | Some n => Some (S n)
              | None => exec r' atStart s
              end
            else exec r' atStart s
        | [] => exec r' atStart []
        end
  | Few c :: r' =>
      fix few (atStart : bool) (s : jsstring) : option nat :=
        match exec r' atStart s with
        | Some n => Some n
        | None =>
            match s with
            | x :: s' => if c x then S <$> few false s' else None
            | [] => None
            end
        end
  | Bol :: r' => fun atStart s => if atStart then exec r' atStart s else None
  | Eol :: r' => fun atStart s =>
      match s with
      | [] => exec r' atStart s
      | _ :: _ => None
      end
  end.

(** [re.test(s)]: is there a match at some start index? *)
Fixpoint testFrom (r : regex) (atStart : bool) (s : jsstring) : bool :=
  match exec r atStart s with
  | Some _ => true
  | None =>
      match s with
      | [] => false
      | _ :: s' => testFrom r false s'
      end
  end.

Definition test (r : regex) (s : jsstring) : bool := testFrom r true s.

(** [s.replace(re, repl)] for a pattern with the [g] flag and a replacement
    without [$] patterns.  The scan goes left to right; [skip] counts the
    characters of the current match still to be dropped.  After an empty
    match the scan moves one character on. *)
Fixpoint replaceScan (r : regex) (repl : jsstring) (atStart : bool)
    (skip : nat) (s : jsstring) : jsstring :=
  match s with
  | [] =>
      match skip, exec r atStart [] with
      | 0, Some _ => repl
      | _, _ => []
      end
  | x :: s' =>
      match skip with
      | S k => replaceScan r repl false k s'
      | 0 =>
          match exec r atStart s with
          | Some (S n) => repl ++ replaceScan r repl false n s'
          | Some 0 => repl ++ x :: replaceScan r repl false 0 s'
          | None => x :: replaceScan r repl false 0 s'
          end
      end
  end.

Definition replaceAll (r : regex) (repl : jsstring) (s : jsstring) : jsstring :=
  replaceScan r repl true 0 s.

(** Canonicalize of a pattern with the [i] flag and without the [u] flag.
    A code unit below 128 is compared by its ASCII upper case.  A code unit
    from 128 on canonicalizes to a code unit from 128 on, so it never equals
    the canonical form of an ASCII pattern character: the identity stands
    for it here. *)
Definition canonicalize (c : N) : N :=
  if ((97 <=? c) && (c <=? 122))%N then (c - 32)%N else c.

(** A pattern character under the [i] flag. *)
Definition ci (p : N) : atom := One (fun x => (canonicalize x =? canonicalize p)%N).

(** A pattern character without flags. *)
Definition ch (p : N) : atom := One (N.eqb p).

(** [[^>]] (the same class with and without [i]). *)
Definition notGt (x : N) : bool := negb (canonicalize x =? canonicalize 62)%N.

(** [.] without the [s] flag. *)
Definition dot (x : N) : bool := negb (isLineTerminator x).

(** *** Template text

    [ln] is one line of a template literal with its line break, [block] a
    run of such lines. *)
Definition ln (s : string) : jsstring := js s ++ nl.

Definition block (ls : list string) : jsstring := concat (map ln ls).

(** [/\s+/g] *)
Definition whitespaceRun : regex := [One isWhiteSpace; Many isWhiteSpace].

(** *** [JSON.stringify(value, null, 2)] on objects of strings *)
#[warnings="-register-all"]
Inductive json :=
| JStr (s : jsstring)
| JObj (props : list (jsstring * json)).

Definition hexDigit (d : N) : N :=
  if (d <? 10)%N then (48 + d)%N else (87 + d)%N.

(** [\uXXXX] with lower-case digits *)
Definition unicodeEscape (c : N) : jsstring :=
  js "\u"
  ++ [hexDigit (c / 4096 mod 16); hexDigit (c / 256 mod 16);
      hexDigit (c / 16 mod 16); hexDigit (c mod 16)]%N.

Definition isLeadingSurrogate (c : N) : bool := ((0xD800 <=? c) && (c <=? 0xDBFF))%N.
Definition isTrailingSurrogate (c : N) : bool := ((0xDC00 <=? c) && (c <=? 0xDFFF))%N.

(** The escape of one code unit that is not part of a surrogate pair. *)
Definition quoteUnit (c : N) : jsstring :=
  if (c =? 8)%N then js "\b"
  else if (c =? 9)%N then js "\t"
  else if (c =? 10)%N then js "\n"
  else if (c =? 12)%N then js "\f"
  else if (c =? 13)%N then js "\r"
  else if (c =? 34)%N then js "\" ++ dq
  else if (c =? 92)%N then js "\\"
  else if (c <? 32)%N || isLeadingSurrogate c || isTrailingSurrogate c
  then unicodeEscape c
  else [c].

(** QuoteJSONString walks the code points: a leading surrogate followed by
    a trailing one is copied, a lone surrogate is escaped. *)
Fixpoint quoteBody (s : jsstring) : jsstring :=
  match s with
  | [] => []
  | c :: s' =>
      match s' with
      | d :: s'' =>
          if isLeadingSurrogate c && isTrailingSurrogate d
          then c :: d :: quoteBody s''
          else quoteUnit c ++ quoteBody s'
      | [] => quoteUnit c
      end
  end.

Definition quoteJSON (s : jsstring) : jsstring := dq ++ quoteBody s ++ dq.

Definition gap : jsstring := js "  ".

Fixpoint stringifyAt (indent : jsstring) (v : json) : jsstring :=
  match v with
  | JStr s => quoteJSON s
  | JObj props =>
      let stepback := indent in
      let indent := indent ++ gap in
      let partial :=
        map (fun kv => quoteJSON (fst kv) ++ js ": " ++ stringifyAt indent (snd kv))
            props in
      match partial with
      | [] => js "{}"
      | _ :: _ =>
          js "{" ++ nl ++ indent ++ join (js "," ++ nl ++ indent) partial
          ++ nl ++ stepback ++ js "}"
      end
  end.

Definition stringify (v : json) : jsstring := stringifyAt [] v.

(** ASCII lower-casing of one code unit. *)
Definition lowerAscii (c : N) : N :=
  if ((65 <=? c) && (c <=? 90))%N then (c + 32)%N else c.

(** What the services take from the engine.
    - [toLowerCase]: [String.prototype.toLowerCase]; on a string of code
      units below 128 it is the ASCII lower-casing.
    - [inheritedText k]: when [k] names a property that an object literal
      inherits from [Object.prototype], the text that value interpolates to
      in a template.
    - [isoNow n]: what [new Date().toISOString()] returns at the [n]-th
      reading of the clock. *)
Class Runtime := {
  toLowerCase : jsstring -> jsstring;
  toLowerCase_ascii :
    forall s, Forall (fun c => (c < 128)%N) s -> toLowerCase s = map lowerAscii s;
  inheritedText : jsstring -> option jsstring;
  isoNow : nat -> jsstring
}.

(** [obj[key] || d] on an object literal with string values: own properties
    first, then the prototype chain. *)
Definition propertyOr `{Runtime} (obj : list (jsstring * jsstring))
    (key d : jsstring) : jsstring :=
  match List.find (fun kv => strEq (fst kv) key) obj with
  | Some kv => if isFalsy (snd kv) then d else snd kv
  | None =>
      match inheritedText key with
      | Some text => text
      | None => d
      end
  end.

(** *** Asynchronous methods

    A method body runs to a value or to a thrown [Error] (its message) and
    may read the clock; [await] is sequencing. *)
Inductive outcome (A : Type) :=
| Returned (a : A)
| Thrown (message : jsstring).
Arguments Returned {A} a.
Arguments Thrown {A} message.

Definition Async (A : Type) : Type := nat -> outcome A * nat.

Definition resolve {A} (a : A) : Async A := fun w => (Returned a, w).

Definition throwError {A} (message : jsstring) : Async A :=
  fun w => (Thrown message, w).

Definition await {A B} (m : Async A) (k : A -> Async B) : Async B :=
  fun w =>
    match m w with
    | (Returned a, w') => k a w'
    | (Thrown e, w') => (Thrown e, w')
    end.

(** [try { body } catch (error) { handler }] with [error.message] bound. *)
Definition tryCatch {A} (body : Async A) (handler : jsstring -> Async A) : Async A :=
  fun w =>
    match body w with
    | (Returned a, w') => (Returned a, w')
    | (Thrown e, w') => handler e w'
    end.

(** [new Date().toISOString()] *)
Definition dateNowISO `{Runtime} : Async jsstring :=
  fun w => (Returned (isoNow w), S w).

(** [for (const x of arr) { acc.push(await f(x)) }] *)
Fixpoint forOfPush {A B} (arr : list A) (f : A -> Async B) (acc : list B)
    : Async (list B) :=
  match arr with
  | [] => resolve acc
  | x :: arr' => await (f x) (fun y => forOfPush arr' f (acc ++ [y]))
  end.

End JS.

Import JS.

(** ** The records of [src/types] *)
Module Types.

Record ValidationResult := {
  isValid : bool;
  errors : list jsstring;
  sanitizedInput : option jsstring
}.

Record ExtractedEntities := {
  features : list jsstring;
  technologies : list jsstring;
  requirements : list jsstring;
  constraints : list jsstring
}.

Record ProjectCategory := {
  type : jsstring;
  complexity : jsstring
}.

Record EstimatedTimeline := {
  phases : list jsstring;
  totalWeeks : N
}.

Record TechnologySuggestions := {
  suggested : list jsstring;
  alternatives : list jsstring
}.

(** The literal fields [process] copies from the request; a field may be
    absent on a spec that reaches [generate] by another way. *)
Record RequestMetadata := {
  rmComplexity : option jsstring;
  rmFramework : option jsstring;
  rmIncludeTests : option bool;
  rmIncludeDocs : option bool;
  rmAiProvider : option jsstring
}.

(** [StructuredSpec]; [requestMetadata] is the optional annotation that
    [process] adds. *)
Record StructuredSpec := {
  projectName : jsstring;
  description : jsstring;
  specFeatures : list jsstring;
  specTechnologies : TechnologySuggestions;
  specRequirements : list jsstring;
  specConstraints : list jsstring;
  acceptanceCriteria : list jsstring;
  estimatedTimeline : EstimatedTimeline;
  requestMetadata : option RequestMetadata
}.

Record SparcMetadata := {
  generatedAt : jsstring;
  mdProjectName : jsstring;
  mdComplexity : jsstring;
  mdPhase : jsstring;
  mdTechnologies : list jsstring
}.

Record SparcFile := {
  phase : jsstring;
  content : jsstring;
  metadata : SparcMetadata
}.

Record FeatureRequest := {
  frDescription : jsstring;
  frComplexity : jsstring;
  frFramework : jsstring;
  frIncludeTests : bool;
  frIncludeDocs : bool;
  frAiProvider : jsstring
}.

Record GeneratedFile := {
  name : jsstring;
  fileContent : jsstring;
  fileType : jsstring
}.

(** [Omit<SparcOutput, 'generationTime' | 'timestamp'>] *)
Record SparcOutput := {
  files : list GeneratedFile;
  specification : jsstring;
  architecture : jsstring
}.

Record ProcessedInput := {
  piIsValid : bool;
  piErrors : option (list jsstring);
  data : option StructuredSpec
}.

End Types.

Import Types.

(** ** [class InputProcessor] *)
Module InputProcessor.

Definition MIN_LENGTH : N := 10.
Definition MAX_LENGTH : N := 10000.

(** [/<script[^>]*>.*?<\/script>/gi] *)
Definition scriptBlock : regex :=
  map ci (js "<script") ++ [Many notGt; ci 62; Few dot] ++ map ci (js "</script>").

(** [/<[^>]*>/g] *)
Definition anyTag : regex := [ch 60; Many notGt; ch 62].

(** [/^[\x00-\x7F\u0080-\uFFFF]*$/] *)
Definition inRange (c : N) : bool :=
  ((0 <=? c) && (c <=? 0x7F) || (0x80 <=? c) && (c <=? 0xFFFF))%N.

Definition encodingPattern : regex := [Bol; Many inRange; Eol].

Definition sanitizeInput (input : jsstring) : jsstring :=
  trim (replaceAll anyTag [] (replaceAll scriptBlock [] input)).

(** The [try] block around the encoding check holds two calls that do not
    throw on a string, so its [catch] branch is left out. *)
Definition validateInput (input : jsstring) : ValidationResult :=
  let errors : list jsstring := [] in
  if isFalsy input || (jsLength (trim input) =? 0)%N then
    let errors := errors ++ [js "Input is required"] in
    {| isValid := false; errors := errors; sanitizedInput := None |}
  else
    let errors :=
      if (jsLength input <? MIN_LENGTH)%N
      then errors ++ [js "Input must be at least 10 characters"]
      else errors in
    let errors :=
      if (MAX_LENGTH <? jsLength input)%N
      then errors ++ [js "Input exceeds maximum length of 10000 characters"]
      else errors in
    let errors :=
      if includes input [0xFFFD%N] || negb (test encodingPattern input)
      then errors ++ [js "Invalid character encoding detected"]
      else errors in
    let sanitizedInput := sanitizeInput input in
    {| isValid := (jsLength errors =? 0)%N;
       errors := errors;
       sanitizedInput := Some sanitizedInput |}.

Section WithRuntime.
Context `{Runtime}.

(** The canonical casing chosen by the nested conditional. *)
Definition canonicalTech (tech : jsstring) : jsstring :=
  if strEq tech (js "node.js") then js "Node.js"
  else if strEq tech (js "postgresql") then js "PostgreSQL"
  else if strEq tech (js "redis") then js "Redis"
  else if strEq tech (js "docker") then js "Docker"
  else if strEq tech (js "react") then js "React"
  else tech.

Definition extractEntities (input : jsstring) : ExtractedEntities :=
  let lowerInput := toLowerCase input in
  let features : list jsstring := [] in
  let features :=
    if includes lowerInput (js "blog application")
    then features ++ [js "blog application"] else features in
  let features :=
    if includes lowerInput (js "user authentication")
    then features ++ [js "user authentication"] else features in
  let features :=
    if includes lowerInput (js "todo app")
    then features ++ [js "todo app"] else features in
  let techKeywords :=
    [js "node.js"; js "postgresql"; js "redis"; js "docker"; js "react"] in
  let technologies :=
    forEach techKeywords
      (fun technologies tech =>
         if includes lowerInput tech
         then technologies ++ [canonicalTech tech] else technologies) [] in
  let requirements :=
    [js "user registration"; js "product catalog"; js "payment processing";
     js "shopping cart"; js "order management"; js "admin dashboard";
     js "email notifications"; js "mobile responsive"; js "seo optimization";
     js "analytics integration"] in
  let requirements :=
    forEach requirements
      (fun acc req => if includes lowerInput req then acc ++ [req] else acc) [] in
  let constraints : list jsstring := [] in
  let constraints :=
    if includes lowerInput (js "< 10ms latency")
    then constraints ++ [js "< 10ms latency"] else constraints in
  let constraints :=
    if includes lowerInput (js "multi-factor authentication")
    then constraints ++ [js "Multi-factor authentication"] else constraints in
  {| features := features;
     technologies := technologies;
     requirements := requirements;
     constraints := constraints |}.

Definition categorizeProject (input : jsstring) : ProjectCategory :=
  let lowerInput := toLowerCase input in
  if includes lowerInput (js "e-commerce")
     || includes lowerInput (js "shopping")
     || includes lowerInput (js "payment")
  then {| type := js "e-commerce"; complexity := js "high" |}
  else if includes lowerInput (js "microservices")
          || includes lowerInput (js "financial trading")
  then {| type := js "microservices"; complexity := js "enterprise" |}
  else if includes lowerInput (js "todo") && (jsLength lowerInput <? 50)%N
  then {| type := js "utility"; complexity := js "low" |}
  else {| type := js "web-application"; complexity := js "medium" |}.

Definition extractProjectName (input : jsstring) : jsstring :=
  let lowerInput := toLowerCase input in
  if includes lowerInput (js "blog") then js "Blog Application"
  else if includes lowerInput (js "e-commerce") then js "E-commerce Platform"
  else if includes lowerInput (js "todo") then js "Todo Application"
  else if includes lowerInput (js "trading") then js "Trading Platform"
  else js "Web Application".

Definition generateDescription (input : jsstring) (entities : ExtractedEntities)
    : jsstring :=
  js "A comprehensive application featuring " ++ join (js ", ") (features entities).

Definition suggestTechnologies (category : ProjectCategory)
    (entities : ExtractedEntities) : list jsstring :=
  let suggested := [js "React"; js "Node.js"] in
  let suggested :=
    if strEq (complexity category) (js "high")
       || strEq (complexity category) (js "enterprise")
    then suggested ++ [js "PostgreSQL"; js "Redis"]
    else suggested in
  let suggested := suggested ++ technologies entities in
  spreadSet suggested.

Definition generateAcceptanceCriteria (entities : ExtractedEntities)
    : list jsstring :=
  map (fun feature => js "User should be able to use " ++ feature ++ js " successfully")
      (features entities).

Definition estimateTimeline (category : ProjectCategory)
    (entities : ExtractedEntities) : EstimatedTimeline :=
  let baseWeeks : N :=
    (if strEq (complexity category) (js "low") then 2
     else if strEq (complexity category) (js "medium") then 8
     else if strEq (complexity category) (js "high") then 16
     else 24)%N in
  {| phases := [js "Planning"; js "Development"; js "Testing"; js "Deployment"];
     totalWeeks := baseWeeks |}.

Definition generateStructuredSpec (input : jsstring) : Async StructuredSpec :=
  tryCatch
    (let entities := extractEntities input in
     let category := categorizeProject input in
     let spec :=
       {| projectName := extractProjectName input;
          description := generateDescription input entities;
          specFeatures := features entities;
          specTechnologies :=
            {| suggested := suggestTechnologies category entities;
               alternatives := [] |};
          specRequirements := requirements entities;
          specConstraints := constraints entities;
          acceptanceCriteria := generateAcceptanceCriteria entities;
          estimatedTimeline := estimateTimeline category entities;
          requestMetadata := None |} in
     resolve spec)
    (fun _ => throwError (js "Failed to process input")).

Definition process (request : FeatureRequest) : Async ProcessedInput :=
  tryCatch
    (let validation := validateInput (frDescription request) in
     if negb (isValid validation) then
       resolve {| piIsValid := false;
                  piErrors := Some (errors validation);
                  data := None |}
     else
       await (generateStructuredSpec (frDescription request)) (fun spec =>
       let enhancedSpec :=
         {| projectName := projectName spec;
            description := description spec;
            specFeatures := specFeatures spec;
            specTechnologies := specTechnologies spec;
            specRequirements := specRequirements spec;
            specConstraints := specConstraints spec;
            acceptanceCriteria := acceptanceCriteria spec;
            estimatedTimeline := estimatedTimeline spec;
            requestMetadata :=
              Some {| rmComplexity := Some (frComplexity request);
                      rmFramework := Some (frFramework request);
                      rmIncludeTests := Some (frIncludeTests request);
                      rmIncludeDocs := Some (frIncludeDocs request);
                      rmAiProvider := Some (frAiProvider request) |} |} in
       resolve {| piIsValid := true; piErrors := None; data := Some enhancedSpec |}))
    (fun message =>
       resolve {| piIsValid := false;
                  piErrors := Some [js "Processing failed: " ++ message];
                  data := None |}).

End WithRuntime.

End InputProcessor.

(** ** [class SparcGenerator] *)
Module SparcGenerator.

#[local] Open Scope string_scope.
#[local] Open Scope list_scope.
#[local] Open Scope stdpp_scope.

Definition validPhases : list jsstring :=
  [js "specification"; js "pseudocode"; js "architecture"; js "refinement";
   js "completion"].

(** [titles[phase]]; the method is reached with a valid phase only, whose
    title is an own property of the literal. *)
Definition getPhaseTitle (phase : jsstring) : option jsstring :=
  snd <$> List.find (fun kv => strEq (fst kv) phase)
    [(js "specification", js "Specification");
     (js "pseudocode", js "Pseudocode");
     (js "architecture", js "Architecture");
     (js "refinement", js "Refinement");
     (js "completion", js "Completion")].

Definition determineComplexity (spec : StructuredSpec) : jsstring :=
  let featureCount := jsLength (specFeatures spec) in
  let hasComplexFeatures :=
    ((3 <? jsLength (specRequirements spec))
     || (1 <? jsLength (specConstraints spec)))%N in
  if (featureCount <=? 2)%N && negb hasComplexFeatures then js "low"
  else if (featureCount <=? 5)%N && negb hasComplexFeatures then js "medium"
  else js "high".

Section WithRuntime.
Context `{Runtime}.

Definition getTechnologyDescription (tech : jsstring) : jsstring :=
  let descriptions :=
    [(js "React", js "Frontend user interface framework");
     (js "Node.js", js "Backend JavaScript runtime");
     (js "PostgreSQL", js "Relational database management system");
     (js "Redis", js "In-memory data structure store for caching");
     (js "Docker", js "Containerization platform");
     (js "Express", js "Web application framework for Node.js")] in
  propertyOr descriptions tech (js "Technology component").

Definition generateSpecificationContent (phaseNumber : nat) (spec : StructuredSpec)
    : jsstring :=
  js "# Phase " ++ numberToString phaseNumber ++ js ": Specification - " ++ projectName spec ++ nl
  ++ block ["";
           "## Project Overview"]
  ++ description spec ++ nl
  ++ block ["";
           "## Technology Stack"]
  ++ (join nl
      (map (fun tech =>
         js "- " ++ tech)
         (suggested (specTechnologies spec)))) ++ nl
  ++ block ["";
           "## Core Functional Requirements"]
  ++ (join (nl ++ nl)
      (imap (fun index feature =>
         js "### FR" ++ numberToString (index + 1) ++ js ": " ++ feature ++ nl
         ++ js "- Implementation of " ++ feature ++ nl
         ++ ln "- User interface components"
         ++ js "- Backend service integration")
         (specFeatures spec))) ++ nl
  ++ block ["";
           "## Non-Functional Requirements"]
  ++ (join nl
      (map (fun req =>
         js "- " ++ req)
         (specRequirements spec))) ++ nl
  ++ block ["";
           "## Technical Constraints"]
  ++ (join nl
      (map (fun constraint =>
         js "- " ++ constraint)
         (specConstraints spec))) ++ nl
  ++ block ["";
           "## Acceptance Criteria"]
  ++ (join nl
      (imap (fun index criteria =>
         numberToString (index + 1) ++ js ". " ++ criteria)
         (acceptanceCriteria spec))) ++ nl
  ++ block ["";
           "## Success Metrics";
           "- User satisfaction rating > 4.0/5.0";
           "- System uptime > 99.9%";
           "- Response time < 200ms for critical operations";
           "- Security compliance with industry standards"].

Definition generatePseudocodeContent (phaseNumber : nat) (spec : StructuredSpec)
    : jsstring :=
  js "# Phase " ++ numberToString phaseNumber ++ js ": Pseudocode - " ++ projectName spec ++ nl
  ++ block ["";
           "## Core Algorithm Design";
           ""]
  ++ (join nl
      (map (fun feature =>
         js "### " ++ feature ++ js " Flow" ++ nl
         ++ ln "```"
         ++ js "FUNCTION handle" ++ replaceAll whitespaceRun [] feature ++ js "():" ++ nl
         ++ block ["  BEGIN";
                  "    VALIDATE user input";
                  "    AUTHENTICATE user session";
                  "    PROCESS business logic";
                  "    UPDATE data store";
                  "    RETURN success response";
                  "  END";
                  "```"])
         (specFeatures spec))) ++ nl
  ++ block ["";
           "## Data Structures";
           "```";
           "STRUCTURE User:";
           "  id: INTEGER";
           "  username: STRING";
           "  email: STRING";
           "  createdAt: TIMESTAMP";
           "  "]
  ++ js "STRUCTURE " ++ replaceAll whitespaceRun [] (projectName spec) ++ js "Data:" ++ nl
  ++ block ["  id: INTEGER";
           "  userId: INTEGER (FK)";
           "  content: JSON";
           "  updatedAt: TIMESTAMP";
           "```";
           "";
           "## Error Handling";
           "```";
           "FUNCTION handleError(error):";
           "  LOG error details"]
  ++ js "  IF error.type == " ++ dq ++ js "VALIDATION" ++ dq ++ js ":" ++ nl
  ++ ln "    RETURN user-friendly message"
  ++ js "  ELSE IF error.type == " ++ dq ++ js "AUTH" ++ dq ++ js ":" ++ nl
  ++ block ["    REDIRECT to login";
           "  ELSE:";
           "    RETURN generic error message";
           "```"].

Definition generateArchitectureContent (phaseNumber : nat) (spec : StructuredSpec)
    : jsstring :=
  let hasDatabase :=
    existsb (arrayIncludes [js "PostgreSQL"; js "MySQL"; js "MongoDB"]) (suggested (specTechnologies spec)) in
  let hasCache := arrayIncludes (suggested (specTechnologies spec)) (js "Redis") in
  let complexity := determineComplexity spec in
  let isComplex :=
    strEq complexity (js "high") || (3 <? jsLength (specRequirements spec))%N in
  let architectureContent :=
    js "# Phase " ++ numberToString phaseNumber ++ js ": Architecture - " ++ projectName spec ++ nl
    ++ block ["";
             "## System Architecture";
             "```"]
    ++ js "Frontend (" ++ orString (List.find (arrayIncludes [js "React"; js "Vue"; js "Angular"]) (suggested (specTechnologies spec)))
     (js "React") ++ js ")" ++ nl
    ++ js "    " ++ [0x2193%N] ++ nl
    ++ ln "API Gateway"
    ++ js "    " ++ [0x2193%N] in
  let architectureContent :=
    if isComplex then
      architectureContent
      ++ block ["";
               "Microservices Architecture"]
      ++ js "    " ++ [0x251C%N] ++ [0x2500%N] ++ [0x2500%N] ++ js " Auth Service" ++ nl
      ++ js "    " ++ [0x251C%N] ++ [0x2500%N] ++ [0x2500%N] ++ js " Core Service" ++ nl
      ++ js "    " ++ [0x2514%N] ++ [0x2500%N] ++ [0x2500%N] ++ js " Notification Service"
    else
      architectureContent
      ++ ln ""
      ++ js "Backend Service (" ++ orString (List.find (arrayIncludes [js "Node.js"; js "Express"]) (suggested (specTechnologies spec)))
           (js "Node.js") ++ js ")" in
  let architectureContent :=
    if hasCache then
      architectureContent
      ++ ln ""
      ++ js "    " ++ [0x2193%N] ++ nl
      ++ js "Cache Layer (Redis)"
    else architectureContent in
  let architectureContent :=
    if hasDatabase then
      let dbTech :=
        orString
          (List.find (arrayIncludes [js "PostgreSQL"; js "MySQL"; js "MongoDB"]) (suggested (specTechnologies spec)))
          (js "PostgreSQL") in
      architectureContent
      ++ ln ""
      ++ js "    " ++ [0x2193%N] ++ nl
      ++ js "Database (" ++ dbTech ++ js ")"
    else architectureContent in
  let architectureContent :=
    architectureContent
    ++ block ["";
             "```";
             "";
             "## Component Structure"]
    ++ (join nl
    (map (fun tech =>
       js "- " ++ tech ++ js ": " ++ getTechnologyDescription tech)
       (suggested (specTechnologies spec)))) ++ nl
    ++ block ["";
             "## Security Architecture";
             "- Authentication: JWT tokens with refresh mechanism";
             "- Authorization: Role-based access control (RBAC)";
             "- Data encryption: AES-256 for sensitive data";
             "- API security: Rate limiting, input validation, CORS";
             "";
             "## Scalability Considerations";
             "- Horizontal scaling capability";
             "- Database connection pooling";
             "- Caching strategy for frequently accessed data";
             "- Load balancing across service instances"] in
  architectureContent.

Definition generateRefinementContent (phaseNumber : nat) (spec : StructuredSpec)
    : jsstring :=
  js "# Phase " ++ numberToString phaseNumber ++ js ": Refinement - " ++ projectName spec ++ nl
  ++ block ["";
           "## Test-Driven Development Plan";
           "1. Write unit tests for core business logic";
           "2. Create integration tests for API endpoints";
           "3. Develop end-to-end tests for user workflows";
           "4. Implement components to pass tests";
           "5. Refactor for performance and maintainability";
           "";
           "## Testing Strategy";
           "### Unit Tests (Target: 90% coverage)"]
  ++ (join nl
      (map (fun feature =>
         js "- " ++ feature ++ js " service tests" ++ nl
         ++ js "- " ++ feature ++ js " validation tests" ++ nl
         ++ js "- " ++ feature ++ js " error handling tests")
         (specFeatures spec))) ++ nl
  ++ block ["";
           "### Integration Tests"]
  ++ (join nl
      (map (fun feature =>
         js "- " ++ feature ++ js " API endpoint tests" ++ nl
         ++ js "- " ++ feature ++ js " database interaction tests")
         (specFeatures spec))) ++ nl
  ++ block ["";
           "### End-to-End Tests"]
  ++ (join nl
      (map (fun feature =>
         js "- " ++ feature ++ js " user workflow tests")
         (specFeatures spec))) ++ nl
  ++ block ["";
           "## Performance Optimization";
           "- Database query optimization";
           "- Implement caching for frequently accessed data";
           "- API response compression";
           "- Frontend bundle optimization";
           "- Image and asset optimization";
           "";
           "## Code Quality Standards";
           "- ESLint configuration for consistent code style";
           "- Prettier for automatic code formatting";
           "- TypeScript for type safety";
           "- Code review process requirements";
           "- Pre-commit hooks for quality checks";
           "";
           "## Monitoring and Logging";
           "- Application performance monitoring (APM)";
           "- Error tracking and alerting";
           "- User activity analytics";
           "- System health metrics";
           "- Audit trail for critical operations"].

Definition generateCompletionContent (phaseNumber : nat) (spec : StructuredSpec)
    : jsstring :=
  js "# Phase " ++ numberToString phaseNumber ++ js ": Completion - " ++ projectName spec ++ nl
  ++ block ["";
           "## Deployment Strategy";
           "### Environment Setup";
           "- Development: Local development with hot reload";
           "- Staging: Production-like environment for testing";
           "- Production: High-availability deployment";
           "";
           "### CI/CD Pipeline";
           "1. Code commit triggers automated tests";
           "2. Build and package application";
           "3. Deploy to staging environment";
           "4. Run integration and E2E tests";
           "5. Deploy to production with blue-green strategy";
           "";
           "### Infrastructure";
           "- Containerization with Docker";
           "- Orchestration with Kubernetes (if complex) or Docker Compose";
           "- Cloud deployment (AWS/Azure/GCP)";
           "- Database backup and recovery procedures";
           "";
           "## Documentation";
           "### Technical Documentation";
           "- API documentation with OpenAPI/Swagger";
           "- Database schema documentation";
           "- Architecture decision records (ADRs)";
           "- Deployment and operations guide";
           "";
           "### User Documentation"]
  ++ js "- User guide for " ++ toLowerCase (projectName spec) ++ nl
  ++ block ["- FAQ and troubleshooting guide";
           "- Feature tutorials and walkthroughs";
           "- Getting started guide";
           "";
           "## Maintenance and Support";
           "### Monitoring";
           "- Application performance metrics";
           "- Error rate monitoring";
           "- User engagement analytics";
           "- System resource utilization";
           "";
           "### Updates and Maintenance";
           "- Regular security updates";
           "- Feature enhancement roadmap";
           "- Bug fix prioritization process";
           "- User feedback integration";
           "";
           "## Success Criteria Validation"]
  ++ (join nl
      (imap (fun index criteria =>
         numberToString (index + 1) ++ js ". " ++ [0x2705%N] ++ js " " ++ criteria)
         (acceptanceCriteria spec))) ++ nl
  ++ block ["";
           "## Project Handover";
           "- Code repository access and permissions";
           "- Documentation and knowledge transfer";
           "- Support contact information";
           "- Maintenance schedule and procedures"].

(** The body of [generatePhaseContent]; [indexOf] gives -1 on a name that
    is not listed, hence phase number 0. *)
Definition generatePhaseContent (phase : jsstring) (spec : StructuredSpec)
    : Async jsstring :=
  let phaseNumber :=
    match indexOf validPhases phase with
    | Some i => i + 1
    | None => 0
    end in
  let phaseTitle := getPhaseTitle phase in
  if strEq phase (js "specification")
  then resolve (generateSpecificationContent phaseNumber spec)
  else if strEq phase (js "pseudocode")
  then resolve (generatePseudocodeContent phaseNumber spec)
  else if strEq phase (js "architecture")
  then resolve (generateArchitectureContent phaseNumber spec)
  else if strEq phase (js "refinement")
  then resolve (generateRefinementContent phaseNumber spec)
  else if strEq phase (js "completion")
  then resolve (generateCompletionContent phaseNumber spec)
  else throwError (js "Unknown phase: " ++ phase).

(** [generatePhase] and [generateAllPhases] reach the content generator
    through [this], so a caller may replace it (the tests do, with a
    generator that rejects); [contentMethod] is that method. *)
Section Dispatch.
Variable contentMethod : jsstring -> StructuredSpec -> Async jsstring.

Definition generatePhaseVia (phase : jsstring) (spec : StructuredSpec)
    : Async SparcFile :=
  if negb (arrayIncludes validPhases phase)
  then throwError (js "Invalid phase name")
  else
    await (contentMethod phase spec) (fun text =>
    await dateNowISO (fun now =>
    resolve
      {| phase := phase;
         content := text;
         metadata :=
           {| generatedAt := now;
              mdProjectName := projectName spec;
              mdComplexity := determineComplexity spec;
              mdPhase := phase;
              mdTechnologies := suggested (specTechnologies spec) |} |})).

Definition generateAllPhasesVia (spec : StructuredSpec) : Async (list SparcFile) :=
  tryCatch
    (let sparcFiles : list SparcFile := [] in
     forOfPush validPhases (fun phase => generatePhaseVia phase spec) sparcFiles)
    (fun _ => throwError (js "Failed to generate SPARC documentation")).

End Dispatch.

Definition generatePhase : jsstring -> StructuredSpec -> Async SparcFile :=
  generatePhaseVia generatePhaseContent.

Definition generateAllPhases : StructuredSpec -> Async (list SparcFile) :=
  generateAllPhasesVia generatePhaseContent.

Definition generatePackageJson (spec : StructuredSpec) : jsstring :=
  stringify (JObj
    [(js "name",
      JStr (replaceAll whitespaceRun (js "-") (toLowerCase (projectName spec))));
     (js "version", JStr (js "1.0.0"));
     (js "description", JStr (description spec));
     (js "main", JStr (js "src/index.tsx"));
     (js "scripts", JObj
        [(js "start", JStr (js "react-scripts start"));
         (js "build", JStr (js "react-scripts build"));
         (js "test", JStr (js "react-scripts test"));
         (js "eject", JStr (js "react-scripts eject"))]);
     (js "dependencies", JObj
        [(js "react", JStr (js "^18.2.0"));
         (js "react-dom", JStr (js "^18.2.0"));
         (js "react-scripts", JStr (js "5.0.1"));
         (js "typescript", JStr (js "^4.9.5"))]);
     (js "devDependencies", JObj
        [(js "@types/react", JStr (js "^18.2.0"));
         (js "@types/react-dom", JStr (js "^18.2.0"))])]).

Definition generateVuePackageJson (spec : StructuredSpec) : jsstring :=
  stringify (JObj
    [(js "name",
      JStr (replaceAll whitespaceRun (js "-") (toLowerCase (projectName spec))));
     (js "version", JStr (js "1.0.0"));
     (js "description", JStr (description spec));
     (js "scripts", JObj
        [(js "serve", JStr (js "vue-cli-service serve"));
         (js "build", JStr (js "vue-cli-service build"));
         (js "test", JStr (js "vue-cli-service test:unit"))]);
     (js "dependencies", JObj
        [(js "vue", JStr (js "^3.3.0"))]);
     (js "devDependencies", JObj
        [(js "@vue/cli-service", JStr (js "~5.0.0"));
         (js "typescript", JStr (js "^4.9.5"))])]).

Definition generateReactApp (spec : StructuredSpec) : jsstring :=
  block ["import React from 'react';";
           "import './App.css';";
           "";
           "function App() {";
           "  return ("]
  ++ js "    <div className=" ++ dq ++ js "App" ++ dq ++ js ">" ++ nl
  ++ js "      <header className=" ++ dq ++ js "App-header" ++ dq ++ js ">" ++ nl
  ++ js "        <h1>" ++ projectName spec ++ js "</h1>" ++ nl
  ++ js "        <p>" ++ description spec ++ js "</p>" ++ nl
  ++ block ["      </header>";
           "      <main>";
           "        {/* Features to implement: */}"]
  ++ js "        " ++ (join []
      (map (fun feature =>
         block ["";
                  "        <section>"]
         ++ js "          <h2>" ++ feature ++ js "</h2>" ++ nl
         ++ js "          <p>Implementation for " ++ feature ++ js " goes here</p>" ++ nl
         ++ js "        </section>")
         (specFeatures spec))) ++ nl
  ++ block ["      </main>";
           "    </div>";
           "  );";
           "}";
           ""]
  ++ js "export default App;".

Definition generateVueApp (spec : StructuredSpec) : jsstring :=
  ln "<template>"
  ++ js "  <div id=" ++ dq ++ js "app" ++ dq ++ js ">" ++ nl
  ++ ln "    <header>"
  ++ js "      <h1>" ++ projectName spec ++ js "</h1>" ++ nl
  ++ js "      <p>" ++ description spec ++ js "</p>" ++ nl
  ++ block ["    </header>";
           "    <main>";
           "      <!-- Features to implement: -->"]
  ++ js "      " ++ (join []
      (map (fun feature =>
         block ["";
                  "      <section>"]
         ++ js "        <h2>" ++ feature ++ js "</h2>" ++ nl
         ++ js "        <p>Implementation for " ++ feature ++ js " goes here</p>" ++ nl
         ++ js "      </section>")
         (specFeatures spec))) ++ nl
  ++ block ["    </main>";
           "  </div>";
           "</template>";
           ""]
  ++ js "<script lang=" ++ dq ++ js "ts" ++ dq ++ js ">" ++ nl
  ++ block ["import { defineComponent } from 'vue';";
           "";
           "export default defineComponent({";
           "  name: 'App',";
           "  data() {";
           "    return {"]
  ++ js "      projectName: '" ++ projectName spec ++ js "'," ++ nl
  ++ js "      description: '" ++ description spec ++ js "'" ++ nl
  ++ block ["    };";
           "  }";
           "});"]
  ++ js "</script>".

Definition generateVanillaIndex (spec : StructuredSpec) : jsstring :=
  ln "<!DOCTYPE html>"
  ++ js "<html lang=" ++ dq ++ js "en" ++ dq ++ js ">" ++ nl
  ++ ln "<head>"
  ++ js "    <meta charset=" ++ dq ++ js "UTF-8" ++ dq ++ js ">" ++ nl
  ++ js "    <meta name=" ++ dq ++ js "viewport" ++ dq ++ js " content=" ++ dq ++ js "width=device-width, initial-scale=1.0" ++ dq ++ js ">" ++ nl
  ++ js "    <title>" ++ projectName spec ++ js "</title>" ++ nl
  ++ block ["</head>";
           "<body>";
           "    <header>"]
  ++ js "        <h1>" ++ projectName spec ++ js "</h1>" ++ nl
  ++ js "        <p>" ++ description spec ++ js "</p>" ++ nl
  ++ block ["    </header>";
           "    <main>"]
  ++ js "        " ++ (join []
      (map (fun feature =>
         block ["";
                  "        <section>"]
         ++ js "            <h2>" ++ feature ++ js "</h2>" ++ nl
         ++ js "            <p>Implementation for " ++ feature ++ js " goes here</p>" ++ nl
         ++ js "        </section>")
         (specFeatures spec))) ++ nl
  ++ block ["    </main>";
           "</body>"]
  ++ js "</html>".

Definition generateComponentIndex (spec : StructuredSpec) : jsstring :=
  js "// Component exports for " ++ projectName spec ++ nl
  ++ (join nl
      (map (fun feature =>
         let componentName := replaceAll whitespaceRun [] feature in
         js "export { default as " ++ componentName ++ js " } from './" ++ componentName ++ js "';")
         (specFeatures spec))) ++ nl.

Definition generateTestSetup (framework : jsstring) : jsstring :=
  js "// Test setup for " ++ framework ++ nl
  ++ block ["import '@testing-library/jest-dom';";
           "";
           "// Setup test environment";
           "beforeEach(() => {";
           "  // Reset test state";
           "});";
           "";
           "afterEach(() => {";
           "  // Cleanup after each test";
           "});"].

Definition generateFeatureTest (feature framework : jsstring) : jsstring :=
  let componentName := replaceAll whitespaceRun [] feature in
  ln "import { render, screen } from '@testing-library/react';"
  ++ js "import { " ++ componentName ++ js " } from '../src/components';" ++ nl
  ++ ln ""
  ++ js "describe('" ++ feature ++ js "', () => {" ++ nl
  ++ js "  it('should render " ++ feature ++ js " component', () => {" ++ nl
  ++ js "    render(<" ++ componentName ++ js " />);" ++ nl
  ++ js "    expect(screen.getByText('" ++ feature ++ js "')).toBeInTheDocument();" ++ nl
  ++ block ["  });";
           ""]
  ++ js "  it('should handle " ++ feature ++ js " functionality', () => {" ++ nl
  ++ block ["    // Test implementation here";
           "    expect(true).toBe(true);";
           "  });";
           "});"].

Definition generateReadme (spec : StructuredSpec) : jsstring :=
  js "# " ++ projectName spec ++ nl
  ++ ln ""
  ++ description spec ++ nl
  ++ block ["";
           "## Features";
           ""]
  ++ (join nl
      (map (fun feature =>
         js "- " ++ feature)
         (specFeatures spec))) ++ nl
  ++ block ["";
           "## Technologies";
           ""]
  ++ (join nl
      (map (fun tech =>
         js "- " ++ tech)
         (suggested (specTechnologies spec)))) ++ nl
  ++ block ["";
           "## Getting Started";
           "";
           "1. Install dependencies:";
           "   ```bash";
           "   npm install";
           "   ```";
           "";
           "2. Start development server:";
           "   ```bash";
           "   npm start";
           "   ```";
           "";
           "3. Run tests:";
           "   ```bash";
           "   npm test";
           "   ```";
           "";
           "## Requirements";
           ""]
  ++ (join nl
      (map (fun req =>
         js "- " ++ req)
         (specRequirements spec))) ++ nl
  ++ block ["";
           "## Constraints";
           ""]
  ++ (join nl
      (map (fun constraint =>
         js "- " ++ constraint)
         (specConstraints spec))) ++ nl
  ++ block ["";
           "## License";
           "";
           "MIT"].

Definition generateContributing : jsstring :=
  block ["# Contributing Guide";
           "";
           "Thank you for your interest in contributing!";
           "";
           "## Development Process";
           "";
           "1. Fork the repository";
           "2. Create a feature branch";
           "3. Make your changes";
           "4. Write tests";
           "5. Submit a pull request";
           "";
           "## Code Standards";
           "";
           "- Follow existing code style";
           "- Write comprehensive tests";
           "- Update documentation";
           "- Follow SPARC methodology";
           "";
           "## Testing";
           "";
           "Run the test suite before submitting:";
           "";
           "```bash";
           "npm test";
           "```";
           "";
           "## Questions?";
           "";
           "Open an issue for any questions or concerns."].

Definition callAiService (prompt : jsstring) : Async jsstring :=
  resolve (js "Generated content for: " ++ prompt).

Definition generateFrameworkFiles (framework : jsstring) (spec : StructuredSpec)
    : Async (list GeneratedFile) :=
  let files : list GeneratedFile := [] in
  let files :=
    if strEq framework (js "react") then
      files ++
      [{| name := js "package.json";
          fileContent := generatePackageJson spec;
          fileType := js "configuration" |};
       {| name := js "src/App.tsx";
          fileContent := generateReactApp spec;
          fileType := js "component" |};
       {| name := js "src/components/index.ts";
          fileContent := generateComponentIndex spec;
          fileType := js "index" |}]
    else if strEq framework (js "vue") then
      files ++
      [{| name := js "package.json";
          fileContent := generateVuePackageJson spec;
          fileType := js "configuration" |};
       {| name := js "src/App.vue";
          fileContent := generateVueApp spec;
          fileType := js "component" |}]
    else
      files ++
      [{| name := js "index.html";
          fileContent := generateVanillaIndex spec;
          fileType := js "html" |}] in
  resolve files.

Definition generateTestFiles (framework : jsstring) (spec : StructuredSpec)
    : Async (list GeneratedFile) :=
  let files : list GeneratedFile := [] in
  let files :=
    files ++
    [{| name := js "tests/setup.ts";
        fileContent := generateTestSetup framework;
        fileType := js "test" |}] in
  let files :=
    forEach (specFeatures spec)
      (fun files feature =>
         files ++
         [{| name :=
               js "tests/"
               ++ replaceAll whitespaceRun (js "-") (toLowerCase feature)
               ++ js ".test.ts";
             fileContent := generateFeatureTest feature framework;
             fileType := js "test" |}])
      files in
  resolve files.

Definition generateDocumentationFiles (spec : StructuredSpec)
    : Async (list GeneratedFile) :=
  resolve
    [{| name := js "README.md";
        fileContent := generateReadme spec;
        fileType := js "documentation" |};
     {| name := js "CONTRIBUTING.md";
        fileContent := generateContributing;
        fileType := js "documentation" |}].

(** The state the [sparcFiles.forEach] callback of [generate] updates. *)
Record collected := {
  cFiles : list GeneratedFile;
  cSpecification : jsstring;
  cArchitecture : jsstring
}.

Definition collect (st : collected) (sparcFile : SparcFile) : collected :=
  let st :=
    if strEq (phase sparcFile) (js "specification") then
      {| cFiles := cFiles st;
         cSpecification := content sparcFile;
         cArchitecture := cArchitecture st |}
    else if strEq (phase sparcFile) (js "architecture") then
      {| cFiles := cFiles st;
         cSpecification := cSpecification st;
         cArchitecture := content sparcFile |}
    else st in
  {| cFiles :=
       cFiles st ++
       [{| name := phase sparcFile ++ js ".md";
           fileContent := content sparcFile;
           fileType := js "documentation" |}];
     cSpecification := cSpecification st;
     cArchitecture := cArchitecture st |}.

Definition generate (spec : StructuredSpec) : Async SparcOutput :=
  tryCatch
    (await (generateAllPhases spec) (fun sparcFiles =>
     let files : list GeneratedFile := [] in
     let specification : jsstring := [] in
     let architecture : jsstring := [] in
     let framework :=
       orString (requestMetadata spec ≫= rmFramework) (js "react") in
     let includeTests :=
       orBool (requestMetadata spec ≫= rmIncludeTests) true in
     let includeDocs :=
       orBool (requestMetadata spec ≫= rmIncludeDocs) true in
     let st :=
       forEach sparcFiles collect
         {| cFiles := files;
            cSpecification := specification;
            cArchitecture := architecture |} in
     let files := cFiles st in
     let specification := cSpecification st in
     let architecture := cArchitecture st in
     await (generateFrameworkFiles framework spec) (fun coreFiles =>
     let files := files ++ coreFiles in
     await
       (if includeTests then
          await (generateTestFiles framework spec) (fun testFiles =>
          resolve (files ++ testFiles))
        else resolve files) (fun files =>
     await
       (if includeDocs then
          await (generateDocumentationFiles spec) (fun docFiles =>
          resolve (files ++ docFiles))
        else resolve files) (fun files =>
     resolve
       {| files := files;
          specification := specification;
          architecture := architecture |})))))
    (fun message => throwError (js "SPARC generation failed: " ++ message)).

End WithRuntime.

End SparcGenerator.

Import InputProcessor SparcGenerator.

(** ** [class AIService] *)
Module AIService.

#[local] Open Scope string_scope.
#[local] Open Scope list_scope.
#[local] Open Scope stdpp_scope.

(** What a [catch] clause may receive: [undefined] or [null], or a value
    with an optional numeric [status] and an optional [message] (an [Error]
    has a message and no status, a primitive has neither). *)
Inductive thrown :=
| Nullish (isNull : bool)
| ErrorObject (status : option N) (message : option jsstring).

Definition Undefined : thrown := Nullish false.

Inductive settled (A : Type) :=
| Resolved (a : A)
| Rejected (e : thrown).
Arguments Resolved {A} a.
Arguments Rejected {A} e.

(** A method of the service runs to a value or to a thrown value; the state
    is the list of the delays waited for so far, in milliseconds. *)
Definition Ai (A : Type) : Type := list N -> settled A * list N.

Definition aiResolve {A} (a : A) : Ai A := fun w => (Resolved a, w).

Definition aiThrow {A} (e : thrown) : Ai A := fun w => (Rejected e, w).

(** [throw new Error(message)] *)
Definition aiThrowError {A} (message : jsstring) : Ai A :=
  aiThrow (ErrorObject None (Some message)).

Definition aiAwait {A B} (m : Ai A) (k : A -> Ai B) : Ai B :=
  fun w =>
    match m w with
    | (Resolved a, w') => k a w'
    | (Rejected e, w') => (Rejected e, w')
    end.

Definition aiTryCatch {A} (body : Ai A) (handler : thrown -> Ai A) : Ai A :=
  fun w =>
    match body w with
    | (Resolved a, w') => (Resolved a, w')
    | (Rejected e, w') => handler e w'
    end.

(** [this.delay(ms)]: the timer fires after [ms] milliseconds. *)
Definition delay (ms : N) : Ai unit := fun w => (Resolved tt, w ++ [ms]).

(** [error.status === code] *)
Definition statusIs (error : thrown) (code : N) : bool :=
  match error with
  | ErrorObject (Some status) _ => (status =? code)%N
  | _ => false
  end.

(** [process.env] *)
Record Env := {
  NODE_ENV : option jsstring;
  OPENAI_API_KEY : option jsstring;
  ANTHROPIC_API_KEY : option jsstring
}.

(** [!process.env.X] *)
Definition unset (v : option jsstring) : bool :=
  match v with
  | Some s => isFalsy s
  | None => true
  end.

Record AIResponse := {
  success : bool;
  responseContent : jsstring;
  error : option jsstring
}.

Definition maxPromptLength : N := 10000.
Definition maxRetries : N := 3.
Definition retryDelay : N := 1000.

Definition validateInput (prompt provider : jsstring) : option jsstring :=
  if isFalsy prompt || (jsLength (trim prompt) =? 0)%N
  then Some (js "Prompt is required")
  else if (maxPromptLength <? jsLength prompt)%N
  then Some (js "Prompt exceeds maximum length")
  else if negb (arrayIncludes [js "openai"; js "claude"] provider)
  then Some (js "Unsupported AI provider")
  else None.

Definition optimizePrompt (prompt : jsstring) : jsstring :=
  let sparcContext :=
    block ["";
           "You are an expert in the SPARC methodology (Specification, Pseudocode, Architecture, Refinement, Completion).";
           "Please provide detailed, practical, and actionable content that follows software engineering best practices.";
           ""]
    ++ js "User request: " ++ prompt ++ nl
    ++ block ["";
             "Please provide comprehensive and well-structured content that includes:";
             "- Clear section headers";
             "- Actionable items";
             "- Technical specifications";
             "- Best practices";
             "- Practical implementation guidance"] in
  trim sparcContext.

Definition generateMockResponse (prompt : jsstring) : jsstring :=
  if includes prompt (js "specification") then
    block ["# Project Specification";
           "";
           "## Overview";
           "This is a mock specification generated for testing purposes.";
           "";
           "## Requirements";
           "1. User authentication";
           "2. Data management";
           "3. User interface";
           "4. API integration";
           "";
           "## Acceptance Criteria";
           "- Users can successfully authenticate";
           "- Data is stored securely";
           "- Interface is responsive"]
    ++ js "- API calls complete within 500ms"
  else if includes prompt (js "architecture") then
    block ["# System Architecture";
           "";
           "## Components";
           "- Frontend: React application";
           "- Backend: Node.js API server";
           "- Database: PostgreSQL";
           "- Cache: Redis";
           "";
           "## Data Flow";
           "1. User interacts with frontend";
           "2. Frontend calls API";
           "3. API processes request";
           "4. Data is stored/retrieved from database"]
    ++ js "5. Response is returned to user"
  else
    block ["# Generated Content";
           ""]
    ++ js "This is mock content generated for: " ++ take 100 prompt ++ js "..." ++ nl
    ++ block ["";
             "## Key Points";
             "- Comprehensive implementation";
             "- Best practices followed";
             "- Production-ready code";
             "- Proper error handling";
             "- Security considerations"]
    ++ js "- Performance optimization".

(** The two patterns are those of [InputProcessor.sanitizeInput]. *)
Definition sanitizeResponse (content : jsstring) : Ai jsstring :=
  if isFalsy content then aiThrowError (js "Invalid response from AI service")
  else
    aiResolve
      (trim (replaceAll InputProcessor.anyTag []
               (replaceAll InputProcessor.scriptBlock [] content))).

(** Reading [error.status] of [undefined] or [null] is a TypeError (the
    message is the one of V8). *)
Definition statusOfNullish (isNull : bool) : jsstring :=
  js "Cannot read properties of "
  ++ (if isNull then js "null" else js "undefined")
  ++ js " (reading 'status')".

Definition handleError (error : thrown) : Ai AIResponse :=
  match error with
  | Nullish isNull => aiThrowError (statusOfNullish isNull)
  | ErrorObject _ message =>
      let errorMessage := js "Unknown error occurred" in
      let errorMessage :=
        if statusIs error 401 || statusIs error 403
        then js "Authentication failed - please check API keys"
        else if statusIs error 429
        then js "Rate limit exceeded - please try again later"
        else if statusIs error 402
        then js "Quota exceeded - please check your billing"
        else
          match message with
          | Some m => if isFalsy m then errorMessage else m
          | None => errorMessage
          end in
      aiResolve {| success := false; responseContent := []; error := Some errorMessage |}
  end.

Section WithEnv.
Variable env : Env.

(** The constructor. *)
Definition validateConfiguration : Ai unit :=
  if negb (bool_decide (NODE_ENV env = Some (js "test")))
     && unset (OPENAI_API_KEY env) && unset (ANTHROPIC_API_KEY env)
  then aiThrowError (js "Missing required API keys")
  else aiResolve tt.

Definition callOpenAI (prompt : jsstring) : Ai jsstring :=
  if bool_decide (NODE_ENV env = Some (js "test"))
  then aiResolve (generateMockResponse prompt)
  else aiResolve (generateMockResponse prompt).

Definition callClaude (prompt : jsstring) : Ai jsstring :=
  if bool_decide (NODE_ENV env = Some (js "test"))
  then aiResolve (generateMockResponse prompt)
  else aiResolve (generateMockResponse prompt).

(** [callAIWithRetry] and [generateContent] reach the two provider calls
    through [this]; the tests replace them with calls that reject. *)
Section Providers.
Variable openAIMethod claudeMethod : jsstring -> Ai jsstring.

(** The [for] loop with [left] attempts to go: the attempt number is
    [maxRetries - left + 1], and with no attempt left the loop is over and
    [lastError] is thrown. *)
Fixpoint retryLoop (left : nat) (lastError : thrown) (prompt provider : jsstring)
    : Ai jsstring :=
  match left with
  | 0 => aiThrow lastError
  | S left' =>
      let attempt := (maxRetries - N.of_nat left')%N in
      aiTryCatch
        (if strEq provider (js "openai") then openAIMethod prompt
         else if strEq provider (js "claude") then claudeMethod prompt
         else aiThrowError (js "Unsupported provider: " ++ provider))
        (fun error =>
           let lastError := error in
           match error with
           | Nullish isNull => aiThrowError (statusOfNullish isNull)
           | ErrorObject _ _ =>
               if statusIs error 401 || statusIs error 403 then aiThrow error
               else if (attempt =? maxRetries)%N then aiThrow error
               else
                 aiAwait (delay (retryDelay * 2 ^ (attempt - 1))%N) (fun _ =>
                 retryLoop left' lastError prompt provider)
           end)
  end.

Definition callAIWithRetryVia (prompt provider : jsstring) : Ai jsstring :=
  retryLoop (N.to_nat maxRetries) Undefined prompt provider.

Definition generateContentVia (prompt provider : jsstring) : Ai AIResponse :=
  aiTryCatch
    (let validationError := validateInput prompt provider in
     let proceed :=
       let optimizedPrompt := optimizePrompt prompt in
       aiAwait (callAIWithRetryVia optimizedPrompt provider) (fun content =>
       aiAwait (sanitizeResponse content) (fun sanitizedContent =>
       aiResolve {| success := true;
                    responseContent := sanitizedContent;
                    error := None |})) in
     match validationError with
     | Some message =>
         if isFalsy message then proceed
         else
           aiResolve {| success := false;
                        responseContent := [];
                        error := Some message |}
     | None => proceed
     end)
    handleError.

End Providers.

Definition callAIWithRetry : jsstring -> jsstring -> Ai jsstring :=
  callAIWithRetryVia callOpenAI callClaude.

Definition generateContent : jsstring -> jsstring -> Ai AIResponse :=
  generateContentVia callOpenAI callClaude.

End WithEnv.

End AIService.

(** ** The [POST /api/generate] handler of the server *)
Module Server.

(** A field of the parsed JSON body where the handler expects a string:
    absent or [null], a string, or another JSON value (a number, a boolean,
    an array or an object), which has no [trim] method. *)
Inductive bodyText :=
| Absent
| Text (s : jsstring)
| NotText.

(** The request body.  [description] is whatever the client sent; the other
    fields are taken with the types [FeatureRequest] declares. *)
Record GenerateBody := {
  gbDescription : bodyText;
  gbComplexity : jsstring;
  gbFramework : jsstring;
  gbIncludeTests : bool;
  gbIncludeDocs : bool;
  gbAiProvider : jsstring
}.

(** The JSON of the four responses. *)
Inductive payload :=
| DescriptionRequired (error : jsstring)
| InvalidInput (error : jsstring) (details : option (list jsstring))
| Generated (output : SparcOutput) (generationTime : Z) (timestamp : jsstring)
| GenerationFailed (error message : jsstring) (generationTime : Z).

Record response := {
  status : N;
  json : payload
}.

Section Handler.
Context `{Runtime}.

(** [dateNow n]: what [Date.now()] returns at the [n]-th reading of the
    clock.  [notAFunction]: the message of the TypeError that calling
    [trim] on a value without that method raises; it depends on the engine
    and on how the optional chain is compiled. *)
Variable dateNow : nat -> Z.
Variable notAFunction : jsstring.

Definition dateNowMs : Async Z := fun w => (Returned (dateNow w), S w).

(** The body seen as the [FeatureRequest] it is cast to, once its
    description is known to be there. *)
Definition asFeatureRequest (request : GenerateBody) (description : jsstring)
    : FeatureRequest :=
  {| frDescription := description;
     frComplexity := gbComplexity request;
     frFramework := gbFramework request;
     frIncludeTests := gbIncludeTests request;
     frIncludeDocs := gbIncludeDocs request;
     frAiProvider := gbAiProvider request |}.

(** [sparcGenerator.generate(processedInput.data)]; on [null] the first
    phase reads a property of [null], which [generateAllPhases] and then
    [generate] catch and wrap. *)
Definition generateData (data : option StructuredSpec) : Async SparcOutput :=
  match data with
  | Some spec => generate spec
  | None =>
      throwError
        (js "SPARC generation failed: " ++ js "Failed to generate SPARC documentation")
  end.

(** The handler; [console.error] is left out, it does not reach the
    response.  [request.description?.trim()] is [undefined] on an absent
    description and throws on a value that is no string. *)
Definition postGenerate (request : GenerateBody) : Async response :=
  await dateNowMs (fun startTime =>
  tryCatch
    (match gbDescription request with
     | Absent =>
         resolve {| status := 400;
                    json := DescriptionRequired (js "Feature description is required") |}
     | NotText => throwError notAFunction
     | Text description =>
         if isFalsy (trim description) then
           resolve {| status := 400;
                      json := DescriptionRequired (js "Feature description is required") |}
         else
           await (process (asFeatureRequest request description))
             (fun processedInput =>
           if negb (piIsValid processedInput) then
             resolve {| status := 400;
                        json := InvalidInput (js "Invalid input")
                                  (piErrors processedInput) |}
           else
             await (generateData (data processedInput)) (fun sparcOutput =>
             await dateNowMs (fun endTime =>
             let generationTime := (endTime - startTime)%Z in
             await dateNowISO (fun timestamp =>
             resolve {| status := 200;
                        json := Generated sparcOutput generationTime timestamp |}))))
     end)
    (fun message =>
       await dateNowMs (fun endTime =>
       let generationTime := (endTime - startTime)%Z in
       resolve {| status := 500;
                  json := GenerationFailed (js "Generation failed") message
                            generationTime |}))).

End Handler.

End Server.

(** ** Notions used by the statements *)

(** A runtime on which closed examples are evaluated: its lower-casing is
    the ASCII one (what the engine does on the ASCII inputs used below), no
    key of a lookup names an inherited property, and the clock shows the
    epoch. *)
Definition sampleRuntime : Runtime :=
  {| toLowerCase := map lowerAscii;
     toLowerCase_ascii := fun _ _ => eq_refl;
     inheritedText := fun _ => None;
     isoNow := fun _ => js "1970-01-01T00:00:00.000Z" |}.

(** A runtime that also knows one special casing: U+0130, the capital I
    with a dot above, lower-cases to the two code units U+0069 U+0307, as
    [toLowerCase] does in every engine; the other code units are
    lower-cased as ASCII. *)
Definition dottedRuntime : Runtime.
Proof.
  refine {| toLowerCase :=
              flat_map (fun c => if (c =? 0x130)%N then [0x69%N; 0x307%N]
                                 else [lowerAscii c]);
            inheritedText := fun _ => None;
            isoNow := fun _ => js "1970-01-01T00:00:00.000Z" |}.
  intros s Hs. induction Hs as [|c s Hc Hs IH]; [reflexivity|].
  cbn [flat_map map]. rewrite IH.
  destruct (N.eqb_spec c 0x130); [lia|reflexivity].
Defined.

(** "Duplicates removed, preserving each element's first occurrence": going
    left to right, an element stays iff it was not met before. *)
Fixpoint keepUnseen (seen l : list jsstring) : list jsstring :=
  match l with
  | [] => []
  | x :: l' =>
      if decide (x ∈ seen) then keepUnseen seen l'
      else x :: keepUnseen (x :: seen) l'
  end.

Definition dedupFirst (l : list jsstring) : list jsstring := keepUnseen [] l.

(** The complexity rule of the document metadata, on the three counts. *)
Definition complexityRule (featureCount requirementCount constraintCount : N)
    : jsstring :=
  if decide ((featureCount <= 2)%N
             ∧ ¬ ((3 < requirementCount)%N ∨ (1 < constraintCount)%N))
  then js "low"
  else if decide ((featureCount <= 5)%N
                  ∧ ¬ ((3 < requirementCount)%N ∨ (1 < constraintCount)%N))
  then js "medium"
  else js "high".

(** The heading a phase document opens with. *)
Definition heading (n : nat) (title projectName : jsstring) : jsstring :=
  js "# Phase " ++ numberToString n ++ js ": " ++ title ++ js " - " ++ projectName.

(** Tag-like markup: a ["<"] with a [">"] somewhere after it, which is what
    a match of either pattern of the sanitizer contains. *)
Definition tagLike (s : jsstring) : Prop := [60%N; 62%N] `sublist_of` s.

Section Notions.
Context `{Runtime}.

(** The file [generatePhase] builds around a content, with the clock read
    at [w]. *)
Definition sparcFileAt (phase text : jsstring) (spec : StructuredSpec) (w : nat)
    : SparcFile :=
  {| phase := phase;
     content := text;
     metadata :=
       {| generatedAt := isoNow w;
          mdProjectName := projectName spec;
          mdComplexity := determineComplexity spec;
          mdPhase := phase;
          mdTechnologies := suggested (specTechnologies spec) |} |}.

(** The documents of the five phases, in the order of [validPhases]. *)
Definition phaseDocuments (spec : StructuredSpec) : list jsstring :=
  [generateSpecificationContent 1 spec;
   generatePseudocodeContent 2 spec;
   generateArchitectureContent 3 spec;
   generateRefinementContent 4 spec;
   generateCompletionContent 5 spec].

(** The line of one technology in the component list. *)
Definition componentLine (tech : jsstring) : jsstring :=
  js "- " ++ tech ++ js ": " ++ getTechnologyDescription tech.

(** The name of the test file of a feature. *)
Definition testFileName (feature : jsstring) : jsstring :=
  js "tests/" ++ replaceAll whitespaceRun (js "-") (toLowerCase feature)
  ++ js ".test.ts".

End Notions.

(** The spec of a blog project, annotated by a request that asks for Vue
    and for neither tests nor documentation. *)
Definition sampleSpec : StructuredSpec :=
  {| projectName := js "Blog Application";
     description :=
       js "A comprehensive application featuring blog application, user authentication";
     specFeatures := [js "blog application"; js "user authentication"];
     specTechnologies :=
       {| suggested := [js "React"; js "Node.js"; js "PostgreSQL"; js "Redis"];
          alternatives := [] |};
     specRequirements := [js "user registration"];
     specConstraints := [];
     acceptanceCriteria :=
       [js "User should be able to use blog application successfully";
        js "User should be able to use user authentication successfully"];
     estimatedTimeline :=
       {| phases := [js "Planning"; js "Development"; js "Testing"; js "Deployment"];
          totalWeeks := 8 |};
     requestMetadata :=
       Some {| rmComplexity := Some (js "medium");
               rmFramework := Some (js "vue");
               rmIncludeTests := Some false;
               rmIncludeDocs := Some false;
               rmAiProvider := Some (js "openai") |} |}.

(** A request for a blog, with Vue and with both flags switched off. *)
Definition sampleRequest : FeatureRequest :=
  {| frDescription :=
       js "Create a simple blog application with user authentication";
     frComplexity := js "medium";
     frFramework := js "vue";
     frIncludeTests := false;
     frIncludeDocs := false;
     frAiProvider := js "openai" |}.

(** The content generator of the test suite: it rejects every call. *)
Definition failingContent (phase : jsstring) (spec : StructuredSpec)
    : Async jsstring :=
  throwError (js "AI service failed").

(** 10001 spaces, and 10001 letters. *)
Definition blankOversized : jsstring := repeat 32%N (N.to_nat 10001).
Definition oversized : jsstring := repeat 65%N (N.to_nat 10001).

(** The tables of [extractEntities], and the names its lists can hold. *)
Definition featurePhrases : list jsstring :=
  [js "blog application"; js "user authentication"; js "todo app"].

Definition techKeywords : list jsstring :=
  [js "node.js"; js "postgresql"; js "redis"; js "docker"; js "react"].

Definition technologyNames : list jsstring :=
  [js "Node.js"; js "PostgreSQL"; js "Redis"; js "Docker"; js "React"].

Definition requirementPhrases : list jsstring :=
  [js "user registration"; js "product catalog"; js "payment processing";
   js "shopping cart"; js "order management"; js "admin dashboard";
   js "email notifications"; js "mobile responsive"; js "seo optimization";
   js "analytics integration"].

Definition constraintNames : list jsstring :=
  [js "< 10ms latency"; js "Multi-factor authentication"].


(** The names of the files [generateFrameworkFiles] scaffolds. *)
Definition frameworkFileNames (framework : jsstring) : list jsstring :=
  if strEq framework (js "react")
  then [js "package.json"; js "src/App.tsx"; js "src/components/index.ts"]
  else if strEq framework (js "vue")
  then [js "package.json"; js "src/App.vue"]
  else [js "index.html"].

(** A string with every maximal run of white space replaced by [repl];
    [inRun] tells that the character before was white space. *)
Fixpoint collapseRuns (repl : jsstring) (inRun : bool) (s : jsstring) : jsstring :=
  match s with
  | [] => []
  | c :: s' =>
      if isWhiteSpace c
      then (if inRun then [] else repl) ++ collapseRuns repl true s'
      else c :: collapseRuns repl false s'
  end.

(** The length of the white space a string starts with. *)
Fixpoint runLength (s : jsstring) : nat :=
  match s with
  | c :: s' => if isWhiteSpace c then S (runLength s') else 0
  | [] => 0
  end.


(** A provider call that rejects with a server error, and one that
    rejects until the first wait is over. *)
Definition serverError : AIService.thrown :=
  AIService.ErrorObject (Some 500%N) (Some (js "Server error")).

Definition failingProvider (prompt : jsstring) : AIService.Ai jsstring :=
  AIService.aiThrow serverError.

Definition recoveringProvider (prompt : jsstring) : AIService.Ai jsstring :=
  fun waits =>
    match waits with
    | [] => (AIService.Rejected serverError, waits)
    | _ :: _ => (AIService.Resolved (js "Success response"), waits)
    end.

(** A request that mentions Redis. *)
Definition redisRequest : FeatureRequest :=
  {| frDescription := js "Create a blog application with a Redis cache";
     frComplexity := js "medium";
     frFramework := js "react";
     frIncludeTests := true;
     frIncludeDocs := true;
     frAiProvider := js "claude" |}.

(** The diagram of the architecture document, line by line: the frontend,
    the gateway, then the microservices block (more than five features,
    more than three requirements or more than one constraint) or the
    backend service, then the cache layer when Redis is suggested, then the
    database when a database technology is suggested.  [firstOf] is the
    first suggested technology among [names], or the fallback. *)
Definition downArrow : jsstring := js "    " ++ [0x2193%N].

Definition firstOf (names techs : list jsstring) (fallback : jsstring) : jsstring :=
  default fallback (List.find (fun tech => bool_decide (tech ∈ names)) techs).

Definition diagramLines (spec : StructuredSpec) : list jsstring :=
  let techs := suggested (specTechnologies spec) in
  [js "Frontend (" ++ firstOf [js "React"; js "Vue"; js "Angular"] techs (js "React")
   ++ js ")";
   downArrow;
   js "API Gateway";
   downArrow]
  ++ (if decide ((5 < jsLength (specFeatures spec))%N
                 \/ (3 < jsLength (specRequirements spec))%N
                 \/ (1 < jsLength (specConstraints spec))%N)
      then [js "Microservices Architecture";
            js "    " ++ [0x251C%N; 0x2500%N; 0x2500%N] ++ js " Auth Service";
            js "    " ++ [0x251C%N; 0x2500%N; 0x2500%N] ++ js " Core Service";
            js "    " ++ [0x2514%N; 0x2500%N; 0x2500%N] ++ js " Notification Service"]
      else [js "Backend Service ("
            ++ firstOf [js "Node.js"; js "Express"] techs (js "Node.js") ++ js ")"])
  ++ (if decide (js "Redis" ∈ techs)
      then [downArrow; js "Cache Layer (Redis)"] else [])
  ++ (match List.find (fun tech =>
                         bool_decide (tech ∈ [js "PostgreSQL"; js "MySQL"; js "MongoDB"]))
              techs with
      | Some db => [downArrow; js "Database (" ++ db ++ js ")"]
      | None => []
      end).

(** The line breaks and lines that [join] adds for the further lines. *)
Definition lineBreaks (lines : list jsstring) : jsstring :=
  flat_map (fun line => nl ++ line) lines.

(** ** Properties of the JavaScript fragment *)

Lemma strEq_true (s t : jsstring) : strEq s t = true <-> s = t.
Proof. unfold strEq. apply bool_decide_eq_true. Qed.

Lemma strEq_false (s t : jsstring) : strEq s t = false <-> s <> t.
Proof. unfold strEq. apply bool_decide_eq_false. Qed.

Lemma arrayIncludes_spec (arr : list jsstring) (x : jsstring) :
  arrayIncludes arr x = true <-> x ∈ arr.
Proof.
  unfold arrayIncludes. rewrite existsb_exists. split.
  - intros (y & Hin & Heq). apply strEq_true in Heq. subst y.
    by apply list_elem_of_In.
  - intros Hin. exists x. split; [by apply list_elem_of_In|by apply strEq_true].
Qed.

Lemma hasPrefix_spec (p s : jsstring) :
  hasPrefix p s = true <-> p `prefix_of` s.
Proof.
  revert s. induction p as [|a p IH]; intros s; simpl.
  - split; [intros _; apply prefix_nil|done].
  - destruct s as [|b s].
    + split; [done|]. intros [k Hk]. discriminate Hk.
    + rewrite andb_true_iff, N.eqb_eq, IH. split.
      * intros [-> Hp]. by apply prefix_cons.
      * intros [k Hk]. injection Hk as -> ->. split; [done|]. by exists k.
Qed.

Lemma includes_spec (s p : jsstring) :
  includes s p = true <-> exists a b, s = a ++ p ++ b.
Proof.
  induction s as [|c s IH]; simpl.
  - rewrite orb_false_r, hasPrefix_spec. split.
    + intros [k Hk]. by exists [], k.
    + intros (a & b & Hab). symmetry in Hab.
      apply app_eq_nil in Hab as [-> Hab]. apply app_eq_nil in Hab as [-> ->].
      apply prefix_nil.
  - rewrite orb_true_iff, hasPrefix_spec, IH. split.
    + intros [[k Hk]|(a & b & Hab)].
      * by exists [], k.
      * exists (c :: a), b. by rewrite Hab.
    + intros (a & b & Hab). destruct a as [|c' a]; simpl in Hab.
      * left. by exists b.
      * right. injection Hab as -> ->. by exists a, b.
Qed.

(** ** The project categorizer *)
Section Categorizer.
Context `{Runtime}.

(** C3, amended.  [categorizeProject] tries the four rules in order on the
    lower-cased input and returns the answer of the first rule that matches;
    an input with keywords of rule 1 and of rule 2 is an e-commerce project.
    The length compared with 50 is that of the lower-cased input; on an
    ASCII input it is the length of the input. *)
Theorem categorizeProject_first_match (input : jsstring) :
  let lowerInput := toLowerCase input in
  let present (keyword : jsstring) := includes lowerInput keyword = true in
  let rule1 := present (js "e-commerce") \/ present (js "shopping") \/ present (js "payment") in
  let rule2 := present (js "microservices") \/ present (js "financial trading") in
  let rule3 := present (js "todo") /\ (jsLength lowerInput < 50)%N in
  (rule1 ->
   categorizeProject input = {| type := js "e-commerce"; complexity := js "high" |})
  /\ (~ rule1 -> rule2 ->
      categorizeProject input
      = {| type := js "microservices"; complexity := js "enterprise" |})
  /\ (~ rule1 -> ~ rule2 -> rule3 ->
      categorizeProject input = {| type := js "utility"; complexity := js "low" |})
  /\ (~ rule1 -> ~ rule2 -> ~ rule3 ->
      categorizeProject input
      = {| type := js "web-application"; complexity := js "medium" |})
  /\ (rule1 -> rule2 ->
      categorizeProject input = {| type := js "e-commerce"; complexity := js "high" |})
  /\ (Forall (fun c => (c < 128)%N) input -> jsLength lowerInput = jsLength input).
Proof.
  intros lowerInput present rule1 rule2 rule3.
  unfold categorizeProject. fold lowerInput.
  assert (Hr1 : includes lowerInput (js "e-commerce")
                || includes lowerInput (js "shopping")
                || includes lowerInput (js "payment") = true <-> rule1).
  { unfold rule1, present. rewrite !orb_true_iff. tauto. }
  assert (Hr2 : includes lowerInput (js "microservices")
                || includes lowerInput (js "financial trading") = true <-> rule2).
  { unfold rule2, present. rewrite !orb_true_iff. tauto. }
  assert (Hr3 : includes lowerInput (js "todo") && (jsLength lowerInput <? 50)%N = true
                <-> rule3).
  { unfold rule3, present. by rewrite andb_true_iff, N.ltb_lt. }
  destruct (includes lowerInput (js "e-commerce")
            || includes lowerInput (js "shopping")
            || includes lowerInput (js "payment")) eqn:E1;
  destruct (includes lowerInput (js "microservices")
            || includes lowerInput (js "financial trading")) eqn:E2;
  destruct (includes lowerInput (js "todo") && (jsLength lowerInput <? 50)%N) eqn:E3;
  repeat split; intros; try reflexivity;
  try (exfalso; intuition congruence);
  try (subst lowerInput; rewrite toLowerCase_ascii by assumption;
       unfold jsLength; by rewrite length_map).
Qed.

End Categorizer.

(** ** Sets and the suggested technologies *)

Lemma keepUnseen_elem (seen l : list jsstring) (x : jsstring) :
  x ∈ keepUnseen seen l <-> x ∈ l /\ x ∉ seen.
Proof.
  revert seen. induction l as [|y l IH]; intros seen; simpl.
  - rewrite elem_of_nil. tauto.
  - destruct (decide (y ∈ seen)) as [Hy|Hy].
    + rewrite IH, elem_of_cons. split; [tauto|].
      intros [[->|Hx] Hn]; [done|tauto].
    + rewrite !elem_of_cons, IH, elem_of_cons. split.
      * intros [->|[Hx Hn]]; [tauto|]. split; [tauto|]. intros Hs. apply Hn. tauto.
      * intros [[->|Hx] Hn]; [tauto|].
        destruct (decide (x = y)) as [->|Hne]; [tauto|].
        right. split; [done|]. intros [?|?]; done.
Qed.

Lemma keepUnseen_NoDup (seen l : list jsstring) : NoDup (keepUnseen seen l).
Proof.
  revert seen. induction l as [|y l IH]; intros seen; simpl.
  - constructor.
  - destruct (decide (y ∈ seen)); [apply IH|].
    constructor; [|apply IH].
    rewrite keepUnseen_elem, elem_of_cons. tauto.
Qed.

Lemma keepUnseen_sublist (seen l : list jsstring) : keepUnseen seen l `sublist_of` l.
Proof.
  revert seen. induction l as [|y l IH]; intros seen; simpl; [done|].
  destruct (decide (y ∈ seen)).
  - by apply sublist_cons.
  - by apply sublist_skip.
Qed.

(** The [Set] of the source keeps what [keepUnseen] keeps. *)
Lemma forEach_setAdd (l acc seen : list jsstring) :
  (forall x, x ∈ seen <-> x ∈ acc) ->
  forEach l setAdd acc = acc ++ keepUnseen seen l.
Proof.
  unfold forEach. revert acc seen.
  induction l as [|y l IH]; intros acc seen Hs; simpl.
  - by rewrite app_nil_r.
  - unfold setAdd at 2.
    destruct (arrayIncludes acc y) eqn:E.
    + apply arrayIncludes_spec in E.
      destruct (decide (y ∈ seen)) as [_|Hn]; [by apply IH|].
      exfalso. apply Hn. by apply Hs.
    + destruct (decide (y ∈ seen)) as [Hy|_].
      * apply Hs, arrayIncludes_spec in Hy. congruence.
      * rewrite (IH (acc ++ [y]) (y :: seen)).
        -- by rewrite <- app_assoc.
        -- intros x. rewrite elem_of_cons, elem_of_app, list_elem_of_singleton, Hs.
           tauto.
Qed.

Lemma spreadSet_dedupFirst (l : list jsstring) : spreadSet l = dedupFirst l.
Proof. unfold spreadSet, dedupFirst. by rewrite (forEach_setAdd l [] []). Qed.

Section SpecBuilder.
Context `{Runtime}.

(** C4. The suggested technologies of the structured spec are the base
    pair, then PostgreSQL and Redis exactly when the category complexity is
    high or enterprise, then the extracted technologies, without
    duplicates, each element at its first occurrence. *)
Theorem suggested_technologies (input : jsstring) (w : nat) :
  let category := categorizeProject input in
  let candidates :=
    [js "React"; js "Node.js"]
    ++ (if decide (complexity category = js "high"
                   \/ complexity category = js "enterprise")
        then [js "PostgreSQL"; js "Redis"] else [])
    ++ technologies (extractEntities input) in
  exists spec,
    generateStructuredSpec input w = (Returned spec, w)
    /\ suggested (specTechnologies spec) = dedupFirst candidates
    /\ NoDup (suggested (specTechnologies spec))
    /\ (forall tech, tech ∈ suggested (specTechnologies spec) <-> tech ∈ candidates)
    /\ suggested (specTechnologies spec) `sublist_of` candidates.
Proof.
  intros category candidates.
  eexists. split; [reflexivity|]. simpl.
  assert (Heq : suggestTechnologies (categorizeProject input) (extractEntities input)
                = dedupFirst candidates).
  { unfold suggestTechnologies. rewrite spreadSet_dedupFirst. f_equal.
    subst candidates category.
    destruct (decide _) as [[Hc|Hc]|Hc].
    - apply strEq_true in Hc. by rewrite Hc.
    - apply strEq_true in Hc. by rewrite Hc, orb_true_r.
    - destruct (strEq _ (js "high")) eqn:E1.
      { apply strEq_true in E1. tauto. }
      destruct (strEq _ (js "enterprise")) eqn:E2.
      { apply strEq_true in E2. tauto. }
      reflexivity. }
  rewrite Heq. unfold dedupFirst. repeat split.
  - apply keepUnseen_NoDup.
  - rewrite keepUnseen_elem. tauto.
  - rewrite keepUnseen_elem. intros Hin. split; [done|]. apply not_elem_of_nil.
  - apply keepUnseen_sublist.
Qed.

End SpecBuilder.

(** ** The phase synthesizer *)
Section Synthesizer.
Context `{Runtime}.

Lemma generatePhaseContent_valid (i : nat) (phase : jsstring)
    (spec : StructuredSpec) (w : nat) :
  validPhases !! i = Some phase ->
  exists text, phaseDocuments spec !! i = Some text
    /\ generatePhaseContent phase spec w = (Returned text, w).
Proof.
  intros Hi.
  do 5 (destruct i as [|i]; [injection Hi as <-; eexists; split; reflexivity|]).
  discriminate Hi.
Qed.

Lemma generatePhaseVia_returns content (phase text : jsstring)
    (spec : StructuredSpec) (w w' : nat) :
  phase ∈ validPhases ->
  content phase spec w = (Returned text, w') ->
  generatePhaseVia content phase spec w
  = (Returned (sparcFileAt phase text spec w'), S w').
Proof.
  intros Hin Hc. apply arrayIncludes_spec in Hin.
  unfold generatePhaseVia. rewrite Hin. simpl.
  unfold await at 1. by rewrite Hc.
Qed.

Lemma generatePhaseVia_throws content (phase message : jsstring)
    (spec : StructuredSpec) (w w' : nat) :
  phase ∈ validPhases ->
  content phase spec w = (Thrown message, w') ->
  generatePhaseVia content phase spec w = (Thrown message, w').
Proof.
  intros Hin Hc. apply arrayIncludes_spec in Hin.
  unfold generatePhaseVia. rewrite Hin. simpl.
  unfold await at 1. by rewrite Hc.
Qed.

Lemma generatePhase_invalid content (phase : jsstring) (spec : StructuredSpec)
    (w : nat) :
  phase ∉ validPhases ->
  generatePhaseVia content phase spec w = (Thrown (js "Invalid phase name"), w).
Proof.
  intros Hin. unfold generatePhaseVia.
  destruct (arrayIncludes validPhases phase) eqn:E; [|done].
  by apply arrayIncludes_spec in E.
Qed.

Lemma generateAllPhases_returns (spec : StructuredSpec) (w : nat) :
  generateAllPhases spec w
  = (Returned
       (imap (fun i '(phase, text) => sparcFileAt phase text spec (i + w))
             (zip validPhases (phaseDocuments spec))),
     5 + w).
Proof. reflexivity. Qed.


(** Every phase document opens with the heading of its phase. *)
Lemma specification_heading (n : nat) (spec : StructuredSpec) :
  heading n (js "Specification") (projectName spec)
  `prefix_of` generateSpecificationContent n spec.
Proof.
  unfold heading, generateSpecificationContent.
  change (js ": Specification - ")
    with (js ": " ++ js "Specification" ++ js " - ").
  rewrite <- !app_assoc. do 5 apply prefix_app. by apply prefix_app_r.
Qed.

Lemma pseudocode_heading (n : nat) (spec : StructuredSpec) :
  heading n (js "Pseudocode") (projectName spec)
  `prefix_of` generatePseudocodeContent n spec.
Proof.
  unfold heading, generatePseudocodeContent.
  change (js ": Pseudocode - ") with (js ": " ++ js "Pseudocode" ++ js " - ").
  rewrite <- !app_assoc. do 5 apply prefix_app. by apply prefix_app_r.
Qed.

Lemma architecture_heading (n : nat) (spec : StructuredSpec) :
  heading n (js "Architecture") (projectName spec)
  `prefix_of` generateArchitectureContent n spec.
Proof.
  unfold heading, generateArchitectureContent.
  change (js ": Architecture - ") with (js ": " ++ js "Architecture" ++ js " - ").
  cbv zeta.
  repeat match goal with
         | |- _ `prefix_of` (if ?b then _ else _) ++ _ => apply prefix_app_r
         | |- _ `prefix_of` (if ?b then _ else _) => destruct b
         end;
  rewrite <- !app_assoc; do 5 apply prefix_app; by apply prefix_app_r.
Qed.

Lemma refinement_heading (n : nat) (spec : StructuredSpec) :
  heading n (js "Refinement") (projectName spec)
  `prefix_of` generateRefinementContent n spec.
Proof.
  unfold heading, generateRefinementContent.
  change (js ": Refinement - ") with (js ": " ++ js "Refinement" ++ js " - ").
  rewrite <- !app_assoc. do 5 apply prefix_app. by apply prefix_app_r.
Qed.

Lemma completion_heading (n : nat) (spec : StructuredSpec) :
  heading n (js "Completion") (projectName spec)
  `prefix_of` generateCompletionContent n spec.
Proof.
  unfold heading, generateCompletionContent.
  change (js ": Completion - ") with (js ": " ++ js "Completion" ++ js " - ").
  rewrite <- !app_assoc. do 5 apply prefix_app. by apply prefix_app_r.
Qed.

Lemma phaseDocuments_heading (i : nat) (phase text : jsstring)
    (spec : StructuredSpec) :
  validPhases !! i = Some phase ->
  phaseDocuments spec !! i = Some text ->
  exists title,
    getPhaseTitle phase = Some title
    /\ heading (i + 1) title (projectName spec) `prefix_of` text.
Proof.
  intros Hp Ht.
  destruct i as [|[|[|[|[|i]]]]]; try discriminate Hp;
    injection Hp as <-; injection Ht as <-; eexists; (split; [reflexivity|]).
  - apply specification_heading.
  - apply pseudocode_heading.
  - apply architecture_heading.
  - apply refinement_heading.
  - apply completion_heading.
Qed.

Lemma heading_nonempty (n : nat) (title name text : jsstring) :
  heading n title name `prefix_of` text -> text <> [].
Proof. intros [k ->]. discriminate. Qed.


Lemma forOfPush_throws {A B : Type} (arr : list A) (f : A -> Async B) (x : A) :
  x ∈ arr ->
  (forall w, exists message w', f x w = (Thrown message, w')) ->
  forall acc w, exists message w', forOfPush arr f acc w = (Thrown message, w').
Proof.
  intros Hin Hx. induction arr as [|y arr IH]; intros acc w.
  - by apply elem_of_nil in Hin.
  - simpl. unfold await.
    apply elem_of_cons in Hin as [<-|Hin].
    + destruct (Hx w) as (message & w' & ->). by exists message, w'.
    + destruct (f y w) as [[b|message] w1].
      * apply IH, Hin.
      * by exists message, w1.
Qed.

Lemma determineComplexity_rule (spec : StructuredSpec) :
  determineComplexity spec
  = complexityRule (jsLength (specFeatures spec))
      (jsLength (specRequirements spec)) (jsLength (specConstraints spec)).
Proof.
  unfold determineComplexity, complexityRule.
  destruct (N.leb_spec (jsLength (specFeatures spec)) 2);
  destruct (N.leb_spec (jsLength (specFeatures spec)) 5);
  destruct (N.ltb_spec 3 (jsLength (specRequirements spec)));
  destruct (N.ltb_spec 1 (jsLength (specConstraints spec)));
  simpl; repeat case_decide; try reflexivity; exfalso; intuition lia.
Qed.

(** C1. [generateAllPhases] returns five files, in the order of the
    phases, each with a content that is not empty and with its metadata
    filled in from the spec and the clock; and when the content generator
    throws on one of the phases, the call throws "Failed to generate SPARC
    documentation" and returns no list. *)
Theorem generateAllPhases_five_or_fails :
  (forall spec w, exists files,
     generateAllPhases spec w = (Returned files, 5 + w)
     /\ length files = 5
     /\ map phase files = validPhases
     /\ forall i file, files !! i = Some file ->
          content file <> []
          /\ metadata file
             = {| generatedAt := isoNow (i + w);
                  mdProjectName := projectName spec;
                  mdComplexity := determineComplexity spec;
                  mdPhase := phase file;
                  mdTechnologies := suggested (specTechnologies spec) |})
  /\ (forall contentMethod spec phase,
        phase ∈ validPhases ->
        (forall w, exists message w',
            contentMethod phase spec w = (Thrown message, w')) ->
        forall w, exists w',
          generateAllPhasesVia contentMethod spec w
          = (Thrown (js "Failed to generate SPARC documentation"), w')).
Proof.
  split.
  - intros spec w. eexists. split; [apply generateAllPhases_returns|].
    split; [reflexivity|]. split; [reflexivity|].
    intros i file Hi.
    destruct i as [|[|[|[|[|i]]]]]; try discriminate Hi;
      injection Hi as <-; (split; [|reflexivity]); simpl.
    + eapply heading_nonempty, specification_heading.
    + eapply heading_nonempty, pseudocode_heading.
    + eapply heading_nonempty, architecture_heading.
    + eapply heading_nonempty, refinement_heading.
    + eapply heading_nonempty, completion_heading.
  - intros contentMethod spec phase Hin Hthrows w.
    unfold generateAllPhasesVia, tryCatch.
    destruct (forOfPush_throws validPhases
                (fun phase => generatePhaseVia contentMethod phase spec) phase Hin)
      with (acc := @nil SparcFile) (w := w) as (message & w' & ->).
    + intros w0. destruct (Hthrows w0) as (message & w' & Hc).
      exists message, w'. by apply generatePhaseVia_throws.
    + by exists w'.
Qed.

(** C2. For the phase at index [i] of the fixed order, [generatePhase]
    returns a file whose content begins with "# Phase i+1: Title -
    projectName"; for a name outside the five it throws "Invalid phase
    name". *)
Theorem generatePhase_heading_or_invalid (phase : jsstring)
    (spec : StructuredSpec) (w : nat) :
  (forall i, validPhases !! i = Some phase ->
     exists title file,
       getPhaseTitle phase = Some title
       /\ generatePhase phase spec w = (Returned file, S w)
       /\ heading (i + 1) title (projectName spec) `prefix_of` content file)
  /\ (phase ∉ validPhases ->
      generatePhase phase spec w = (Thrown (js "Invalid phase name"), w)).
Proof.
  split.
  - intros i Hi.
    destruct (generatePhaseContent_valid i phase spec w Hi) as (text & Ht & Hc).
    destruct (phaseDocuments_heading i phase text spec Hi Ht) as (title & Htitle & Hp).
    exists title, (sparcFileAt phase text spec w). split; [done|]. split; [|done].
    apply generatePhaseVia_returns; [|done]. by eapply list_elem_of_lookup_2.
  - apply generatePhase_invalid.
Qed.

End Synthesizer.

Section Complexity.
Context `{Runtime}.

(** C5. The complexity in the metadata of every generated file follows the
    rule on the feature, requirement and constraint counts; it depends on
    nothing else, and for "Build an e-commerce store" it is low while the
    category complexity is high. *)
Theorem metadata_complexity_rule :
  (forall spec w, exists files,
     generateAllPhases spec w = (Returned files, 5 + w)
     /\ Forall (fun file =>
          mdComplexity (metadata file)
          = complexityRule (jsLength (specFeatures spec))
              (jsLength (specRequirements spec))
              (jsLength (specConstraints spec))) files)
  /\ (forall spec phase w, phase ∈ validPhases -> exists file,
        generatePhase phase spec w = (Returned file, S w)
        /\ mdComplexity (metadata file)
           = complexityRule (jsLength (specFeatures spec))
               (jsLength (specRequirements spec))
               (jsLength (specConstraints spec)))
  /\ (exists input, forall w, exists spec,
        generateStructuredSpec input w = (Returned spec, w)
        /\ determineComplexity spec = js "low"
        /\ complexity (categorizeProject input) = js "high").
Proof.
  split; [|split].
  - intros spec w. eexists. split; [apply generateAllPhases_returns|].
    simpl. repeat constructor; apply determineComplexity_rule.
  - intros spec phase w Hin.
    apply list_elem_of_lookup_1 in Hin as [i Hi].
    destruct (generatePhaseContent_valid i phase spec w Hi) as (text & _ & Hc).
    exists (sparcFileAt phase text spec w). split.
    + apply generatePhaseVia_returns; [|done]. by eapply list_elem_of_lookup_2.
    + apply determineComplexity_rule.
  - exists (js "Build an e-commerce store"). intros w.
    eexists. split; [reflexivity|].
    unfold determineComplexity, categorizeProject, extractEntities. simpl.
    rewrite toLowerCase_ascii
      by (apply (bool_decide_unpack _); vm_compute; exact I).
    split; vm_compute; reflexivity.
Qed.

End Complexity.

(** ** The architecture document and the scaffold *)

Lemma join_infix (sep x : jsstring) (arr : list jsstring) :
  x ∈ arr -> exists a b, join sep arr = a ++ x ++ b.
Proof.
  induction arr as [|y arr IH]; intros Hin.
  - by apply elem_of_nil in Hin.
  - apply elem_of_cons in Hin as [->|Hin].
    + destruct arr as [|z arr]; simpl.
      * exists [], []. by rewrite app_nil_r.
      * by exists [], (sep ++ join sep (z :: arr)).
    + destruct (IH Hin) as (a & b & Hab).
      destruct arr as [|z arr]; [by apply elem_of_nil in Hin|].
      change (join sep (y :: z :: arr)) with (y ++ sep ++ join sep (z :: arr)).
      rewrite Hab. exists (y ++ sep ++ a), b. by rewrite <- !app_assoc.
Qed.

Section Architecture.
Context `{Runtime}.

Lemma architecture_components (n : nat) (spec : StructuredSpec) :
  exists before after,
    generateArchitectureContent n spec
    = before ++ ln "## Component Structure"
      ++ join nl (map componentLine (suggested (specTechnologies spec)))
      ++ after.
Proof.
  unfold generateArchitectureContent. cbv zeta.
  match goal with
  | |- exists before after, ?pre ++ block ?ls ++ ?rest = _ =>
      exists (pre ++ block ["";"```";""]%string)
  end.
  eexists.
  change (block [""; "```"; ""; "## Component Structure"]%string)
    with (block [""; "```"; ""]%string ++ ln "## Component Structure").
  rewrite <- !app_assoc. reflexivity.
Qed.

(** C9. Every suggested technology of a spec has its line in the component
    list of the architecture document generated from that spec, and so
    stands verbatim in the document. *)
Theorem architecture_lists_technologies (spec : StructuredSpec) (w : nat) :
  exists file before after,
    generatePhase (js "architecture") spec w = (Returned file, S w)
    /\ content file
       = before ++ ln "## Component Structure"
         ++ join nl (map componentLine (suggested (specTechnologies spec)))
         ++ after
    /\ forall tech, tech ∈ suggested (specTechnologies spec) ->
         componentLine tech ∈ map componentLine (suggested (specTechnologies spec))
         /\ includes (componentLine tech) tech = true
         /\ includes (content file) tech = true.
Proof.
  destruct (architecture_components 3 spec) as (before & after & Hdoc).
  exists (sparcFileAt (js "architecture") (generateArchitectureContent 3 spec) spec w).
  exists before, after. split; [reflexivity|].
  change (content (sparcFileAt _ ?text _ _)) with text.
  split; [exact Hdoc|].
  intros tech Hin.
  assert (Hline : componentLine tech
                  ∈ map componentLine (suggested (specTechnologies spec))).
  { apply list_elem_of_fmap. by exists tech. }
  split; [done|]. split.
  - apply includes_spec. by exists (js "- "), (js ": " ++ getTechnologyDescription tech).
  - apply includes_spec. rewrite Hdoc.
    destruct (join_infix nl _ _ Hline) as (a & b & ->).
    exists (before ++ ln "## Component Structure" ++ a ++ js "- "),
           (js ": " ++ getTechnologyDescription tech ++ b ++ after).
    unfold componentLine. by rewrite <- !app_assoc.
Qed.

End Architecture.

Lemma forEach_push {A B : Type} (arr : list A) (g : A -> B) (acc : list B) :
  forEach arr (fun acc x => acc ++ [g x]) acc = acc ++ map g arr.
Proof.
  unfold forEach. revert acc. induction arr as [|x arr IH]; intros acc; simpl.
  - by rewrite app_nil_r.
  - by rewrite IH, <- app_assoc.
Qed.

Lemma await_returned {A B : Type} (m : Async A) (k : A -> Async B)
    (w w' : nat) (a : A) :
  m w = (Returned a, w') -> await m k w = k a w'.
Proof. intros Hm. unfold await. by rewrite Hm. Qed.

(** [flag || true] is [true] whatever the flag. *)
Lemma orBool_true (flag : option bool) : orBool flag true = true.
Proof. by destruct flag as [[]|]. Qed.

Section Scaffold.
Context `{Runtime}.

Lemma generateTestFiles_names (framework : jsstring) (spec : StructuredSpec)
    (w : nat) :
  exists testFiles,
    generateTestFiles framework spec w = (Returned testFiles, w)
    /\ map name testFiles
       = js "tests/setup.ts" :: map testFileName (specFeatures spec).
Proof.
  eexists. split; [reflexivity|].
  rewrite (forEach_push (specFeatures spec)
             (fun feature =>
                {| name :=
                     js "tests/"
                     ++ replaceAll whitespaceRun (js "-") (toLowerCase feature)
                     ++ js ".test.ts";
                   fileContent := generateFeatureTest feature framework;
                   fileType := js "test" |})).
  rewrite map_app, map_map. reflexivity.
Qed.

Lemma generate_returns (spec : StructuredSpec) (w w1 w2 w3 w4 : nat)
    (sparcFiles : list SparcFile) (coreFiles testFiles docFiles : list GeneratedFile) :
  let framework := orString (requestMetadata spec ≫= rmFramework) (js "react") in
  let st :=
    forEach sparcFiles collect
      {| cFiles := []; cSpecification := []; cArchitecture := [] |} in
  generateAllPhases spec w = (Returned sparcFiles, w1) ->
  generateFrameworkFiles framework spec w1 = (Returned coreFiles, w2) ->
  generateTestFiles framework spec w2 = (Returned testFiles, w3) ->
  generateDocumentationFiles spec w3 = (Returned docFiles, w4) ->
  generate spec w
  = (Returned
       {| files := ((cFiles st ++ coreFiles) ++ testFiles) ++ docFiles;
          specification := cSpecification st;
          architecture := cArchitecture st |},
     w4).
Proof.
  intros framework st Hall Hcore Htest Hdoc.
  unfold generate, tryCatch.
  rewrite (await_returned _ _ _ _ _ Hall).
  cbv zeta. rewrite !orBool_true. fold framework.
  rewrite (await_returned _ _ _ _ _ Hcore).
  rewrite (await_returned (await (generateTestFiles framework spec) _) _ w2 w3
             ((cFiles st ++ coreFiles) ++ testFiles))
    by (by rewrite (await_returned _ _ _ _ _ Htest)).
  rewrite (await_returned (await (generateDocumentationFiles spec) _) _ w3 w4
             (((cFiles st ++ coreFiles) ++ testFiles) ++ docFiles))
    by (by rewrite (await_returned _ _ _ _ _ Hdoc)).
  reflexivity.
Qed.

(** C10. Whatever the request metadata says, also when [includeTests] or
    [includeDocs] is [false], the files [generate] returns contain the test
    scaffold (the setup file and one test file per feature) and the two
    documentation files: the defaulting expression is [true] for every
    flag. *)
Theorem generate_always_tests_and_docs (spec : StructuredSpec) (w : nat) :
  (forall flag, orBool flag true = true)
  /\ exists output framework sparcDocs coreFiles testFiles docFiles,
       generate spec w = (Returned output, 5 + w)
       /\ generateTestFiles framework spec (5 + w) = (Returned testFiles, 5 + w)
       /\ generateDocumentationFiles spec (5 + w) = (Returned docFiles, 5 + w)
       /\ files output = ((sparcDocs ++ coreFiles) ++ testFiles) ++ docFiles
       /\ map name testFiles
          = js "tests/setup.ts" :: map testFileName (specFeatures spec)
       /\ map name docFiles = [js "README.md"; js "CONTRIBUTING.md"]
       /\ forall file,
            file ∈ (js "tests/setup.ts" :: map testFileName (specFeatures spec))
                   ++ [js "README.md"; js "CONTRIBUTING.md"] ->
            file ∈ map name (files output).
Proof.
  split; [apply orBool_true|].
  set (framework := orString (requestMetadata spec ≫= rmFramework) (js "react")).
  destruct (generateTestFiles_names framework spec (5 + w)) as (testFiles & Ht & Hn).
  destruct (generateFrameworkFiles framework spec (5 + w)) as [core w2] eqn:Hcore.
  assert (Hw2 : w2 = 5 + w) by (by injection Hcore as _ <-).
  assert (Hc : exists coreFiles, core = Returned coreFiles).
  { unfold generateFrameworkFiles, resolve in Hcore. injection Hcore as <- _. eauto. }
  destruct Hc as [coreFiles ->]. subst w2.
  pose proof (generate_returns spec w _ _ _ _ _ coreFiles testFiles _
                (generateAllPhases_returns spec w) Hcore Ht eq_refl) as Hgen.
  cbv zeta in Hgen.
  eexists. exists framework. eexists. exists coreFiles, testFiles. eexists.
  split; [exact Hgen|]. split; [exact Ht|]. split; [reflexivity|].
  split; [reflexivity|]. split; [exact Hn|]. split; [reflexivity|].
  intros file Hin. cbn [files]. rewrite !map_app, Hn.
  apply elem_of_app in Hin as [Hin|Hin].
  - apply elem_of_app. left. apply elem_of_app. by right.
  - apply elem_of_app. by right.
Qed.

End Scaffold.

(** ** The sanitizer *)

(** *** What a match looks like *)

Lemma exec_One (c : N -> bool) (r : regex) (b : bool) (s : jsstring) (n : nat) :
  exec (One c :: r) b s = Some n ->
  exists x s' m, s = x :: s' /\ c x = true /\ exec r false s' = Some m /\ n = S m.
Proof.
  simpl. destruct s as [|x s']; [done|].
  destruct (c x) eqn:Hc; [|done].
  destruct (exec r false s') as [m|] eqn:Hm; [|done].
  intros [= <-]. by exists x, s', m.
Qed.

Lemma exec_One_cons (c : N -> bool) (r : regex) (b : bool) (x : N) (s : jsstring) :
  exec (One c :: r) b (x :: s) = if c x then S <$> exec r false s else None.
Proof. reflexivity. Qed.

Lemma exec_Many_cons (c : N -> bool) (r : regex) (b : bool) (x : N) (s : jsstring) :
  exec (Many c :: r) b (x :: s)
  = if c x then
      match exec (Many c :: r) false s with
      | Some n => Some (S n)
      | None => exec r b (x :: s)
      end
    else exec r b (x :: s).
Proof. reflexivity. Qed.

Lemma exec_Many_nil (c : N -> bool) (r : regex) (b : bool) :
  exec (Many c :: r) b [] = exec r b [].
Proof. reflexivity. Qed.

(** After a starred class the rest of the pattern matches a suffix. *)
Lemma exec_Many (c : N -> bool) (r : regex) (b : bool) (s : jsstring) (n : nat) :
  exec (Many c :: r) b s = Some n ->
  exists s1 s2 b' m, s = s1 ++ s2 /\ exec r b' s2 = Some m.
Proof.
  revert b n. induction s as [|x s IH]; intros b n.
  - rewrite exec_Many_nil. intros Hr. by exists [], [], b, n.
  - rewrite exec_Many_cons. destruct (c x).
    + destruct (exec (Many c :: r) false s) as [m|] eqn:Hm.
      * intros _. destruct (IH false m Hm) as (s1 & s2 & b' & m' & -> & Hr).
        by exists (x :: s1), s2, b', m'.
      * intros Hr. by exists [], (x :: s), b, n.
    + intros Hr. by exists [], (x :: s), b, n.
Qed.

Lemma canonicalize_lt (x : N) : canonicalize x = 60%N -> x = 60%N.
Proof.
  unfold canonicalize.
  destruct (N.leb_spec 97 x); destruct (N.leb_spec x 122); simpl; lia.
Qed.

Lemma canonicalize_gt (x : N) : canonicalize x = 62%N -> x = 62%N.
Proof.
  unfold canonicalize.
  destruct (N.leb_spec 97 x); destruct (N.leb_spec x 122); simpl; lia.
Qed.

(** A match of the bare-tag pattern is a ["<"] followed, later, by a [">"]. *)
Lemma anyTag_match (b : bool) (s : jsstring) (n : nat) :
  exec anyTag b s = Some n -> tagLike s /\ 0 < n.
Proof.
  intros Hm. apply exec_One in Hm as (x & s' & m & -> & Hx & Hm & ->).
  apply N.eqb_eq in Hx as <-.
  apply exec_Many in Hm as (s1 & s2 & b' & m' & -> & Hm).
  apply exec_One in Hm as (y & s3 & _ & -> & Hy & _).
  apply N.eqb_eq in Hy as <-. split; [|lia].
  apply sublist_skip, sublist_inserts_l, sublist_skip, sublist_nil_l.
Qed.

(** So is a match of the script-block pattern. *)
Lemma scriptBlock_match (b : bool) (s : jsstring) (n : nat) :
  exec scriptBlock b s = Some n -> tagLike s.
Proof.
  intros Hm. unfold scriptBlock in Hm. simpl map in Hm. simpl app in Hm.
  apply exec_One in Hm as (x & s' & m & -> & Hx & Hm & ->).
  apply N.eqb_eq, canonicalize_lt in Hx as ->.
  do 6 (apply exec_One in Hm as (? & ? & ? & -> & _ & Hm & ->)).
  apply exec_Many in Hm as (s1 & s2 & b' & m' & -> & Hm).
  apply exec_One in Hm as (y & s3 & _ & -> & Hy & _).
  apply N.eqb_eq, canonicalize_gt in Hy as ->.
  apply sublist_skip. do 6 apply sublist_cons.
  apply sublist_inserts_l, sublist_skip, sublist_nil_l.
Qed.

Lemma testFrom_tagLike (r : regex) :
  (forall b s n, exec r b s = Some n -> tagLike s) ->
  forall b s, testFrom r b s = true -> tagLike s.
Proof.
  intros Hr b s. revert b. induction s as [|x s IH]; intros b; simpl.
  - destruct (exec r b []) eqn:E; [|done]. intros _. by eapply Hr.
  - destruct (exec r b (x :: s)) eqn:E.
    + intros _. by eapply Hr.
    + intros Ht. apply sublist_cons. by eapply IH.
Qed.

(** When the bare-tag pattern fails at a ["<"], no [">"] follows. *)
Lemma tagBody_None (b : bool) (s : jsstring) :
  exec [Many notGt; ch 62] b s = None -> 62%N ∉ s.
Proof.
  revert b. induction s as [|x s IH]; intros b.
  - intros _. apply not_elem_of_nil.
  - rewrite exec_Many_cons. unfold notGt at 1.
    change (canonicalize 62) with 62%N.
    destruct (N.eqb_spec (canonicalize x) 62) as [Hx|Hx]; simpl negb; cbv iota.
    + apply canonicalize_gt in Hx as ->. by simpl.
    + destruct (exec [Many notGt; ch 62] false s) eqn:Hs; [done|].
      intros _. apply not_elem_of_cons. split; [|by eapply IH].
      intros <-. by apply Hx.
Qed.

Lemma anyTag_None (b : bool) (s : jsstring) :
  exec anyTag b (60%N :: s) = None -> 62%N ∉ s.
Proof.
  unfold anyTag, ch. rewrite exec_One_cons, N.eqb_refl.
  destruct (exec [Many notGt; One (N.eqb 62)] false s) eqn:E; [done|].
  intros _. by eapply tagBody_None.
Qed.

(** *** What the replacement leaves *)

Lemma replaceScan_cons (r : regex) (repl : jsstring) (b : bool) (x : N)
    (s : jsstring) :
  replaceScan r repl b 0 (x :: s)
  = match exec r b (x :: s) with
    | Some (S n) => repl ++ replaceScan r repl false n s
    | Some 0 => repl ++ x :: replaceScan r repl false 0 s
    | None => x :: replaceScan r repl false 0 s
    end.
Proof. reflexivity. Qed.

Lemma replaceScan_skip (r : regex) (repl : jsstring) (b : bool) (k : nat)
    (x : N) (s : jsstring) :
  replaceScan r repl b (S k) (x :: s) = replaceScan r repl false k s.
Proof. reflexivity. Qed.

Lemma replaceScan_sublist (r : regex) (b : bool) (k : nat) (s : jsstring) :
  replaceScan r [] b k s `sublist_of` s.
Proof.
  revert b k. induction s as [|x s IH]; intros b k; simpl.
  - destruct k; [destruct (exec r b [])|]; done.
  - destruct k as [|k]; [|by apply sublist_cons].
    destruct (exec r b (x :: s)) as [[|n]|]; simpl.
    + by apply sublist_skip.
    + by apply sublist_cons.
    + by apply sublist_skip.
Qed.

Lemma replaceScan_anyTag (b : bool) (k : nat) (s : jsstring) :
  ~ tagLike (replaceScan anyTag [] b k s).
Proof.
  unfold tagLike. revert b k. induction s as [|x s IH]; intros b k.
  - simpl. destruct k; [destruct (exec anyTag b [])|]; by rewrite sublist_nil_r.
  - destruct k as [|k]; [|rewrite replaceScan_skip; apply IH].
    rewrite replaceScan_cons.
    destruct (exec anyTag b (x :: s)) as [[|n]|] eqn:E.
    + apply anyTag_match in E as [_ Hn]. lia.
    + apply IH.
    + rewrite sublist_cons_r. intros [Hs|(l' & [= <- <-] & Hs)].
      * by eapply IH.
      * apply singleton_sublist_l in Hs.
        eapply anyTag_None; [exact E|].
        eapply elem_of_sublist; [exact Hs|apply replaceScan_sublist].
Qed.

(** *** What [trim] leaves *)

Lemma trimStart_split (s : jsstring) :
  exists ws, s = ws ++ trimStart s.
Proof.
  induction s as [|c s [ws IH]]; simpl.
  - by exists [].
  - destruct (isWhiteSpace c).
    + exists (c :: ws). by rewrite IH at 1.
    + by exists [].
Qed.

Lemma trimStart_idem (s : jsstring) : trimStart (trimStart s) = trimStart s.
Proof.
  induction s as [|c s IH]; simpl; [done|].
  destruct (isWhiteSpace c) eqn:E; [done|]. simpl. by rewrite E.
Qed.

Lemma trimEnd_split (s : jsstring) : exists ws, s = trimEnd s ++ ws.
Proof.
  unfold trimEnd. destruct (trimStart_split (rev s)) as [ws Hws].
  exists (rev ws). rewrite <- rev_app_distr, <- Hws. by rewrite rev_involutive.
Qed.

Lemma trimEnd_idem (s : jsstring) : trimEnd (trimEnd s) = trimEnd s.
Proof. unfold trimEnd. by rewrite rev_involutive, trimStart_idem. Qed.

Lemma trimStart_fixed_prefix (s t ws : jsstring) :
  trimStart s = s -> s = t ++ ws -> trimStart t = t.
Proof.
  intros Hs ->. destruct t as [|c t]; [done|]. simpl in *.
  destruct (isWhiteSpace c); [|done].
  destruct (trimStart_split (t ++ ws)) as [ws' Hws'].
  rewrite Hs in Hws'. apply (f_equal length) in Hws'.
  rewrite !length_app in Hws'. simpl in Hws'. rewrite !length_app in Hws'. lia.
Qed.

Lemma trim_sublist (s : jsstring) : trim s `sublist_of` s.
Proof.
  unfold trim. destruct (trimStart_split s) as [ws Hws].
  destruct (trimEnd_split (trimStart s)) as [ws' Hws'].
  rewrite Hws at 2. rewrite Hws' at 2.
  apply sublist_inserts_l, sublist_inserts_r. done.
Qed.

Lemma trim_idem (s : jsstring) : trim (trim s) = trim s.
Proof.
  unfold trim.
  destruct (trimEnd_split (trimStart s)) as [ws Hws].
  rewrite (trimStart_fixed_prefix (trimStart s) (trimEnd (trimStart s)) ws);
    [apply trimEnd_idem|apply trimStart_idem|exact Hws].
Qed.

(** *** Text without markup *)

Lemma replaceScan_no_match (r : regex) (repl : jsstring) (b : bool) (s : jsstring) :
  testFrom r b s = false -> replaceScan r repl b 0 s = s.
Proof.
  revert b. induction s as [|x s IH]; intros b; simpl.
  - by destruct (exec r b []).
  - destruct (exec r b (x :: s)); [done|]. intros Ht. by rewrite IH.
Qed.

Lemma tagFree_no_match (s : jsstring) :
  ~ tagLike s -> test scriptBlock s = false /\ test anyTag s = false.
Proof.
  intros Hfree. split.
  - destruct (test scriptBlock s) eqn:E; [|done].
    exfalso. apply Hfree. eapply testFrom_tagLike; [|exact E].
    apply scriptBlock_match.
  - destruct (test anyTag s) eqn:E; [|done].
    exfalso. apply Hfree. eapply testFrom_tagLike; [|exact E].
    intros b t n Hm. by eapply anyTag_match.
Qed.

(** *** A script element on one line *)
















(** *** A bare tag *)








(** ** The validator *)

(** The guard of the early return of [validateInput]. *)
Lemma not_blank (input : jsstring) :
  trim input <> [] ->
  isFalsy input || (jsLength (trim input) =? 0)%N = false.
Proof.
  intros Ht. apply orb_false_iff. split.
  - destruct input; [done|reflexivity].
  - apply N.eqb_neq. unfold jsLength. destruct (trim input); [done|]. simpl. lia.
Qed.

Lemma blank (input : jsstring) :
  trim input = [] ->
  validateInput input
  = {| isValid := false; errors := [js "Input is required"]; sanitizedInput := None |}.
Proof.
  intros Ht. unfold validateInput. rewrite Ht. by rewrite orb_true_r.
Qed.

Lemma exec_class_Eol (c : N -> bool) (b : bool) (s : jsstring) :
  exec [Many c; Eol] b s = if forallb c s then Some (length s) else None.
Proof.
  revert b. induction s as [|x s IH]; intros b; [done|].
  rewrite exec_Many_cons, IH. simpl forallb.
  destruct (c x); [|done]. simpl. by destruct (forallb c s).
Qed.

Lemma testFrom_Bol (r : regex) (s : jsstring) : testFrom (Bol :: r) false s = false.
Proof. induction s as [|x s IH]; [done|]. exact IH. Qed.

(** The pattern of the encoding check matches exactly the strings all of
    whose code units are at most 0xFFFF: every UTF-16 string. *)
Lemma encodingPattern_matches (s : jsstring) :
  test encodingPattern s = forallb inRange s.
Proof.
  unfold test, encodingPattern.
  assert (He : exec [Bol; Many inRange; Eol] true s
               = if forallb inRange s then Some (length s) else None)
    by apply (exec_class_Eol inRange true s).
  destruct s as [|x s]; [done|].
  change (testFrom [Bol; Many inRange; Eol] true (x :: s))
    with (match exec [Bol; Many inRange; Eol] true (x :: s) with
          | Some _ => true
          | None => testFrom [Bol; Many inRange; Eol] false s
          end).
  rewrite He. destruct (forallb inRange (x :: s)); [done|]. apply testFrom_Bol.
Qed.

Lemma encodingPattern_utf16 (s : jsstring) :
  Forall (fun c => (c < 65536)%N) s -> test encodingPattern s = true.
Proof.
  intros Hs. rewrite encodingPattern_matches. apply forallb_forall.
  intros c Hc. apply list_elem_of_In in Hc.
  rewrite Forall_forall in Hs. specialize (Hs c Hc). unfold inRange.
  destruct (N.leb_spec 0 c), (N.leb_spec c 127), (N.leb_spec 128 c),
    (N.leb_spec c 65535); simpl; try reflexivity; lia.
Qed.

(** C7, for input that is not blank.  The sanitized input is attached
    whatever errors were found, and an input of more than 10000 characters
    gets the length error. *)
Theorem validateInput_oversized (input : jsstring) :
  trim input <> [] ->
  sanitizedInput (validateInput input) = Some (sanitizeInput input)
  /\ ((10000 < jsLength input)%N ->
      js "Input exceeds maximum length of 10000 characters"
      ∈ errors (validateInput input)).
Proof.
  intros Ht. unfold validateInput. rewrite (not_blank input Ht). cbv zeta.
  split; [reflexivity|]. intros Hlen. cbn [errors].
  apply N.ltb_lt in Hlen. unfold MAX_LENGTH. rewrite Hlen.
  destruct (includes input [65533%N] || negb (test encodingPattern input)).
  - apply elem_of_app. left. apply elem_of_app. right. apply list_elem_of_singleton. done.
  - apply elem_of_app. right. by apply list_elem_of_singleton.
Qed.

(** C8. On an input that is not blank, the encoding error is reported
    exactly when the input holds U+FFFD or fails the pattern. *)
Theorem validateInput_encoding (input : jsstring) :
  trim input <> [] ->
  js "Invalid character encoding detected" ∈ errors (validateInput input)
  <-> includes input [0xFFFD%N] = true \/ test encodingPattern input = false.
Proof.
  intros Ht. unfold validateInput. rewrite (not_blank input Ht). cbv zeta.
  cbn [errors].
  assert (Hcond : includes input [65533%N] || negb (test encodingPattern input) = true
                  <-> includes input [65533%N] = true
                      \/ test encodingPattern input = false).
  { rewrite orb_true_iff, negb_true_iff. tauto. }
  rewrite <- Hcond.
  destruct (includes input [65533%N] || negb (test encodingPattern input)).
  - split; [done|]. intros _. apply elem_of_app. right.
    by apply list_elem_of_singleton.
  - split; [|done]. intros Hin. exfalso.
    destruct (jsLength input <? MIN_LENGTH)%N, (MAX_LENGTH <? jsLength input)%N;
      rewrite ?elem_of_app, ?list_elem_of_singleton, ?elem_of_nil in Hin;
      repeat destruct Hin as [Hin|Hin]; try done;
      vm_compute in Hin; discriminate Hin.
Qed.

(** ** Concrete runs *)
Section Examples.
#[local] Existing Instance sampleRuntime.

Example sanitize_script_example :
  sanitizeInput (js "<script>alert(1)</script>Create a blog") = js "Create a blog".
Proof. reflexivity. Qed.

Example categorize_todo_example :
  categorizeProject (js "Todo app") = {| type := js "utility"; complexity := js "low" |}.
Proof. reflexivity. Qed.

Example categorize_store_example :
  categorizeProject (js "Build an e-commerce store")
  = {| type := js "e-commerce"; complexity := js "high" |}.
Proof. reflexivity. Qed.

Example extract_technologies_example :
  technologies (extractEntities (js "Node.js, PostgreSQL, Redis, Docker"))
  = [js "Node.js"; js "PostgreSQL"; js "Redis"; js "Docker"].
Proof. reflexivity. Qed.

Example validate_short_example :
  validateInput (js "hi")
  = {| isValid := false;
       errors := [js "Input must be at least 10 characters"];
       sanitizedInput := Some (js "hi") |}.
Proof. reflexivity. Qed.

(** C1 with the generator that rejects: the aggregate error. *)
Lemma generateAllPhases_witness :
  exists w',
    generateAllPhasesVia failingContent sampleSpec 0
    = (Thrown (js "Failed to generate SPARC documentation"), w').
Proof.
  apply (proj2 generateAllPhases_five_or_fails failingContent sampleSpec
           (js "architecture")).
  - apply arrayIncludes_spec. reflexivity.
  - intros w. eexists _, _. reflexivity.
Defined.

(** C2 at the third phase and at a name that is no phase. *)
Lemma generatePhase_witness :
  (exists title file,
     getPhaseTitle (js "architecture") = Some title
     /\ generatePhase (js "architecture") sampleSpec 0 = (Returned file, 1)
     /\ heading 3 title (projectName sampleSpec) `prefix_of` content file)
  /\ generatePhase (js "invalid-phase") sampleSpec 0
     = (Thrown (js "Invalid phase name"), 0).
Proof.
  split.
  - apply (proj1 (generatePhase_heading_or_invalid (js "architecture") sampleSpec 0) 2).
    reflexivity.
  - apply (proj2 (generatePhase_heading_or_invalid (js "invalid-phase") sampleSpec 0)).
    intros Hin. apply arrayIncludes_spec in Hin. vm_compute in Hin. discriminate Hin.
Defined.

(** C3 on an input with keywords of rule 1 and of rule 2. *)
Lemma categorizeProject_witness :
  categorizeProject (js "Payment microservices for shopping")
  = {| type := js "e-commerce"; complexity := js "high" |}.
Proof.
  pose proof (categorizeProject_first_match
                (js "Payment microservices for shopping")) as Hc.
  cbv zeta in Hc. destruct Hc as (_ & _ & _ & _ & Hboth & _).
  apply Hboth.
  - right. right. vm_compute. reflexivity.
  - left. vm_compute. reflexivity.
Defined.



(** C7 on 10001 letters. *)
Lemma validateInput_oversized_witness :
  sanitizedInput (validateInput oversized) = Some (sanitizeInput oversized)
  /\ js "Input exceeds maximum length of 10000 characters"
     ∈ errors (validateInput oversized).
Proof.
  destruct (validateInput_oversized oversized) as [Hs He].
  - vm_compute. discriminate.
  - split; [exact Hs|]. apply He. vm_compute. reflexivity.
Defined.

(** C7 on blank input: 10001 spaces are longer than 10000 characters, yet
    the early return leaves the result with the single error "Input is
    required", without the length error and without a sanitized input. *)
Lemma validateInput_oversized_blank :
  (10000 < jsLength blankOversized)%N
  /\ errors (validateInput blankOversized) = [js "Input is required"]
  /\ (js "Input exceeds maximum length of 10000 characters"
      ∉ errors (validateInput blankOversized))
  /\ sanitizedInput (validateInput blankOversized) = None.
Proof.
  assert (Hv : validateInput blankOversized
               = {| isValid := false;
                    errors := [js "Input is required"];
                    sanitizedInput := None |}).
  { apply blank. vm_compute. reflexivity. }
  rewrite Hv. split; [vm_compute; reflexivity|]. split; [reflexivity|].
  split; [|reflexivity].
  cbn [errors]. rewrite list_elem_of_singleton. intros Heq.
  vm_compute in Heq. discriminate Heq.
Qed.

(** C8 on an input that holds U+FFFD. *)
Lemma validateInput_encoding_witness :
  js "Invalid character encoding detected"
  ∈ errors (validateInput (js "caf" ++ [0xFFFD%N] ++ js " menu")).
Proof.
  apply (proj2 (validateInput_encoding (js "caf" ++ [0xFFFD%N] ++ js " menu")
                  ltac:(vm_compute; discriminate))).
  left. vm_compute. reflexivity.
Defined.

(** C9 for PostgreSQL in the sample spec. *)
Lemma architecture_witness :
  exists file,
    generatePhase (js "architecture") sampleSpec 0 = (Returned file, 1)
    /\ includes (content file) (js "PostgreSQL") = true.
Proof.
  destruct (architecture_lists_technologies sampleSpec 0)
    as (file & before & after & Hgen & _ & Hall).
  exists file. split; [exact Hgen|].
  apply (Hall (js "PostgreSQL")). apply arrayIncludes_spec. reflexivity.
Defined.

(** C10 on the spec that [process] builds from a request with both flags
    off. *)
Lemma generate_witness :
  exists spec output,
    process sampleRequest 0
    = (Returned {| piIsValid := true; piErrors := None; data := Some spec |}, 0)
    /\ requestMetadata spec ≫= rmIncludeTests = Some false
    /\ requestMetadata spec ≫= rmIncludeDocs = Some false
    /\ generate spec 0 = (Returned output, 5)
    /\ js "tests/setup.ts" ∈ map name (files output)
    /\ js "tests/blog-application.test.ts" ∈ map name (files output)
    /\ js "tests/user-authentication.test.ts" ∈ map name (files output)
    /\ js "README.md" ∈ map name (files output)
    /\ js "CONTRIBUTING.md" ∈ map name (files output).
Proof.
  eexists.
  match goal with
  | |- exists output, _ = (Returned {| data := Some ?spec |}, _) /\ _ =>
      destruct (generate_always_tests_and_docs spec 0)
        as (_ & output & fw & docs & core & tests & mds
            & Hgen & _ & _ & _ & _ & _ & Hin)
  end.
  exists output. split; [reflexivity|]. split; [reflexivity|].
  split; [reflexivity|]. split; [exact Hgen|].
  repeat split; apply Hin; apply arrayIncludes_spec; reflexivity.
Defined.

End Examples.

(** ** A description whose lower-casing is longer *)
Section SpecialCasing.
#[local] Existing Instance dottedRuntime.

(** C3 as first stated, on "todo" followed by 23 times U+0130: the input
    has 27 characters and holds "todo" and no keyword of rules 1 and 2, so
    rule 3 on the total length would answer (utility, low); the lower-cased
    input has 50 characters and the answer is the default. *)
Lemma categorizeProject_lowercased_length :
  let input := js "todo" ++ repeat 0x130%N 23 in
  jsLength input = 27%N
  /\ includes input (js "todo") = true
  /\ includes (toLowerCase input) (js "todo") = true
  /\ Forall (fun keyword => includes (toLowerCase input) keyword = false)
       [js "e-commerce"; js "shopping"; js "payment"; js "microservices";
        js "financial trading"]
  /\ jsLength (toLowerCase input) = 50%N
  /\ categorizeProject input
     = {| type := js "web-application"; complexity := js "medium" |}
  /\ categorizeProject input <> {| type := js "utility"; complexity := js "low" |}.
Proof.
  cbv zeta. repeat split; try (vm_compute; reflexivity).
  - apply (bool_decide_unpack _). vm_compute. exact I.
  - vm_compute. discriminate.
Qed.

End SpecialCasing.

(** ** Further properties *)

(** Membership of a literal in a literal array, decided by evaluation. *)
Ltac literal_in := apply arrayIncludes_spec; vm_compute; reflexivity.
Ltac literal_not_in H :=
  apply arrayIncludes_spec in H; vm_compute in H; discriminate H.


(** ** More on the input processor *)

(** Membership of a literal in a literal array, decided by evaluation. *)

Lemma sanitizeInput_tagFree (s : jsstring) : ~ tagLike (sanitizeInput s).
Proof.
  intros Ht. eapply (replaceScan_anyTag true 0). unfold tagLike in *.
  etrans; [exact Ht|]. apply trim_sublist.
Qed.

(** X1. Sanitizing is idempotent, and a string without a ["<"] followed
    by a [">"] only gets trimmed. *)
Theorem sanitizeInput_idempotent (input : jsstring) :
  sanitizeInput (sanitizeInput input) = sanitizeInput input
  /\ (~ tagLike input -> sanitizeInput input = trim input).
Proof.
  assert (Hplain : forall s, ~ tagLike s -> sanitizeInput s = trim s).
  { intros s Hs. destruct (tagFree_no_match s Hs) as [H1 H2].
    unfold sanitizeInput, replaceAll.
    rewrite (replaceScan_no_match scriptBlock [] true s H1).
    by rewrite (replaceScan_no_match anyTag [] true s H2). }
  split; [|apply Hplain].
  rewrite (Hplain _ (sanitizeInput_tagFree input)).
  unfold sanitizeInput. apply trim_idem.
Qed.

Lemma validateInput_not_blank (input : jsstring) :
  trim input <> [] ->
  validateInput input
  = {| isValid :=
         (jsLength
            (((if (jsLength input <? MIN_LENGTH)%N
               then [js "Input must be at least 10 characters"] else [])
              ++ (if (MAX_LENGTH <? jsLength input)%N
                  then [js "Input exceeds maximum length of 10000 characters"]
                  else []))
             ++ (if includes input [0xFFFD%N] || negb (test encodingPattern input)
                 then [js "Invalid character encoding detected"] else []))
          =? 0)%N;
       errors :=
         ((if (jsLength input <? MIN_LENGTH)%N
           then [js "Input must be at least 10 characters"] else [])
          ++ (if (MAX_LENGTH <? jsLength input)%N
              then [js "Input exceeds maximum length of 10000 characters"]
              else []))
         ++ (if includes input [0xFFFD%N] || negb (test encodingPattern input)
             then [js "Invalid character encoding detected"] else []);
       sanitizedInput := Some (sanitizeInput input) |}.
Proof.
  intros Ht. unfold validateInput. rewrite (not_blank input Ht). cbv zeta.
  destruct (jsLength input <? MIN_LENGTH)%N, (MAX_LENGTH <? jsLength input)%N,
    (includes input [65533%N] || negb (test encodingPattern input)); reflexivity.
Qed.

(** X2. An input is valid exactly when it is not blank, has between 10
    and 10000 characters, holds no U+FFFD and passes the pattern; and it is
    valid exactly when no error is reported. *)
Theorem validateInput_valid_iff (input : jsstring) :
  (isValid (validateInput input) = true
   <-> trim input <> []
       /\ (10 <= jsLength input)%N /\ (jsLength input <= 10000)%N
       /\ includes input [0xFFFD%N] = false
       /\ test encodingPattern input = true)
  /\ (isValid (validateInput input) = true <-> errors (validateInput input) = []).
Proof.
  destruct (decide (trim input = [])) as [Hb|Hb].
  - rewrite (blank input Hb). simpl. split; split; try done; by intros [? _].
  - rewrite (validateInput_not_blank input Hb). cbn [isValid errors].
    unfold MIN_LENGTH, MAX_LENGTH.
    destruct (N.ltb_spec (jsLength input) 10);
    destruct (N.ltb_spec 10000 (jsLength input));
    destruct (includes input [65533%N]) eqn:E1;
    destruct (test encodingPattern input) eqn:E2; simpl;
    (split; split; try done; try (intros (_ & ? & ? & ? & ?); try done; lia);
     try (intros _; repeat split; try done; lia)).
Qed.

(** X3. On an input that is not blank the two length errors are reported
    exactly for lengths below 10 and above 10000, hence never together;
    "Input is required" is not reported, and there are at most two
    errors. *)
Theorem validateInput_length_errors (input : jsstring) :
  trim input <> [] ->
  (js "Input must be at least 10 characters" ∈ errors (validateInput input)
   <-> (jsLength input < 10)%N)
  /\ (js "Input exceeds maximum length of 10000 characters"
      ∈ errors (validateInput input)
      <-> (10000 < jsLength input)%N)
  /\ (js "Input is required" ∉ errors (validateInput input))
  /\ length (errors (validateInput input)) <= 2.
Proof.
  intros Hb. rewrite (validateInput_not_blank input Hb). cbn [errors].
  unfold MIN_LENGTH, MAX_LENGTH.
  destruct (N.ltb_spec (jsLength input) 10);
  destruct (N.ltb_spec 10000 (jsLength input));
  destruct (includes input [65533%N] || negb (test encodingPattern input));
  try lia; simpl;
  (split; [|split; [|split; [|lia]]]);
  try (split; [intros Hin; try lia; literal_not_in Hin
              |intros Hlt; try lia; literal_in]);
  intros Hin; literal_not_in Hin.
Qed.

(** ** Entities and the structured spec *)

(** A [forEach] that pushes [g x] for the elements that pass [c]. *)
Lemma forEach_filter_push {A B : Type} (arr : list A) (c : A -> bool)
    (g : A -> B) (acc : list B) :
  forEach arr (fun acc x => if c x then acc ++ [g x] else acc) acc
  = acc ++ (g <$> filter (fun x => c x = true) arr).
Proof.
  unfold forEach. revert acc. induction arr as [|x arr IH]; intros acc; simpl.
  - by rewrite app_nil_r.
  - rewrite IH, filter_cons. destruct (c x) eqn:E.
    + rewrite decide_True by done. by rewrite <- app_assoc.
    + rewrite decide_False by done. done.
Qed.

Section Entities.
Context `{Runtime}.

Lemma extractEntities_technologies_filter (input : jsstring) :
  technologies (extractEntities input)
  = canonicalTech
    <$> filter (fun tech => includes (toLowerCase input) tech = true) techKeywords.
Proof.
  unfold extractEntities. cbn [technologies].
  by rewrite (forEach_filter_push _ (includes (toLowerCase input)) canonicalTech).
Qed.

Lemma extractEntities_requirements_filter (input : jsstring) :
  requirements (extractEntities input)
  = filter (fun req => includes (toLowerCase input) req = true) requirementPhrases.
Proof.
  unfold extractEntities. cbn [requirements].
  rewrite (forEach_filter_push _ (includes (toLowerCase input)) id).
  by rewrite list_fmap_id.
Qed.

Lemma extractEntities_features_sublist (input : jsstring) :
  features (extractEntities input) `sublist_of` featurePhrases.
Proof.
  unfold extractEntities. cbn [features].
  destruct (includes _ (js "blog application")),
    (includes _ (js "user authentication")), (includes _ (js "todo app")); simpl;
    repeat first [apply sublist_nil_l | apply sublist_skip | apply sublist_cons].
Qed.

Lemma extractEntities_constraints_sublist (input : jsstring) :
  constraints (extractEntities input) `sublist_of` constraintNames.
Proof.
  unfold extractEntities. cbn [constraints].
  destruct (includes _ (js "< 10ms latency")),
    (includes _ (js "multi-factor authentication")); simpl;
    repeat first [apply sublist_nil_l | apply sublist_skip | apply sublist_cons].
Qed.

(** X4. What [extractEntities] returns comes from the fixed tables only:
    each of the four lists is a sublist of its table (table order, canonical
    casing), so it has no duplicates and at most 3, 5, 10 and 2 entries; a
    technology is listed exactly when its lower-case keyword occurs in the
    lower-cased input. *)
Theorem extractEntities_from_tables (input : jsstring) :
  let entities := extractEntities input in
  (features entities `sublist_of` featurePhrases
   /\ technologies entities `sublist_of` technologyNames
   /\ requirements entities `sublist_of` requirementPhrases
   /\ constraints entities `sublist_of` constraintNames)
  /\ (NoDup (features entities) /\ NoDup (technologies entities)
      /\ NoDup (requirements entities) /\ NoDup (constraints entities))
  /\ (length (features entities) <= 3 /\ length (technologies entities) <= 5
      /\ length (requirements entities) <= 10 /\ length (constraints entities) <= 2)
  /\ (forall tech, tech ∈ techKeywords ->
        canonicalTech tech ∈ technologies entities
        <-> includes (toLowerCase input) tech = true).
Proof.
  intros entities.
  assert (Hsub : features entities `sublist_of` featurePhrases
                 /\ technologies entities `sublist_of` technologyNames
                 /\ requirements entities `sublist_of` requirementPhrases
                 /\ constraints entities `sublist_of` constraintNames).
  { split; [apply extractEntities_features_sublist|].
    split; [|split; [|apply extractEntities_constraints_sublist]].
    - subst entities. rewrite extractEntities_technologies_filter.
      change technologyNames with (canonicalTech <$> techKeywords).
      apply fmap_sublist, sublist_filter.
    - subst entities. rewrite extractEntities_requirements_filter.
      apply sublist_filter. }
  destruct Hsub as (Hf & Ht & Hr & Hc).
  split; [done|]. split; [|split].
  - repeat split; (eapply sublist_NoDup; [|eassumption]);
      apply (bool_decide_unpack _); vm_compute; exact I.
  - apply sublist_length in Hf, Ht, Hr, Hc. simpl in *. lia.
  - intros tech Hin. subst entities.
    rewrite extractEntities_technologies_filter, list_elem_of_fmap. split.
    + intros (kw & Heq & Hkw). apply list_elem_of_filter in Hkw as [Hp Hkw].
      assert (kw = tech) as ->; [|done].
      repeat (apply elem_of_cons in Hin as [->|Hin]);
      repeat (apply elem_of_cons in Hkw as [->|Hkw]);
      try reflexivity; try (by apply elem_of_nil in Hin);
      try (by apply elem_of_nil in Hkw); vm_compute in Heq; discriminate Heq.
    + intros Hp. exists tech. split; [done|]. by apply list_elem_of_filter.
Qed.

(** X5. Matching ignores ASCII case: two ASCII inputs that agree up to
    case get the same entities, category, project name and spec. *)
Theorem input_case_insensitive (a b : jsstring) :
  Forall (fun c => (c < 128)%N) a ->
  Forall (fun c => (c < 128)%N) b ->
  map lowerAscii a = map lowerAscii b ->
  extractEntities a = extractEntities b
  /\ categorizeProject a = categorizeProject b
  /\ extractProjectName a = extractProjectName b
  /\ forall w, generateStructuredSpec a w = generateStructuredSpec b w.
Proof.
  intros Ha Hb Hab.
  assert (Hl : toLowerCase a = toLowerCase b)
    by (by rewrite !toLowerCase_ascii, Hab).
  assert (He : extractEntities a = extractEntities b)
    by (unfold extractEntities; by rewrite Hl).
  assert (Hc : categorizeProject a = categorizeProject b)
    by (unfold categorizeProject; by rewrite Hl).
  assert (Hn : extractProjectName a = extractProjectName b)
    by (unfold extractProjectName; by rewrite Hl).
  repeat split; try done.
  intros w. unfold generateStructuredSpec, generateDescription.
  by rewrite He, Hc, Hn.
Qed.

End Entities.

Lemma keepUnseen_fresh (seen l : list jsstring) (x : jsstring) :
  x ∉ seen -> keepUnseen seen (x :: l) = x :: keepUnseen (x :: seen) l.
Proof. intros Hx. simpl. by rewrite decide_False. Qed.

Section SpecInvariants.
Context `{Runtime}.

(** X6. [generateStructuredSpec] never throws.  The spec it returns has one
    of the five project names, one acceptance criterion per feature, the
    description built from the features, no alternatives and no request
    metadata; for the empty string it is the default web application. *)
Theorem generateStructuredSpec_total :
  (forall input w, exists spec,
     generateStructuredSpec input w = (Returned spec, w)
     /\ projectName spec
        ∈ [js "Blog Application"; js "E-commerce Platform"; js "Todo Application";
           js "Trading Platform"; js "Web Application"]
     /\ description spec
        = js "A comprehensive application featuring "
          ++ join (js ", ") (specFeatures spec)
     /\ acceptanceCriteria spec
        = map (fun feature =>
                 js "User should be able to use " ++ feature ++ js " successfully")
              (specFeatures spec)
     /\ length (acceptanceCriteria spec) = length (specFeatures spec)
     /\ alternatives (specTechnologies spec) = []
     /\ requestMetadata spec = None)
  /\ (forall w,
        generateStructuredSpec [] w
        = (Returned
             {| projectName := js "Web Application";
                description := js "A comprehensive application featuring ";
                specFeatures := [];
                specTechnologies :=
                  {| suggested := [js "React"; js "Node.js"]; alternatives := [] |};
                specRequirements := [];
                specConstraints := [];
                acceptanceCriteria := [];
                estimatedTimeline :=
                  {| phases := [js "Planning"; js "Development"; js "Testing";
                                js "Deployment"];
                     totalWeeks := 8 |};
                requestMetadata := None |}, w)).
Proof.
  split.
  - intros input w. eexists. split; [reflexivity|]. cbn -[js].
    split; [|split; [reflexivity|split; [reflexivity|split; [|done]]]].
    + unfold extractProjectName.
      destruct (includes _ (js "blog")); [literal_in|].
      destruct (includes _ (js "e-commerce")); [literal_in|].
      destruct (includes _ (js "todo")); [literal_in|].
      destruct (includes _ (js "trading")); literal_in.
    + unfold generateAcceptanceCriteria. by rewrite length_map.
  - intros w.
    unfold generateStructuredSpec, extractEntities, categorizeProject,
      extractProjectName, tryCatch, resolve.
    rewrite (toLowerCase_ascii []) by constructor. reflexivity.
Qed.

(** X7. The category, the timeline and the suggested technologies go
    together: the type, the complexity and the number of weeks are one of
    four fixed rows, the suggested list starts with React and Node.js, and
    for an e-commerce or microservices project it starts with React,
    Node.js, PostgreSQL, Redis. *)
Theorem category_timeline_technologies (input : jsstring) (w : nat) :
  exists spec,
    let category := categorizeProject input in
    generateStructuredSpec input w = (Returned spec, w)
    /\ (type category, complexity category, totalWeeks (estimatedTimeline spec))
       ∈ [(js "e-commerce", js "high", 16%N);
          (js "microservices", js "enterprise", 24%N);
          (js "utility", js "low", 2%N);
          (js "web-application", js "medium", 8%N)]
    /\ [js "React"; js "Node.js"] `prefix_of` suggested (specTechnologies spec)
    /\ (type category = js "e-commerce" \/ type category = js "microservices" ->
        [js "React"; js "Node.js"; js "PostgreSQL"; js "Redis"]
        `prefix_of` suggested (specTechnologies spec)).
Proof.
  eexists. cbv zeta. split; [reflexivity|]. cbn -[js].
  unfold estimateTimeline, suggestTechnologies, categorizeProject.
  rewrite !spreadSet_dedupFirst. unfold dedupFirst.
  destruct (includes _ (js "e-commerce") || includes _ (js "shopping")
            || includes _ (js "payment")); cbn -[js keepUnseen].
  { split; [apply list_elem_of_here|].
    change (strEq (js "high") (js "high")) with true. cbn -[js keepUnseen].
    rewrite !keepUnseen_fresh by (intros Hin; literal_not_in Hin).
    split; [by eexists|]. intros _. by eexists. }
  destruct (includes _ (js "microservices")
            || includes _ (js "financial trading")); cbn -[js keepUnseen].
  { split; [apply list_elem_of_further, list_elem_of_here|].
    change (strEq (js "enterprise") (js "high")) with false.
    change (strEq (js "enterprise") (js "enterprise")) with true.
    cbn -[js keepUnseen].
    rewrite !keepUnseen_fresh by (intros Hin; literal_not_in Hin).
    split; [by eexists|]. intros _. by eexists. }
  destruct (includes _ (js "todo") && (jsLength _ <? 50)%N); cbn -[js keepUnseen].
  { split; [do 2 apply list_elem_of_further; apply list_elem_of_here|].
    change (strEq (js "low") (js "high")) with false.
    change (strEq (js "low") (js "enterprise")) with false.
    cbn -[js keepUnseen].
    rewrite !keepUnseen_fresh by (intros Hin; literal_not_in Hin).
    split; [by eexists|]. intros [Hc|Hc]; vm_compute in Hc; discriminate Hc. }
  split; [do 3 apply list_elem_of_further; apply list_elem_of_here|].
  change (strEq (js "medium") (js "high")) with false.
  change (strEq (js "medium") (js "enterprise")) with false.
  cbn -[js keepUnseen].
  rewrite !keepUnseen_fresh by (intros Hin; literal_not_in Hin).
  split; [by eexists|]. intros [Hc|Hc]; vm_compute in Hc; discriminate Hc.
Qed.

(** X8. [process] never throws and follows the validator: on an invalid
    description it returns the validation errors and no data; on a valid
    one it returns the spec that [generateStructuredSpec] builds from the
    description as given (not from the sanitized input), annotated with
    the five request fields. *)
Theorem process_follows_validation (request : FeatureRequest) (w : nat) :
  let validation := validateInput (frDescription request) in
  (isValid validation = false ->
   process request w
   = (Returned {| piIsValid := false;
                  piErrors := Some (errors validation);
                  data := None |}, w))
  /\ (isValid validation = true ->
      exists spec,
        generateStructuredSpec (frDescription request) w = (Returned spec, w)
        /\ process request w
           = (Returned
                {| piIsValid := true;
                   piErrors := None;
                   data :=
                     Some
                       {| projectName := projectName spec;
                          description := description spec;
                          specFeatures := specFeatures spec;
                          specTechnologies := specTechnologies spec;
                          specRequirements := specRequirements spec;
                          specConstraints := specConstraints spec;
                          acceptanceCriteria := acceptanceCriteria spec;
                          estimatedTimeline := estimatedTimeline spec;
                          requestMetadata :=
                            Some {| rmComplexity := Some (frComplexity request);
                                    rmFramework := Some (frFramework request);
                                    rmIncludeTests := Some (frIncludeTests request);
                                    rmIncludeDocs := Some (frIncludeDocs request);
                                    rmAiProvider := Some (frAiProvider request) |} |} |},
              w)).
Proof.
  intros validation. split; intros Hv.
  - unfold process, tryCatch. fold validation. by rewrite Hv.
  - eexists. split; [reflexivity|].
    unfold process, tryCatch. fold validation. by rewrite Hv.
Qed.

End SpecInvariants.

(** ** More on the generator *)

Lemma includes_self (t : jsstring) : includes t t = true.
Proof. apply includes_spec. exists [], []. by rewrite app_nil_r. Qed.

Lemma includes_app_l (s u t : jsstring) :
  includes s t = true -> includes (s ++ u) t = true.
Proof.
  rewrite !includes_spec. intros (a & b & ->). exists a, (b ++ u).
  by rewrite <- !app_assoc.
Qed.

Lemma includes_app_r (s u t : jsstring) :
  includes u t = true -> includes (s ++ u) t = true.
Proof.
  rewrite !includes_spec. intros (a & b & ->). exists (s ++ a), b.
  by rewrite <- !app_assoc.
Qed.

Lemma includes_head (a b c rest : jsstring) :
  includes (a ++ b ++ c ++ rest) (a ++ b ++ c) = true.
Proof. apply includes_spec. exists [], rest. by rewrite <- !app_assoc. Qed.

(** Finds the text among the pieces of a concatenation. *)
Ltac find_piece :=
  first [ solve [ apply includes_self ]
        | solve [ apply includes_head ]
        | match goal with
          | |- includes (block _) _ = true => solve [ vm_compute; reflexivity ]
          end
        | solve [ apply includes_app_l; find_piece ]
        | solve [ apply includes_app_r; find_piece ] ].

Section Documents.
Context `{Runtime}.

Lemma architecture_frontend (n : nat) (spec : StructuredSpec) :
  includes (generateArchitectureContent n spec)
    (js "Frontend ("
     ++ orString (List.find (arrayIncludes [js "React"; js "Vue"; js "Angular"])
                    (suggested (specTechnologies spec))) (js "React")
     ++ js ")") = true.
Proof.
  unfold generateArchitectureContent. cbv zeta.
  destruct (existsb _ _); destruct (arrayIncludes _ (js "Redis"));
    destruct (strEq _ _ || _); cbv iota; find_piece.
Qed.

Lemma architecture_cache (n : nat) (spec : StructuredSpec) :
  js "Redis" ∈ suggested (specTechnologies spec) ->
  includes (generateArchitectureContent n spec) (js "Cache Layer (Redis)") = true.
Proof.
  intros Hr. apply arrayIncludes_spec in Hr.
  unfold generateArchitectureContent. cbv zeta. rewrite Hr.
  destruct (existsb _ _); destruct (strEq _ _ || _); cbv iota; find_piece.
Qed.

Lemma architecture_database (n : nat) (spec : StructuredSpec) (db : jsstring) :
  List.find (arrayIncludes [js "PostgreSQL"; js "MySQL"; js "MongoDB"])
    (suggested (specTechnologies spec)) = Some db ->
  includes (generateArchitectureContent n spec)
    (js "Database (" ++ db ++ js ")") = true.
Proof.
  intros Hdb. unfold generateArchitectureContent. cbv zeta.
  assert (Hex : existsb (arrayIncludes [js "PostgreSQL"; js "MySQL"; js "MongoDB"])
                  (suggested (specTechnologies spec)) = true).
  { apply find_some in Hdb as [Hin Hp]. apply existsb_exists. eauto. }
  rewrite Hex, Hdb.
  assert (Hor : orString (Some db) (js "PostgreSQL") = db).
  { apply find_some in Hdb as [_ Hp]. destruct db; [|done].
    vm_compute in Hp. discriminate Hp. }
  rewrite Hor.
  destruct (arrayIncludes _ (js "Redis")); destruct (strEq _ _ || _); cbv iota;
    find_piece.
Qed.

End Documents.

(** ** The diagram, line by line *)

Lemma find_arrayIncludes (names techs : list jsstring) :
  List.find (arrayIncludes names) techs
  = List.find (fun tech => bool_decide (tech ∈ names)) techs.
Proof.
  induction techs as [|t techs IH]; [done|]. cbn [List.find].
  rewrite IH.
  destruct (arrayIncludes names t) eqn:E.
  - apply arrayIncludes_spec in E. by rewrite bool_decide_eq_true_2.
  - rewrite bool_decide_eq_false_2; [done|].
    intros Hin. apply arrayIncludes_spec in Hin. congruence.
Qed.

Lemma orString_find (names techs : list jsstring) (fallback : jsstring) :
  [] ∉ names ->
  orString (List.find (arrayIncludes names) techs) fallback
  = firstOf names techs fallback.
Proof.
  intros Hn. unfold firstOf. rewrite <- find_arrayIncludes.
  destruct (List.find (arrayIncludes names) techs) as [t|] eqn:E; [|done].
  apply find_some in E as [_ E]. apply arrayIncludes_spec in E.
  destruct t; [done|reflexivity].
Qed.

Lemma if_decide {A} (P : Prop) `{Decision P} (a b : A) :
  (if decide P then a else b) = (if bool_decide P then a else b).
Proof. by destruct (decide P); [rewrite bool_decide_eq_true_2|rewrite bool_decide_eq_false_2]. Qed.

Lemma arrayIncludes_decide (arr : list jsstring) (x : jsstring) :
  arrayIncludes arr x = bool_decide (x ∈ arr).
Proof.
  destruct (arrayIncludes arr x) eqn:E.
  - apply arrayIncludes_spec in E. by rewrite bool_decide_eq_true_2.
  - rewrite bool_decide_eq_false_2; [done|].
    intros Hin. apply arrayIncludes_spec in Hin. congruence.
Qed.

Lemma existsb_find (names techs : list jsstring) :
  existsb (arrayIncludes names) techs
  = match List.find (fun tech => bool_decide (tech ∈ names)) techs with
    | Some _ => true
    | None => false
    end.
Proof.
  induction techs as [|t techs IH]; [done|]. cbn [existsb List.find].
  rewrite IH, arrayIncludes_decide. by destruct (bool_decide (t ∈ names)).
Qed.

Lemma isComplex_rule (spec : StructuredSpec) :
  strEq (determineComplexity spec) (js "high")
  || (3 <? jsLength (specRequirements spec))%N
  = bool_decide ((5 < jsLength (specFeatures spec))%N
                 \/ (3 < jsLength (specRequirements spec))%N
                 \/ (1 < jsLength (specConstraints spec))%N).
Proof.
  unfold determineComplexity.
  destruct (N.leb_spec (jsLength (specFeatures spec)) 2);
  destruct (N.leb_spec (jsLength (specFeatures spec)) 5);
  destruct (N.ltb_spec 3 (jsLength (specRequirements spec)));
  destruct (N.ltb_spec 1 (jsLength (specConstraints spec)));
  cbn [negb andb orb];
  (change (strEq (js "low") (js "high")) with false
   || change (strEq (js "medium") (js "high")) with false
   || change (strEq (js "high") (js "high")) with true);
  cbn [orb]; symmetry;
  first [ apply bool_decide_eq_true_2; lia
        | apply bool_decide_eq_false_2; lia ].
Qed.

Lemma join_cons_lines (sep first : jsstring) (rest : list jsstring) :
  join sep (first :: rest) = first ++ flat_map (fun line => sep ++ line) rest.
Proof.
  revert first. induction rest as [|x rest IH]; intros first.
  - cbn [join flat_map]. by rewrite app_nil_r.
  - change (join sep (first :: x :: rest)) with (first ++ sep ++ join sep (x :: rest)).
    rewrite IH. cbn [flat_map]. by rewrite <- !app_assoc.
Qed.

Lemma join_app_lines (first : jsstring) (base more : list jsstring) :
  join nl ((first :: base) ++ more) = join nl (first :: base) ++ lineBreaks more.
Proof.
  cbn [app]. rewrite !join_cons_lines. unfold lineBreaks.
  by rewrite flat_map_app, <- app_assoc.
Qed.

Lemma lineBreaks_app (l1 l2 : list jsstring) :
  lineBreaks (l1 ++ l2) = lineBreaks l1 ++ lineBreaks l2.
Proof. apply flat_map_app. Qed.

Section Diagram.
Context `{Runtime}.
#[local] Open Scope string_scope.
#[local] Open Scope list_scope.
#[local] Open Scope stdpp_scope.

(** The document as the source builds it: the opening with the first four
    lines of the diagram, what the three conditionals add, and the rest. *)
Lemma architecture_parts (n : nat) (spec : StructuredSpec) :
  generateArchitectureContent n spec
  = (js "# Phase " ++ numberToString n ++ js ": Architecture - " ++ projectName spec ++ nl
     ++ block ["";
              "## System Architecture";
              "```"]
     ++ js "Frontend ("
     ++ orString (List.find (arrayIncludes [js "React"; js "Vue"; js "Angular"])
                    (suggested (specTechnologies spec))) (js "React")
     ++ js ")" ++ nl
     ++ js "    " ++ [0x2193%N] ++ nl
     ++ ln "API Gateway"
     ++ js "    " ++ [0x2193%N])
    ++ (if strEq (determineComplexity spec) (js "high")
           || (3 <? jsLength (specRequirements spec))%N
        then
          block ["";
                 "Microservices Architecture"]
          ++ js "    " ++ [0x251C%N] ++ [0x2500%N] ++ [0x2500%N] ++ js " Auth Service" ++ nl
          ++ js "    " ++ [0x251C%N] ++ [0x2500%N] ++ [0x2500%N] ++ js " Core Service" ++ nl
          ++ js "    " ++ [0x2514%N] ++ [0x2500%N] ++ [0x2500%N]
          ++ js " Notification Service"
        else
          ln ""
          ++ js "Backend Service ("
          ++ orString (List.find (arrayIncludes [js "Node.js"; js "Express"])
                         (suggested (specTechnologies spec))) (js "Node.js")
          ++ js ")")
    ++ (if arrayIncludes (suggested (specTechnologies spec)) (js "Redis")
        then ln "" ++ js "    " ++ [0x2193%N] ++ nl ++ js "Cache Layer (Redis)"
        else [])
    ++ (if existsb (arrayIncludes [js "PostgreSQL"; js "MySQL"; js "MongoDB"])
             (suggested (specTechnologies spec))
        then
          ln "" ++ js "    " ++ [0x2193%N] ++ nl
          ++ js "Database ("
          ++ orString
               (List.find (arrayIncludes [js "PostgreSQL"; js "MySQL"; js "MongoDB"])
                  (suggested (specTechnologies spec))) (js "PostgreSQL")
          ++ js ")"
        else [])
    ++ block ["";
             "```";
             "";
             "## Component Structure"]
    ++ (join nl
          (map (fun tech => js "- " ++ tech ++ js ": " ++ getTechnologyDescription tech)
             (suggested (specTechnologies spec))) ++ nl
        ++ block ["";
                 "## Security Architecture";
                 "- Authentication: JWT tokens with refresh mechanism";
                 "- Authorization: Role-based access control (RBAC)";
                 "- Data encryption: AES-256 for sensitive data";
                 "- API security: Rate limiting, input validation, CORS";
                 "";
                 "## Scalability Considerations";
                 "- Horizontal scaling capability";
                 "- Database connection pooling";
                 "- Caching strategy for frequently accessed data";
                 "- Load balancing across service instances"]).
Proof.
  unfold generateArchitectureContent. cbv zeta.
  destruct (existsb _ _); destruct (arrayIncludes _ (js "Redis"));
    destruct (strEq _ _ || _);
    rewrite ?app_nil_r; rewrite <- ?app_assoc; reflexivity.
Qed.

(** X9. The fenced diagram of the architecture document is exactly the
    lines of [diagramLines], in that order and one per line: the frontend,
    an arrow, the gateway, an arrow; then either the four lines of the
    microservices block or the one backend service line, never both; then
    an arrow and the cache layer exactly when Redis is suggested; then an
    arrow and the database line, naming the first database technology
    found, exactly when there is one.  The heading stands before the
    diagram and the component list after it. *)
Theorem architecture_diagram (n : nat) (spec : StructuredSpec) :
  exists after,
    generateArchitectureContent n spec
    = heading n (js "Architecture") (projectName spec) ++ nl
      ++ nl ++ js "## System Architecture" ++ nl
      ++ js "```" ++ nl
      ++ join nl (diagramLines spec) ++ nl
      ++ js "```" ++ nl
      ++ nl ++ js "## Component Structure" ++ nl
      ++ after.
Proof.
  rewrite architecture_parts.
  match goal with
  | |- exists after, _ ++ _ ++ _ ++ _ ++ _ ++ ?rest = _ => exists rest; generalize rest
  end.
  intros rest.
  rewrite isComplex_rule, arrayIncludes_decide, existsb_find.
  rewrite !orString_find
    by (intros Hin; apply arrayIncludes_spec in Hin; vm_compute in Hin;
        discriminate Hin).
  unfold diagramLines, heading. cbv zeta.
  rewrite (join_app_lines _ _ _), !lineBreaks_app.
  unfold firstOf at 3.
  generalize (firstOf [js "React"; js "Vue"; js "Angular"]
                (suggested (specTechnologies spec)) (js "React")).
  generalize (firstOf [js "Node.js"; js "Express"]
                (suggested (specTechnologies spec)) (js "Node.js")).
  generalize (numberToString n). generalize (projectName spec).
  intros name number backend frontend.
  rewrite !if_decide.
  destruct (List.find _ (suggested (specTechnologies spec))) as [db|];
    destruct (bool_decide (_ \/ _)); destruct (bool_decide (_ ∈ _));
    unfold lineBreaks; cbn [join flat_map]; rewrite <- ?app_assoc;
    vm_compute; reflexivity.
Qed.

End Diagram.

(** ** White space runs *)

Lemma exec_whitespace_tail (b : bool) (s : jsstring) :
  exec [Many isWhiteSpace] b s = Some (runLength s).
Proof.
  revert b. induction s as [|x s IH]; intros b; [done|].
  rewrite exec_Many_cons. cbn [runLength].
  destruct (isWhiteSpace x); [|done]. by rewrite IH.
Qed.

Lemma exec_whitespaceRun (b : bool) (x : N) (s : jsstring) :
  exec whitespaceRun b (x :: s)
  = if isWhiteSpace x then Some (S (runLength s)) else None.
Proof.
  unfold whitespaceRun. rewrite exec_One_cons.
  destruct (isWhiteSpace x); [|done]. by rewrite exec_whitespace_tail.
Qed.

Lemma replaceScan_run (repl : jsstring) (s : jsstring) :
  replaceScan whitespaceRun repl false (runLength s) s
  = replaceScan whitespaceRun repl false 0 (drop (runLength s) s).
Proof.
  induction s as [|x s IH]; [done|]. cbn [runLength].
  destruct (isWhiteSpace x); [|done].
  rewrite replaceScan_skip. exact IH.
Qed.

Lemma collapseRuns_run (repl : jsstring) (s : jsstring) :
  collapseRuns repl true s = collapseRuns repl false (drop (runLength s) s).
Proof.
  induction s as [|x s IH]; [done|]. cbn [runLength collapseRuns].
  destruct (isWhiteSpace x) eqn:E.
  - exact IH.
  - cbn [drop collapseRuns]. by rewrite E.
Qed.

Lemma replaceScan_collapseRuns (repl : jsstring) (b : bool) (s : jsstring) :
  replaceScan whitespaceRun repl b 0 s = collapseRuns repl false s.
Proof.
  remember (length s) as n eqn:Hn.
  assert (Hle : length s <= n) by lia. clear Hn.
  revert b s Hle. induction n as [|n IH]; intros b s Hle.
  - destruct s; [done|]. simpl in Hle. lia.
  - destruct s as [|x s]; [done|].
    rewrite replaceScan_cons, exec_whitespaceRun. cbn [collapseRuns].
    destruct (isWhiteSpace x).
    + rewrite replaceScan_run, collapseRuns_run. f_equal.
      apply IH. rewrite length_drop. simpl in Hle. lia.
    + f_equal. apply IH. simpl in Hle. lia.
Qed.

Lemma collapseRuns_elem (repl : jsstring) (b : bool) (s : jsstring) (c : N) :
  c ∈ collapseRuns repl b s -> c ∈ repl \/ (c ∈ s /\ isWhiteSpace c = false).
Proof.
  revert b. induction s as [|x s IH]; intros b; cbn [collapseRuns].
  - by intros ?%elem_of_nil.
  - destruct (isWhiteSpace x) eqn:E.
    + intros [Hin|Hin]%elem_of_app.
      * destruct b; [by apply elem_of_nil in Hin|by left].
      * destruct (IH _ Hin) as [?|[? ?]]; [by left|right].
        split; [by apply list_elem_of_further|done].
    + intros [->|Hin]%elem_of_cons.
      * right. split; [apply list_elem_of_here|done].
      * destruct (IH _ Hin) as [?|[? ?]]; [by left|right].
        split; [by apply list_elem_of_further|done].
Qed.

Lemma collapseRuns_filter (b : bool) (s : jsstring) :
  collapseRuns [] b s = List.filter (fun c => negb (isWhiteSpace c)) s.
Proof.
  revert b. induction s as [|x s IH]; intros b; [done|].
  cbn [collapseRuns List.filter]. destruct (isWhiteSpace x); cbn [negb].
  - destruct b; apply IH.
  - f_equal. apply IH.
Qed.

Lemma collapseRuns_clean (repl : jsstring) (s : jsstring) :
  (forall c, c ∈ s -> isWhiteSpace c = false) ->
  collapseRuns repl false s = s.
Proof.
  induction s as [|x s IH]; intros Hs; [done|]. cbn [collapseRuns].
  rewrite (Hs x) by apply list_elem_of_here. f_equal. apply IH.
  intros c Hc. apply Hs. by apply list_elem_of_further.
Qed.

Section Names.
Context `{Runtime}.

(** X10. [s.replace(/\s+/g, repl)] replaces every maximal run of white
    space by one [repl] and keeps the other characters.  So the name of a
    feature's test file holds no white space, the component name of a
    feature is the feature without its white space, and a string without
    white space is left as it is. *)
Theorem whitespace_runs_replaced (repl s feature : jsstring) :
  replaceAll whitespaceRun repl s = collapseRuns repl false s
  /\ (forall c, c ∈ testFileName feature -> isWhiteSpace c = false)
  /\ replaceAll whitespaceRun [] s
     = List.filter (fun c => negb (isWhiteSpace c)) s
  /\ ((forall c, c ∈ s -> isWhiteSpace c = false) ->
      replaceAll whitespaceRun repl s = s).
Proof.
  unfold replaceAll. split; [apply replaceScan_collapseRuns|].
  split; [|split].
  - intros c. unfold testFileName, replaceAll.
    rewrite replaceScan_collapseRuns.
    intros [Hin|[Hin|Hin]%elem_of_app]%elem_of_app.
    + revert c Hin. apply Forall_forall. apply (bool_decide_unpack _).
      vm_compute. exact I.
    + apply collapseRuns_elem in Hin as [Hin|[_ Hc]]; [|done].
      revert c Hin. apply Forall_forall. apply (bool_decide_unpack _).
      vm_compute. exact I.
    + revert c Hin. apply Forall_forall. apply (bool_decide_unpack _).
      vm_compute. exact I.
  - rewrite replaceScan_collapseRuns. apply collapseRuns_filter.
  - intros Hs. rewrite replaceScan_collapseRuns. by apply collapseRuns_clean.
Qed.

End Names.

(** ** The output of [generate] *)

Lemma collect_five (t1 t2 t3 t4 t5 : jsstring) (m1 m2 m3 m4 m5 : SparcMetadata) :
  forEach
    [{| phase := js "specification"; content := t1; metadata := m1 |};
     {| phase := js "pseudocode"; content := t2; metadata := m2 |};
     {| phase := js "architecture"; content := t3; metadata := m3 |};
     {| phase := js "refinement"; content := t4; metadata := m4 |};
     {| phase := js "completion"; content := t5; metadata := m5 |}]
    collect {| cFiles := []; cSpecification := []; cArchitecture := [] |}
  = {| cFiles :=
         [{| name := js "specification.md"; fileContent := t1;
             fileType := js "documentation" |};
          {| name := js "pseudocode.md"; fileContent := t2;
             fileType := js "documentation" |};
          {| name := js "architecture.md"; fileContent := t3;
             fileType := js "documentation" |};
          {| name := js "refinement.md"; fileContent := t4;
             fileType := js "documentation" |};
          {| name := js "completion.md"; fileContent := t5;
             fileType := js "documentation" |}];
       cSpecification := t1;
       cArchitecture := t3 |}.
Proof. reflexivity. Qed.

Section Output.
Context `{Runtime}.

Lemma generateFrameworkFiles_names (framework : jsstring) (spec : StructuredSpec)
    (w : nat) :
  exists coreFiles,
    generateFrameworkFiles framework spec w = (Returned coreFiles, w)
    /\ map name coreFiles = frameworkFileNames framework.
Proof.
  unfold generateFrameworkFiles, frameworkFileNames.
  destruct (strEq framework (js "react")); [by eexists|].
  destruct (strEq framework (js "vue")); by eexists.
Qed.

(** What [generate] returns, file by file. *)
Lemma generate_output (spec : StructuredSpec) (w : nat) :
  let framework := orString (requestMetadata spec ≫= rmFramework) (js "react") in
  exists coreFiles testFiles,
    map name coreFiles = frameworkFileNames framework
    /\ map name testFiles
       = js "tests/setup.ts" :: map testFileName (specFeatures spec)
    /\ generate spec w
       = (Returned
            {| files :=
                 (([{| name := js "specification.md";
                       fileContent := generateSpecificationContent 1 spec;
                       fileType := js "documentation" |};
                    {| name := js "pseudocode.md";
                       fileContent := generatePseudocodeContent 2 spec;
                       fileType := js "documentation" |};
                    {| name := js "architecture.md";
                       fileContent := generateArchitectureContent 3 spec;
                       fileType := js "documentation" |};
                    {| name := js "refinement.md";
                       fileContent := generateRefinementContent 4 spec;
                       fileType := js "documentation" |};
                    {| name := js "completion.md";
                       fileContent := generateCompletionContent 5 spec;
                       fileType := js "documentation" |}]
                   ++ coreFiles) ++ testFiles)
                 ++ [{| name := js "README.md";
                        fileContent := generateReadme spec;
                        fileType := js "documentation" |};
                     {| name := js "CONTRIBUTING.md";
                        fileContent := generateContributing;
                        fileType := js "documentation" |}];
               specification := generateSpecificationContent 1 spec;
               architecture := generateArchitectureContent 3 spec |},
          5 + w).
Proof.
  intros framework.
  destruct (generateFrameworkFiles_names framework spec (5 + w))
    as (coreFiles & Hcore & Hcn).
  destruct (generateTestFiles_names framework spec (5 + w))
    as (testFiles & Htest & Htn).
  exists coreFiles, testFiles. split; [exact Hcn|]. split; [exact Htn|].
  pose proof (generate_returns spec w _ _ _ _ _ coreFiles testFiles _
                (generateAllPhases_returns spec w) Hcore Htest eq_refl) as Hgen.
  cbv zeta in Hgen.
  change (imap _ (zip validPhases (phaseDocuments spec)))
    with [sparcFileAt (js "specification") (generateSpecificationContent 1 spec)
            spec (0 + w);
          sparcFileAt (js "pseudocode") (generatePseudocodeContent 2 spec)
            spec (1 + w);
          sparcFileAt (js "architecture") (generateArchitectureContent 3 spec)
            spec (2 + w);
          sparcFileAt (js "refinement") (generateRefinementContent 4 spec)
            spec (3 + w);
          sparcFileAt (js "completion") (generateCompletionContent 5 spec)
            spec (4 + w)] in Hgen.
  unfold sparcFileAt in Hgen. rewrite collect_five in Hgen. exact Hgen.
Qed.

Lemma generate_total (spec : StructuredSpec) (w : nat) :
  exists output, generate spec w = (Returned output, 5 + w).
Proof.
  destruct (generate_output spec w) as (coreFiles & testFiles & _ & _ & Hgen).
  eexists. exact Hgen.
Qed.

(** X11. [generate] never fails.  Its files are, in this order, one
    Markdown document per phase holding the phase's content, the scaffold
    of the framework (React when the request names none, a single
    [index.html] for a framework that is neither React nor Vue), the test
    setup with one test per feature, and the two documentation files; the
    [specification] and [architecture] fields hold the documents of phases
    one and three. *)
Theorem generate_layout (spec : StructuredSpec) (w : nat) :
  let framework := orString (requestMetadata spec ≫= rmFramework) (js "react") in
  exists output,
    generate spec w = (Returned output, 5 + w)
    /\ map name (files output)
       = map (fun phase => phase ++ js ".md") validPhases
         ++ frameworkFileNames framework
         ++ (js "tests/setup.ts" :: map testFileName (specFeatures spec))
         ++ [js "README.md"; js "CONTRIBUTING.md"]
    /\ map fileContent (take 5 (files output)) = phaseDocuments spec
    /\ (forall file, file ∈ take 5 (files output) ->
        fileType file = js "documentation")
    /\ specification output = generateSpecificationContent 1 spec
    /\ architecture output = generateArchitectureContent 3 spec.
Proof.
  intros framework.
  destruct (generate_output spec w) as (coreFiles & testFiles & Hcn & Htn & Hgen).
  eexists. split; [exact Hgen|].
  cbn [files specification architecture].
  split; [|split; [|split; [|done]]].
  - rewrite !map_app, Hcn, Htn. rewrite <- !app_assoc. reflexivity.
  - rewrite <- !app_assoc. reflexivity.
  - rewrite <- !app_assoc. cbn [take app].
    intros file Hin. repeat (apply elem_of_cons in Hin as [->|Hin]; [done|]).
    by apply elem_of_nil in Hin.
Qed.

(** ** What the documents list *)



End Output.



Section Listings.
Context `{Runtime}.


End Listings.

(** ** The generation endpoint *)

Lemma isFalsy_nil (s : jsstring) : isFalsy s = true <-> s = [].
Proof. by destruct s. Qed.

Lemma validateInput_blank (input : jsstring) :
  trim input = [] -> isValid (validateInput input) = false.
Proof.
  intros Hb. unfold validateInput. rewrite Hb.
  by rewrite orb_true_r.
Qed.

Section Endpoint.
Context `{Runtime}.
Variable dateNow : nat -> Z.
Variable notAFunction : jsstring.

Lemma process_valid (request : FeatureRequest) (w : nat) :
  isValid (validateInput (frDescription request)) = true ->
  exists spec,
    process request w
    = (Returned {| piIsValid := true; piErrors := None; data := Some spec |}, w).
Proof.
  intros Hv. eexists. unfold process, tryCatch. by rewrite Hv.
Qed.

Lemma process_invalid (request : FeatureRequest) (w : nat) :
  isValid (validateInput (frDescription request)) = false ->
  process request w
  = (Returned {| piIsValid := false;
                 piErrors := Some (errors (validateInput (frDescription request)));
                 data := None |}, w).
Proof. intros Hv. unfold process, tryCatch. by rewrite Hv. Qed.

(** X13. [POST /api/generate], for a body whose fields other than the
    description have the types of [FeatureRequest].  The answer is 200
    exactly when the description is a string that passes [validateInput],
    500 exactly when it is a value that is no string (its [trim] cannot be
    called) and 400 otherwise.  An absent or blank description is answered
    with "Feature description is required", another invalid one with
    "Invalid input" and the errors of the validator; a success carries the
    output of [generate] and the time between the handler's two readings of
    the clock; the failure carries the message of the TypeError. *)
Theorem postGenerate_responses (request : Server.GenerateBody) (w : nat) :
  exists r w',
    Server.postGenerate dateNow notAFunction request w = (Returned r, w')
    /\ (Server.status r = 200%N \/ Server.status r = 400%N
        \/ Server.status r = 500%N)
    /\ (Server.status r = 200%N <->
        exists d, Server.gbDescription request = Server.Text d
                  /\ isValid (validateInput d) = true)
    /\ (Server.status r = 500%N <-> Server.gbDescription request = Server.NotText)
    /\ (Server.gbDescription request = Server.Absent
        \/ (exists d, Server.gbDescription request = Server.Text d /\ trim d = []) ->
        r = {| Server.status := 400;
               Server.json :=
                 Server.DescriptionRequired (js "Feature description is required") |})
    /\ (forall d,
          Server.gbDescription request = Server.Text d -> trim d <> [] ->
          isValid (validateInput d) = false ->
          r = {| Server.status := 400;
                 Server.json :=
                   Server.InvalidInput (js "Invalid input")
                     (Some (errors (validateInput d))) |})
    /\ (Server.gbDescription request = Server.NotText ->
        r = {| Server.status := 500;
               Server.json :=
                 Server.GenerationFailed (js "Generation failed") notAFunction
                   (dateNow (S w) - dateNow w)%Z |})
    /\ (forall d,
          Server.gbDescription request = Server.Text d ->
          Server.status r = 200%N ->
          exists spec output,
            process (Server.asFeatureRequest request d) (S w)
            = (Returned {| piIsValid := true; piErrors := None; data := Some spec |},
               S w)
            /\ generate spec (S w) = (Returned output, 6 + w)
            /\ Server.json r
               = Server.Generated output (dateNow (6 + w) - dateNow w)%Z
                   (isoNow (7 + w))).
Proof.
  unfold Server.postGenerate.
  rewrite (await_returned (Server.dateNowMs dateNow) _ w (S w) (dateNow w))
    by reflexivity.
  unfold tryCatch.
  destruct (Server.gbDescription request) as [|d|] eqn:Hd.
  - eexists _, _. split; [reflexivity|]. cbn [Server.status Server.json].
    split; [by right; left|].
    split; [split; [done|by intros (d & ? & _)]|].
    split; [done|]. split; [done|]. split; [by intros d ?|].
    split; [done|]. by intros d ?.
  - destruct (isFalsy (trim d)) eqn:Hb.
    { apply isFalsy_nil in Hb.
      eexists _, _. split; [reflexivity|]. cbn [Server.status Server.json].
      split; [by right; left|]. split.
      { split; [done|]. intros (d' & [= <-] & Hv).
        by rewrite (validateInput_blank d Hb) in Hv. }
      split; [done|]. split; [done|]. split; [by intros d' [= <-] ?|].
      split; [done|]. by intros d' _ ?. }
    assert (Hnb : trim d <> []).
    { intros Hnil. apply isFalsy_nil in Hnil. congruence. }
    destruct (isValid (validateInput d)) eqn:Hv.
    + destruct (process_valid (Server.asFeatureRequest request d) (S w) Hv)
        as (spec & Hp).
      destruct (generate_total spec (S w)) as (output & Hg).
      rewrite (await_returned _ _ _ _ _ Hp). cbn [piIsValid negb data].
      unfold Server.generateData.
      rewrite (await_returned _ _ _ _ _ Hg).
      rewrite (await_returned (Server.dateNowMs dateNow) _ (5 + S w) (6 + S w)
                 (dateNow (5 + S w))) by reflexivity.
      rewrite (await_returned dateNowISO _ (6 + S w) (7 + S w)
                 (isoNow (6 + S w))) by reflexivity.
      eexists _, _. split; [reflexivity|]. cbn [Server.status Server.json].
      split; [by left|]. split; [split; [|done]; intros _; by exists d|].
      split; [done|].
      split; [intros [?|(d' & [= <-] & ?)]; done|].
      split; [intros d' [= <-] _ Hv'; congruence|].
      split; [done|].
      intros d' [= <-] _. exists spec, output.
      split; [exact Hp|]. split; [exact Hg|].
      repeat f_equal; lia.
    + rewrite (await_returned _ _ _ _ _
                 (process_invalid (Server.asFeatureRequest request d) (S w) Hv)).
      cbn [piIsValid negb piErrors].
      eexists _, _. split; [reflexivity|]. cbn [Server.status Server.json].
      split; [by right; left|]. split.
      { split; [done|]. intros (d' & [= <-] & Hv'). congruence. }
      split; [done|].
      split; [intros [?|(d' & [= <-] & ?)]; done|].
      split; [by intros d' [= <-] _ _|].
      split; [done|]. by intros d' _ ?.
  - unfold throwError.
    rewrite (await_returned (Server.dateNowMs dateNow) _ (S w) (S (S w))
               (dateNow (S w))) by reflexivity.
    eexists _, _. split; [reflexivity|]. cbn [Server.status Server.json].
    split; [by right; right|].
    split; [split; [done|by intros (d & ? & _)]|].
    split; [done|]. split; [by intros [?|(d & ? & _)]|].
    split; [by intros d ?|]. split; [done|]. by intros d ?.
Qed.

End Endpoint.

(** ** The AI service *)

Lemma trimStart_app_kept (h s : jsstring) (c : N) :
  head h = Some c -> isWhiteSpace c = false -> trimStart (h ++ s) = h ++ s.
Proof.
  destruct h as [|x h]; [done|]. intros [= ->] Hc. simpl. by rewrite Hc.
Qed.

Lemma trimEnd_snoc_dropped (s : jsstring) (c : N) :
  isWhiteSpace c = true -> trimEnd (s ++ [c]) = trimEnd s.
Proof.
  intros Hc. unfold trimEnd. rewrite rev_app_distr. simpl. by rewrite Hc.
Qed.

Lemma trimEnd_app_kept (s t : jsstring) (c : N) :
  head (rev t) = Some c -> isWhiteSpace c = false -> trimEnd (s ++ t) = s ++ t.
Proof.
  intros Hl Hc. unfold trimEnd. rewrite rev_app_distr.
  rewrite (trimStart_app_kept _ _ c Hl Hc).
  by rewrite <- rev_app_distr, rev_involutive.
Qed.

(** The optimized prompt is the request between two fixed texts, and the
    second one speaks of "Technical specifications". *)
Lemma optimizePrompt_shape (prompt : jsstring) :
  exists before after,
    AIService.optimizePrompt prompt = before ++ prompt ++ after
    /\ includes after (js "specification") = true.
Proof.
  unfold AIService.optimizePrompt. cbv zeta.
  match goal with
  | |- context [trim (?b1 ++ ?u ++ prompt ++ ?n ++ ?b2)] =>
      pose (before := drop 1 (b1 ++ u));
      pose (after := rev (drop 1 (rev (n ++ b2))));
      replace (b1 ++ u ++ prompt ++ n ++ b2)
        with ([10%N] ++ before ++ prompt ++ after ++ [10%N])
        by (subst before after; vm_compute; reflexivity)
  end.
  exists before, after. split; [|subst after; vm_compute; reflexivity].
  unfold trim.
  change (trimStart ([10%N] ++ ?s)) with (trimStart s).
  rewrite (trimStart_app_kept before _ 89%N)
    by (subst before; vm_compute; reflexivity).
  rewrite !app_assoc.
  rewrite trimEnd_snoc_dropped by reflexivity.
  rewrite (trimEnd_app_kept _ after 101%N)
    by (subst after; vm_compute; reflexivity).
  by rewrite <- !app_assoc.
Qed.

Lemma optimizePrompt_specification (prompt : jsstring) :
  includes (AIService.optimizePrompt prompt) (js "specification") = true.
Proof.
  destruct (optimizePrompt_shape prompt) as (before & after & -> & Hin).
  by apply includes_app_r, includes_app_r.
Qed.

Section Providers.
Variable openAIMethod claudeMethod : jsstring -> AIService.Ai jsstring.

Lemma retryLoop_S (left : nat) (lastError : AIService.thrown)
    (prompt provider : jsstring) (st : list N) :
  AIService.retryLoop openAIMethod claudeMethod (S left) lastError prompt provider st
  = match
      (if strEq provider (js "openai") then openAIMethod prompt
       else if strEq provider (js "claude") then claudeMethod prompt
       else AIService.aiThrowError (js "Unsupported provider: " ++ provider)) st
    with
    | (AIService.Resolved a, st') => (AIService.Resolved a, st')
    | (AIService.Rejected (AIService.Nullish isNull), st') =>
        (AIService.Rejected
           (AIService.ErrorObject None (Some (AIService.statusOfNullish isNull))),
         st')
    | (AIService.Rejected (AIService.ErrorObject status message as error), st') =>
        if AIService.statusIs error 401 || AIService.statusIs error 403
        then (AIService.Rejected error, st')
        else if (AIService.maxRetries - N.of_nat left =? AIService.maxRetries)%N
        then (AIService.Rejected error, st')
        else
          AIService.retryLoop openAIMethod claudeMethod left error prompt provider
            (st' ++ [(AIService.retryDelay
                      * 2 ^ (AIService.maxRetries - N.of_nat left - 1))%N])
    end.
Proof.
  cbn [AIService.retryLoop]. unfold AIService.aiTryCatch.
  match goal with
  | |- context [(if strEq provider (js "openai") then ?a else ?b) st] =>
      destruct ((if strEq provider (js "openai") then a else b) st)
        as [[a'|[isNull|s m]] st']
  end; try reflexivity.
  destruct (_ || _); [reflexivity|].
  destruct (_ =? _)%N; reflexivity.
Qed.

(** What leaves the retry loop is neither [undefined] nor [null]: the loop
    rethrows a value whose [status] it has just read. *)
Lemma retryLoop_defined (left : nat) (lastError e : AIService.thrown)
    (prompt provider : jsstring) (st st' : list N) :
  left <> 0 ->
  AIService.retryLoop openAIMethod claudeMethod left lastError prompt provider st
  = (AIService.Rejected e, st') ->
  forall isNull, e <> AIService.Nullish isNull.
Proof.
  revert lastError st. induction left as [|left IH]; intros lastError st Hl; [done|].
  rewrite retryLoop_S.
  match goal with
  | |- context [(if strEq provider (js "openai") then ?a else ?b) st] =>
      destruct ((if strEq provider (js "openai") then a else b) st)
        as [[a'|[isNull|s m]] st1]
  end.
  - done.
  - by intros [= <- _].
  - destruct (_ || _); [by intros [= <- _]|].
    destruct (_ =? _)%N eqn:Hlast; [by intros [= <- _]|].
    apply IH. intros ->. by vm_compute in Hlast.
Qed.

(** X14. [generateContent] never rejects, whatever the provider calls do or
    throw: it resolves to a success, with no error and a content that is
    trimmed and free of tag-like markup, or to a failure, with an empty
    content and a non-empty error message. *)
Theorem generateContent_never_rejects (prompt provider : jsstring) (st : list N) :
  exists r st',
    AIService.generateContentVia openAIMethod claudeMethod prompt provider st
    = (AIService.Resolved r, st')
    /\ (AIService.success r = true ->
        AIService.error r = None
        /\ ~ tagLike (AIService.responseContent r)
        /\ trim (AIService.responseContent r) = AIService.responseContent r)
    /\ (AIService.success r = false ->
        AIService.responseContent r = []
        /\ exists message, AIService.error r = Some message /\ message <> []).
Proof.
  assert (Hfail : forall e st1,
            (forall isNull, e <> AIService.Nullish isNull) ->
            exists r,
              AIService.handleError e st1 = (AIService.Resolved r, st1)
              /\ AIService.success r = false
              /\ AIService.responseContent r = []
              /\ exists message, AIService.error r = Some message /\ message <> []).
  { intros [isNull|s m] st1 He; [by destruct (He isNull)|]. eexists. split; [reflexivity|].
    cbn [AIService.success AIService.responseContent AIService.error].
    split; [done|]. split; [done|]. eexists. split; [reflexivity|].
    destruct (_ || _); [done|]. destruct (AIService.statusIs _ 429); [done|].
    destruct (AIService.statusIs _ 402); [done|].
    destruct m as [[|x m]|]; done. }
  assert (Hrun :
            exists r st',
              AIService.aiTryCatch
                (AIService.aiAwait
                   (AIService.callAIWithRetryVia openAIMethod claudeMethod
                      (AIService.optimizePrompt prompt) provider)
                   (fun content =>
                      AIService.aiAwait (AIService.sanitizeResponse content)
                        (fun sanitizedContent =>
                           AIService.aiResolve
                             {| AIService.success := true;
                                AIService.responseContent := sanitizedContent;
                                AIService.error := None |})))
                AIService.handleError st
              = (AIService.Resolved r, st')
              /\ (AIService.success r = true ->
                  AIService.error r = None
                  /\ ~ tagLike (AIService.responseContent r)
                  /\ trim (AIService.responseContent r) = AIService.responseContent r)
              /\ (AIService.success r = false ->
                  AIService.responseContent r = []
                  /\ exists message, AIService.error r = Some message /\ message <> [])).
  { unfold AIService.aiTryCatch, AIService.aiAwait.
    destruct (AIService.callAIWithRetryVia _ _ _ _ st) as [[content|e] st1] eqn:Hcall.
    - unfold AIService.sanitizeResponse. destruct (isFalsy content).
      + cbn [AIService.aiThrowError AIService.aiThrow].
        destruct (Hfail (AIService.ErrorObject None
                           (Some (js "Invalid response from AI service"))) st1)
          as (r & Hr & Hs & Hc & Hm); [done|].
        exists r, st1. split; [exact Hr|]. split; [congruence|done].
      + eexists _, _. split; [reflexivity|].
        cbn [AIService.success AIService.responseContent AIService.error].
        split; [|done]. intros _. split; [done|]. split.
        * apply sanitizeInput_tagFree.
        * apply trim_idem.
    - destruct (Hfail e st1) as (r & Hr & Hs & Hc & Hm).
      { eapply retryLoop_defined; [|exact Hcall]. done. }
      exists r, st1. split; [exact Hr|]. split; [congruence|done]. }
  unfold AIService.generateContentVia. cbv zeta.
  destruct (AIService.validateInput prompt provider) as [message|] eqn:Hv;
    [|exact Hrun].
  assert (Hm : isFalsy message = false).
  { unfold AIService.validateInput in Hv.
    destruct (_ || _); [by injection Hv as <-|].
    destruct (_ <? _)%N; [by injection Hv as <-|].
    destruct (negb _); [by injection Hv as <-|done]. }
  rewrite Hm. eexists _, _. split; [reflexivity|].
  cbn [AIService.success AIService.responseContent AIService.error].
  split; [done|]. intros _. split; [done|]. exists message. split; [done|].
  by destruct message.
Qed.

(** X15. The retry loop of [callAIWithRetry].  A call that resolves ends
    the loop at once.  When the provider rejects every call with the same
    value, the loop gives up with that value after waits of 1000 and
    2000 ms, unless the status is 401 or 403, which is rethrown without
    any wait.  After one rejection and a wait of 1000 ms a call that
    resolves gives the result.  A provider name other than the two known
    ones is retried in the same way. *)
Theorem callAIWithRetry_schedule (prompt provider : jsstring) (st : list N) :
  let method :=
    if strEq provider (js "openai") then openAIMethod prompt
    else if strEq provider (js "claude") then claudeMethod prompt
    else AIService.aiThrowError (js "Unsupported provider: " ++ provider) in
  let run := AIService.callAIWithRetryVia openAIMethod claudeMethod prompt provider in
  (forall content st',
     method st = (AIService.Resolved content, st') ->
     run st = (AIService.Resolved content, st'))
  /\ (forall status message,
        let e := AIService.ErrorObject status message in
        (forall st', method st' = (AIService.Rejected e, st')) ->
        run st
        = (AIService.Rejected e,
           if AIService.statusIs e 401 || AIService.statusIs e 403 then st
           else st ++ [1000%N; 2000%N]))
  /\ (forall status message content st1 st2,
        let e := AIService.ErrorObject status message in
        method st = (AIService.Rejected e, st1) ->
        AIService.statusIs e 401 || AIService.statusIs e 403 = false ->
        method (st1 ++ [1000%N]) = (AIService.Resolved content, st2) ->
        run st = (AIService.Resolved content, st2))
  /\ (provider <> js "openai" -> provider <> js "claude" ->
      run st
      = (AIService.Rejected
           (AIService.ErrorObject None (Some (js "Unsupported provider: " ++ provider))),
         st ++ [1000%N; 2000%N])).
Proof.
  intros method run.
  assert (Hgive : forall status message,
            let e := AIService.ErrorObject status message in
            (forall st', method st' = (AIService.Rejected e, st')) ->
            run st
            = (AIService.Rejected e,
               if AIService.statusIs e 401 || AIService.statusIs e 403 then st
               else st ++ [1000%N; 2000%N])).
  { intros status message e Hm. subst run. unfold AIService.callAIWithRetryVia.
    change (N.to_nat AIService.maxRetries) with 3.
    rewrite retryLoop_S. fold method. rewrite Hm. fold e.
    destruct (_ || _) eqn:Hauth; [done|].
    change (AIService.maxRetries - N.of_nat 2 =? AIService.maxRetries)%N with false.
    cbv iota. rewrite retryLoop_S. fold method. rewrite Hm. fold e. rewrite Hauth.
    change (AIService.maxRetries - N.of_nat 1 =? AIService.maxRetries)%N with false.
    cbv iota. rewrite retryLoop_S. fold method. rewrite Hm. fold e. rewrite Hauth.
    change (AIService.maxRetries - N.of_nat 0 =? AIService.maxRetries)%N with true.
    cbv iota. by rewrite <- app_assoc. }
  split; [|split; [exact Hgive|split]].
  - intros content st' Hm. subst run. unfold AIService.callAIWithRetryVia.
    change (N.to_nat AIService.maxRetries) with 3.
    rewrite retryLoop_S. fold method. by rewrite Hm.
  - intros status message content st1 st2 e Hm Hauth Hm2.
    subst run. unfold AIService.callAIWithRetryVia.
    change (N.to_nat AIService.maxRetries) with 3.
    rewrite retryLoop_S. fold method. rewrite Hm. fold e. rewrite Hauth.
    change (AIService.maxRetries - N.of_nat 2 =? AIService.maxRetries)%N with false.
    cbv iota. rewrite retryLoop_S. fold method.
    change (AIService.retryDelay * 2 ^ (AIService.maxRetries - N.of_nat 2 - 1))%N
      with 1000%N.
    by rewrite Hm2.
  - intros Ho Hc.
    assert (Hm : forall st',
              method st'
              = (AIService.Rejected
                   (AIService.ErrorObject None
                      (Some (js "Unsupported provider: " ++ provider))), st')).
    { intros st'. subst method. cbv beta.
      apply strEq_false in Ho. apply strEq_false in Hc. by rewrite Ho, Hc. }
    exact (Hgive None _ Hm).
Qed.

End Providers.

(** X16. With the provider calls of the class itself, in every
    environment: [generateContent] answers an invalid request with the
    message of the first failed check (blank prompt, more than 10000
    characters, unknown provider), a valid one with the mock specification
    text, whatever the prompt asks for, because the optimized prompt always
    holds the word "specification"; it never waits. *)
Theorem generateContent_mock (env : AIService.Env) (prompt provider : jsstring)
    (st : list N) :
  AIService.generateContent env prompt provider st
  = (AIService.Resolved
       match AIService.validateInput prompt provider with
       | Some message =>
           {| AIService.success := false;
              AIService.responseContent := [];
              AIService.error := Some message |}
       | None =>
           {| AIService.success := true;
              AIService.responseContent :=
                AIService.generateMockResponse (js "specification");
              AIService.error := None |}
       end, st)
  /\ AIService.validateInput prompt provider
     = (if decide (trim prompt = []) then Some (js "Prompt is required")
        else if decide (10000 < jsLength prompt)%N
        then Some (js "Prompt exceeds maximum length")
        else if decide (provider ∈ [js "openai"; js "claude"]) then None
        else Some (js "Unsupported AI provider")).
Proof.
  split.
  - unfold AIService.generateContent, AIService.generateContentVia. cbv zeta.
    destruct (AIService.validateInput prompt provider) as [message|] eqn:Hv.
    + assert (Hm : isFalsy message = false).
      { unfold AIService.validateInput in Hv.
        destruct (_ || _); [by injection Hv as <-|].
        destruct (_ <? _)%N; [by injection Hv as <-|].
        destruct (negb _); [by injection Hv as <-|done]. }
      by rewrite Hm.
    + assert (Hp : provider = js "openai" \/ provider = js "claude").
      { unfold AIService.validateInput in Hv.
        destruct (_ || _); [done|]. destruct (_ <? _)%N; [done|].
        destruct (arrayIncludes _ provider) eqn:Hin; [|done].
        apply arrayIncludes_spec in Hin.
        apply elem_of_cons in Hin as [->|Hin]; [by left|].
        apply list_elem_of_singleton in Hin as ->. by right. }
      assert (Hcall :
                AIService.callAIWithRetryVia (AIService.callOpenAI env)
                  (AIService.callClaude env) (AIService.optimizePrompt prompt)
                  provider st
                = (AIService.Resolved
                     (AIService.generateMockResponse (js "specification")), st)).
      { unfold AIService.callAIWithRetryVia.
        change (N.to_nat AIService.maxRetries) with 3.
        rewrite retryLoop_S.
        assert (Hmock : AIService.generateMockResponse
                          (AIService.optimizePrompt prompt)
                        = AIService.generateMockResponse (js "specification")).
        { unfold AIService.generateMockResponse.
          by rewrite optimizePrompt_specification. }
        unfold AIService.callOpenAI, AIService.callClaude.
        destruct Hp as [-> | ->].
        - change (strEq (js "openai") (js "openai")) with true. cbv iota.
          rewrite Hmock. by destruct (bool_decide _).
        - change (strEq (js "claude") (js "openai")) with false.
          change (strEq (js "claude") (js "claude")) with true. cbv iota.
          rewrite Hmock. by destruct (bool_decide _). }
      unfold AIService.aiTryCatch, AIService.aiAwait. rewrite Hcall.
      assert (Hs : AIService.sanitizeResponse
                     (AIService.generateMockResponse (js "specification")) st
                   = (AIService.Resolved
                        (AIService.generateMockResponse (js "specification")), st)).
      { vm_compute. reflexivity. }
      by rewrite Hs.
  - unfold AIService.validateInput.
    destruct (decide (trim prompt = [])) as [Hb|Hb].
    { rewrite Hb. by rewrite orb_true_r. }
    rewrite (not_blank prompt Hb).
    unfold AIService.maxPromptLength.
    destruct (decide (10000 < jsLength prompt)%N) as [Hl|Hl].
    { apply N.ltb_lt in Hl. by rewrite Hl. }
    apply N.ltb_nlt in Hl. rewrite Hl.
    destruct (decide (provider ∈ [js "openai"; js "claude"])) as [Hp|Hp].
    + apply arrayIncludes_spec in Hp. by rewrite Hp.
    + destruct (arrayIncludes _ provider) eqn:Hin; [|done].
      by apply arrayIncludes_spec in Hin.
Qed.

(** ** From the description to the architecture document *)

Lemma find_only {A} (p : A -> bool) (l : list A) (x : A) :
  x ∈ l -> p x = true -> (forall y, y ∈ l -> p y = true -> y = x) ->
  List.find p l = Some x.
Proof.
  induction l as [|y l IH]; intros Hin Hp Hu; [by apply elem_of_nil in Hin|].
  simpl. destruct (p y) eqn:Hy.
  - f_equal. apply Hu; [apply list_elem_of_here|done].
  - apply IH; [|done|].
    + apply elem_of_cons in Hin as [->|Hin]; [congruence|done].
    + intros z Hz. apply Hu. by apply list_elem_of_further.
Qed.

Section Pipeline.
Context `{Runtime}.

Lemma suggestTechnologies_elem (category : ProjectCategory) (input tech : jsstring) :
  tech ∈ suggestTechnologies category (extractEntities input)
  <-> tech ∈ [js "React"; js "Node.js"]
      \/ ((complexity category = js "high" \/ complexity category = js "enterprise")
          /\ tech ∈ [js "PostgreSQL"; js "Redis"])
      \/ tech ∈ technologies (extractEntities input).
Proof.
  unfold suggestTechnologies. rewrite spreadSet_dedupFirst. unfold dedupFirst.
  rewrite keepUnseen_elem.
  assert (Hheavy : strEq (complexity category) (js "high")
                   || strEq (complexity category) (js "enterprise") = true
                   <-> complexity category = js "high"
                       \/ complexity category = js "enterprise").
  { by rewrite orb_true_iff, !strEq_true. }
  destruct (strEq _ _ || strEq _ _) eqn:E.
  - rewrite !elem_of_app. split.
    + intros [[[?|?]|?] _]; [by left|right; left|by right; right].
      split; [by apply Hheavy|done].
    + intros [?|[[_ ?]|?]]; (split; [tauto|apply not_elem_of_nil]).
  - rewrite !elem_of_app. split.
    + intros [[?|?] _]; [by left|by right; right].
    + intros [?|[[Hc _]|?]]; [split; [tauto|apply not_elem_of_nil]| |
                              split; [tauto|apply not_elem_of_nil]].
      apply Hheavy in Hc. discriminate Hc.
Qed.

Lemma suggestTechnologies_head (category : ProjectCategory)
    (entities : ExtractedEntities) :
  exists rest, suggestTechnologies category entities = js "React" :: rest.
Proof.
  unfold suggestTechnologies. rewrite spreadSet_dedupFirst. unfold dedupFirst.
  destruct (strEq _ _ || strEq _ _); cbn [app];
    rewrite keepUnseen_fresh by apply not_elem_of_nil; by eexists.
Qed.

Lemma technologies_known (input tech : jsstring) :
  tech ∈ technologies (extractEntities input) -> tech ∈ technologyNames.
Proof.
  rewrite extractEntities_technologies_filter.
  intros (k & -> & Hk)%list_elem_of_fmap.
  apply list_elem_of_filter in Hk as [_ Hk].
  revert k Hk. apply Forall_forall. apply (bool_decide_unpack _).
  vm_compute. exact I.
Qed.

(** X17. From a valid request to the architecture document of the output.
    The suggested technologies are among React, Node.js, PostgreSQL, Redis
    and Docker, so the frontend of the diagram is always React and the
    only database it can name is PostgreSQL.  The cache layer is there
    when the description mentions "redis", the database line when it
    mentions "postgresql", and both when the project is categorized as
    high or enterprise complexity. *)
Theorem request_to_architecture (request : FeatureRequest) (w : nat) :
  isValid (validateInput (frDescription request)) = true ->
  exists spec output,
    let lowerInput := toLowerCase (frDescription request) in
    let category := categorizeProject (frDescription request) in
    let heavy :=
      complexity category = js "high" \/ complexity category = js "enterprise" in
    process request w
    = (Returned {| piIsValid := true; piErrors := None; data := Some spec |}, w)
    /\ generate spec w = (Returned output, 5 + w)
    /\ (forall tech, tech ∈ suggested (specTechnologies spec) ->
        tech ∈ [js "React"; js "Node.js"; js "PostgreSQL"; js "Redis"; js "Docker"])
    /\ includes (architecture output) (js "Frontend (React)") = true
    /\ (heavy \/ includes lowerInput (js "redis") = true ->
        includes (architecture output) (js "Cache Layer (Redis)") = true)
    /\ (heavy \/ includes lowerInput (js "postgresql") = true ->
        includes (architecture output) (js "Database (PostgreSQL)") = true).
Proof.
  intros Hv.
  set (input := frDescription request).
  set (techs := suggestTechnologies (categorizeProject input) (extractEntities input)).
  assert (Hknown : forall tech, tech ∈ techs ->
            tech ∈ [js "React"; js "Node.js"; js "PostgreSQL"; js "Redis"; js "Docker"]).
  { intros tech [Hb|[[_ Hb]|Ht]]%suggestTechnologies_elem.
    - revert tech Hb. apply Forall_forall. apply (bool_decide_unpack _).
      vm_compute. exact I.
    - revert tech Hb. apply Forall_forall. apply (bool_decide_unpack _).
      vm_compute. exact I.
    - apply technologies_known in Ht. revert tech Ht. apply Forall_forall.
      apply (bool_decide_unpack _). vm_compute. exact I. }
  assert (Hmention : forall keyword,
            keyword ∈ techKeywords -> includes (toLowerCase input) keyword = true ->
            canonicalTech keyword ∈ techs).
  { intros keyword Hk Hin. apply suggestTechnologies_elem. right. right.
    rewrite extractEntities_technologies_filter.
    apply list_elem_of_fmap. exists keyword. split; [done|].
    by apply list_elem_of_filter. }
  assert (Hp : exists spec,
            process request w
            = (Returned {| piIsValid := true; piErrors := None; data := Some spec |},
               w)
            /\ suggested (specTechnologies spec) = techs).
  { eexists. split; [unfold process, tryCatch; rewrite Hv; reflexivity|].
    reflexivity. }
  destruct Hp as (spec & Hp & Hs).
  destruct (generate_output spec w) as (coreFiles & testFiles & _ & _ & Hgen).
  eexists spec, _. cbv zeta.
  split; [exact Hp|]. split; [exact Hgen|]. cbn [architecture].
  rewrite Hs. split; [exact Hknown|]. split; [|split].
  - pose proof (architecture_frontend 3 spec) as Hf. rewrite Hs in Hf.
    destruct (suggestTechnologies_head (categorizeProject input)
                (extractEntities input)) as [rest Hrest].
    fold techs in Hrest. rewrite Hrest in Hf. exact Hf.
  - intros Hc. apply architecture_cache. rewrite Hs. destruct Hc as [Hc|Hc].
    + apply suggestTechnologies_elem. right. left. split; [done|].
      apply list_elem_of_further, list_elem_of_here.
    + apply (Hmention (js "redis")); [|done].
      do 2 apply list_elem_of_further. apply list_elem_of_here.
  - intros Hc. apply (architecture_database 3 spec (js "PostgreSQL")).
    rewrite Hs. apply find_only.
    + destruct Hc as [Hc|Hc].
      * apply suggestTechnologies_elem. right. left. split; [done|].
        apply list_elem_of_here.
      * apply (Hmention (js "postgresql")); [|done].
        apply list_elem_of_further, list_elem_of_here.
    + reflexivity.
    + intros y Hy Hdb. apply Hknown in Hy.
      repeat (apply elem_of_cons in Hy as [->|Hy];
              [first [reflexivity | vm_compute in Hdb; discriminate Hdb]|]).
      by apply elem_of_nil in Hy.
Qed.

End Pipeline.

(** ** What of the description reaches the spec *)


Section Flow.
Context `{Runtime}.


End Flow.

(** ** More concrete runs *)
Section FurtherExamples.
#[local] Existing Instance sampleRuntime.

(** X3 on a five-character input. *)
Lemma validateInput_length_errors_witness :
  js "Input must be at least 10 characters" ∈ errors (validateInput (js "short")).
Proof.
  destruct (validateInput_length_errors (js "short") ltac:(vm_compute; discriminate))
    as (Hshort & _).
  apply Hshort. vm_compute. reflexivity.
Defined.

(** X5 on two spellings of one description. *)
Lemma input_case_insensitive_witness :
  generateStructuredSpec (js "Build a BLOG Application with Redis") 0
  = generateStructuredSpec (js "build a blog application WITH REDIS") 0.
Proof.
  destruct (input_case_insensitive (js "Build a BLOG Application with Redis")
              (js "build a blog application WITH REDIS")
              ltac:(apply (bool_decide_unpack _); vm_compute; exact I)
              ltac:(apply (bool_decide_unpack _); vm_compute; exact I)
              ltac:(vm_compute; reflexivity))
    as (_ & _ & _ & Hspec).
  apply Hspec.
Defined.

(** X8 on a request whose description is too short. *)
Lemma process_follows_validation_witness :
  process {| frDescription := js "short";
             frComplexity := js "medium";
             frFramework := js "react";
             frIncludeTests := true;
             frIncludeDocs := true;
             frAiProvider := js "openai" |} 0
  = (Returned {| piIsValid := false;
                 piErrors := Some [js "Input must be at least 10 characters"];
                 data := None |}, 0).
Proof.
  exact (proj1 (process_follows_validation
                  {| frDescription := js "short";
                     frComplexity := js "medium";
                     frFramework := js "react";
                     frIncludeTests := true;
                     frIncludeDocs := true;
                     frAiProvider := js "openai" |} 0) eq_refl).
Defined.

(** X9 on the sample spec, which suggests PostgreSQL and Redis and is of
    low complexity. *)
Lemma architecture_diagram_witness :
  exists after,
    generateArchitectureContent 3 sampleSpec
    = js "# Phase 3: Architecture - Blog Application" ++ nl
      ++ nl ++ js "## System Architecture" ++ nl
      ++ js "```" ++ nl
      ++ join nl [js "Frontend (React)";
                  downArrow;
                  js "API Gateway";
                  downArrow;
                  js "Backend Service (Node.js)";
                  downArrow;
                  js "Cache Layer (Redis)";
                  downArrow;
                  js "Database (PostgreSQL)"] ++ nl
      ++ js "```" ++ nl
      ++ nl ++ js "## Component Structure" ++ nl
      ++ after.
Proof.
  destruct (architecture_diagram 3 sampleSpec) as [after Hdoc].
  exists after. rewrite Hdoc. vm_compute. reflexivity.
Defined.

(** X15 on a provider that always fails, and on one that recovers. *)
Lemma callAIWithRetry_schedule_witness :
  AIService.callAIWithRetryVia failingProvider failingProvider
    (js "Generate a specification") (js "openai") []
  = (AIService.Rejected serverError, [1000%N; 2000%N])
  /\ AIService.callAIWithRetryVia recoveringProvider recoveringProvider
       (js "Generate a specification") (js "claude") []
     = (AIService.Resolved (js "Success response"), [1000%N]).
Proof.
  split.
  - destruct (callAIWithRetry_schedule failingProvider failingProvider
                (js "Generate a specification") (js "openai") [])
      as (_ & Hgive & _).
    exact (Hgive (Some 500%N) (Some (js "Server error")) (fun _ => eq_refl)).
  - destruct (callAIWithRetry_schedule recoveringProvider recoveringProvider
                (js "Generate a specification") (js "claude") [])
      as (_ & _ & Hrecover & _).
    exact (Hrecover (Some 500%N) (Some (js "Server error")) (js "Success response")
             [] [1000%N] eq_refl eq_refl eq_refl).
Defined.

(** X17 on a request that mentions Redis. *)
Lemma request_to_architecture_witness :
  exists spec output,
    process redisRequest 0
    = (Returned {| piIsValid := true; piErrors := None; data := Some spec |}, 0)
    /\ generate spec 0 = (Returned output, 5)
    /\ includes (architecture output) (js "Frontend (React)") = true
    /\ includes (architecture output) (js "Cache Layer (Redis)") = true.
Proof.
  destruct (request_to_architecture redisRequest 0 ltac:(vm_compute; reflexivity))
    as (spec & output & Hp & Hg & _ & Hfront & Hcache & _).
  exists spec, output. split; [exact Hp|]. split; [exact Hg|].
  split; [exact Hfront|]. apply Hcache. right. vm_compute. reflexivity.
Defined.


End FurtherExamples.
